(** * Travel concierge agent: a shallow embedding of the orchestration core

    The Python sources embedded here are
      - app/main.py            (create_kernel, run_request)
      - app/rag/retriever.py   (embed_texts, retrieve)
      - app/tools/weather.py   (WeatherTools.get_weather)
      - app/tools/fx.py        (FxTools.convert_fx)
    together with two components the sources import but do not contain
    (app/state.py and app/memory.py), which are modelled from the
    specification and marked as such.

    Conventions.  Python [str] is [string]; Python [int] is [Z]; Python
    [float] is idealised as an exact rational [Q]; counters and lengths are
    [nat]; a Python call that may
    raise is a computation in the [result] monad; a [try]/[except] block is
    [try_except] with an ordered list of handler clauses. *)

From Stdlib Require Import ZArith QArith Qround Lqa List String Ascii Bool Lia Sorted Permutation.
Import ListNotations.

Open Scope string_scope.
Open Scope Z_scope.

(* ===================================================================== *)
(** * Part I. Definitions                                                  *)
(* ===================================================================== *)

(** ** Python exceptions and control flow *)
Module Py.

(** The exception classes the sources raise, catch or can receive.  Every
    value of this type is an instance of Python's [Exception]; interpreter
    signals deriving from [BaseException] only are not modelled. *)
Inductive exn_class : Type :=
| Exception            (* raise Exception("...") *)
| ValueError
| JSONDecodeError      (* json.JSONDecodeError, a subclass of ValueError *)
| ValidationError      (* pydantic's ValidationError, a subclass of ValueError *)
| TypeError
| IndexError
| KeyError
| ZeroDivisionError
| RequestException     (* requests.RequestException and its subclasses *)
| InvalidTransition    (* the state machine's error *)
| ServiceError.        (* any other failure of a remote collaborator *)

Record exn : Type := mk_exn { exn_cls : exn_class; exn_msg : string }.

(** [isinstance(e, ValueError)] *)
Definition is_ValueError (e : exn) : bool :=
  match exn_cls e with
  | ValueError | JSONDecodeError | ValidationError => true
  | _ => false
  end.

(** [isinstance(e, json.JSONDecodeError)] *)
Definition is_JSONDecodeError (e : exn) : bool :=
  match exn_cls e with
  | JSONDecodeError => true
  | _ => false
  end.

(** [isinstance(e, requests.RequestException)] *)
Definition is_RequestException (e : exn) : bool :=
  match exn_cls e with
  | RequestException => true
  | _ => false
  end.

(** [isinstance(e, Exception)] *)
Definition is_Exception (e : exn) : bool := true.

(** [str(e)] *)
Definition str (e : exn) : string := exn_msg e.

Inductive result (A : Type) : Type :=
| Return (a : A)
| Raise (e : exn).
Arguments Return {A} a.
Arguments Raise {A} e.

Definition bind {A B : Type} (c : result A) (k : A -> result B) : result B :=
  match c with
  | Return a => k a
  | Raise e => Raise e
  end.

(** One [except <classes> as e: <handler>] clause. *)
Definition clause (A : Type) : Type := ((exn -> bool) * (exn -> result A))%type.

(** The first clause whose class test accepts the exception handles it;
    with no such clause the exception propagates. *)
Fixpoint dispatch {A : Type} (clauses : list (clause A)) (e : exn) : result A :=
  match clauses with
  | [] => Raise e
  | (accepts, handler) :: rest =>
      if accepts e then handler e else dispatch rest e
  end.

Definition try_except {A : Type} (body : result A) (clauses : list (clause A))
  : result A :=
  match body with
  | Return a => Return a
  | Raise e => dispatch clauses e
  end.

(** A best-effort call: [try: c  except Exception: log]. *)
Definition swallow (c : result unit) : result unit :=
  try_except c [(is_Exception, fun _ => Return tt)].

(** [s.find(c)] for a one-character needle: first index, or -1. *)
Fixpoint find (c : ascii) (s : string) : Z :=
  match s with
  | EmptyString => -1
  | String a s' =>
      if Ascii.eqb a c then 0
      else let r := find c s' in if r =? -1 then -1 else r + 1
  end.

(** [s.rfind(c)] for a one-character needle: last index, or -1. *)
Fixpoint rfind (c : ascii) (s : string) : Z :=
  match s with
  | EmptyString => -1
  | String a s' =>
      let r := rfind c s' in
      if r =? -1 then (if Ascii.eqb a c then 0 else -1) else r + 1
  end.

(** Slice bounds as Python normalises them. *)
Definition clamp_index (len i : Z) : Z :=
  if i <? 0 then Z.max 0 (i + len) else Z.min i len.

(** [s[i:j]] *)
Definition slice (s : string) (i j : Z) : string :=
  let len := Z.of_nat (String.length s) in
  let a := clamp_index len i in
  let b := clamp_index len j in
  substring (Z.to_nat a) (Z.to_nat (b - a)) s.

(** [s.upper()], on the ASCII letters. *)
Definition upper_char (a : ascii) : ascii :=
  let n := nat_of_ascii a in
  if ((97 <=? n) && (n <=? 122))%nat then ascii_of_nat (n - 32) else a.

Fixpoint upper (s : string) : string :=
  match s with
  | EmptyString => EmptyString
  | String a s' => String (upper_char a) (upper s')
  end.

(** [c.isspace()], on the ASCII range. *)
Definition is_space (a : ascii) : bool :=
  let n := nat_of_ascii a in
  (((9 <=? n) && (n <=? 13)) || ((28 <=? n) && (n <=? 32)))%nat.

Fixpoint lstrip (s : string) : string :=
  match s with
  | EmptyString => EmptyString
  | String a s' => if is_space a then lstrip s' else s
  end.

Fixpoint rstrip (s : string) : string :=
  match s with
  | EmptyString => EmptyString
  | String a s' =>
      match rstrip s' with
      | EmptyString => if is_space a then EmptyString else String a EmptyString
      | r => String a r
      end
  end.

(** [s.strip()] *)
Definition strip (s : string) : string := rstrip (lstrip s).

(** A [dict] with string keys, in insertion order. *)
Definition dict (V : Type) : Type := list (string * V).

(** [d.get(k)] *)
Fixpoint dict_get {V : Type} (d : dict V) (k : string) : option V :=
  match d with
  | [] => None
  | (k', v) :: rest => if String.eqb k' k then Some v else dict_get rest k
  end.

(** [d[k] = v]: an existing key keeps its position, a new key goes last. *)
Fixpoint dict_set {V : Type} (d : dict V) (k : string) (v : V) : dict V :=
  match d with
  | [] => [(k, v)]
  | (k', v') :: rest =>
      if String.eqb k' k then (k', v) :: rest else (k', v') :: dict_set rest k v
  end.

(** Iterating a dict yields its keys in insertion order. *)
Definition dict_keys {V : Type} (d : dict V) : list string := map fst d.

(** The scan of [max(iterable, key=f)]: a later element replaces the
    current best only when its key is strictly greater. *)
Fixpoint max_scan {A : Type} (f : A -> nat) (best : A) (rest : list A) : A :=
  match rest with
  | [] => best
  | x :: rest' =>
      if (f best <? f x)%nat then max_scan f x rest' else max_scan f best rest'
  end.

(** [max(iterable, key=f)] *)
Definition max_by {A : Type} (f : A -> nat) (xs : list A) : result A :=
  match xs with
  | [] => Raise (mk_exn ValueError "max() arg is an empty sequence")
  | x :: rest => Return (max_scan f x rest)
  end.

(** [x / y] on numbers. *)
Definition truediv (x y : Q) : result Q :=
  if Qeq_bool y 0 then Raise (mk_exn ZeroDivisionError "division by zero")
  else Return (x / y)%Q.

(** [sum(xs)] *)
Definition sum (xs : list Q) : Q := fold_left Qplus xs 0%Q.

(** [round(x, ndigits)]: to the nearest multiple of 10^-ndigits, halves to
    the even neighbour. *)
Definition round_half_even (x : Q) : Z :=
  let f := Qfloor x in
  let d := (x - inject_Z f)%Q in
  match (d ?= 1 # 2)%Q with
  | Lt => f
  | Gt => f + 1
  | Eq => if Z.even f then f else f + 1
  end.

Definition round (x : Q) (ndigits : nat) : Q :=
  let scale := Z.pow 10 (Z.of_nat ndigits) in
  (inject_Z (round_half_even (x * inject_Z scale)) / inject_Z scale)%Q.

End Py.

Import Py.

Declare Scope py_scope.
Notation "x <- c ;; k" := (bind c (fun x => k))
  (at level 61, c at next level, right associativity) : py_scope.
Notation "c ;;; k" := (bind c (fun _ => k))
  (at level 61, right associativity) : py_scope.
Open Scope py_scope.

(** ** Session state machine (app/state.py) *)
Module State.

(** Modelled from the spec: app/state.py is imported by main.py but is not
    among the sources.  The phases and their fixed order are those of the
    data model: Init, Received, Dispatched, Completed, Validated, and the
    absorbing Failed. *)
Inductive Phase : Type :=
| Init | Received | Dispatched | Completed | Validated | Failed.

(** Modelled from the spec: the session owns an opaque identifier and the
    current phase. *)
Record AgentState : Type := mk_state { session_id : string; phase : Phase }.

(** Modelled from the spec: [AgentState()] starts a fresh machine in
    [Init]; the identifier is generated once per conversation. *)
Definition new (sid : string) : AgentState := mk_state sid Init.

(** Modelled from the spec: [advance()] moves to the next phase of the
    fixed sequence and fails with InvalidTransition after Failed or past
    Validated. *)
Definition advance (st : AgentState) : result AgentState :=
  match phase st with
  | Init => Return (mk_state (session_id st) Received)
  | Received => Return (mk_state (session_id st) Dispatched)
  | Dispatched => Return (mk_state (session_id st) Completed)
  | Completed => Return (mk_state (session_id st) Validated)
  | Validated =>
      Raise (mk_exn InvalidTransition "cannot advance past Validated")
  | Failed =>
      Raise (mk_exn InvalidTransition "cannot advance after Failed")
  end.



End State.

(** ** Short-term memory (app/memory.py) *)
Module Memory.

Inductive Role : Type := user | assistant.

(** Modelled from the spec: app/memory.py is imported by main.py but is not
    among the sources.  A conversation item carries role, content and
    timestamp. *)
Record ConversationItem : Type :=
  mk_item { role : Role; content : string; timestamp : nat }.

(** Modelled from the spec: the immutable budget that governs eviction. *)
Record MemoryBudget : Type := mk_budget { max_items : nat; max_tokens : nat }.

(** Modelled from the spec: the token estimate is a cheap approximation
    chosen by the implementation, so the memory carries its estimator. *)
Record ShortTermMemory : Type :=
  mk_memory {
    session_id : string;
    budget : MemoryBudget;
    estimated_token_count : list ConversationItem -> nat;
    items : list ConversationItem
  }.

(** Modelled from the spec: the example estimator, content length / 4. *)
Definition length_over_four (l : list ConversationItem) : nat :=
  fold_right (fun it acc => (String.length (content it) / 4 + acc)%nat) 0%nat l.

Definition over_budget (b : MemoryBudget)
    (est : list ConversationItem -> nat) (l : list ConversationItem) : bool :=
  (max_items b <? List.length l)%nat || (max_tokens b <? est l)%nat.

(** Modelled from the spec: drop oldest items while the count exceeds
    [max_items] or the estimate of what remains exceeds [max_tokens]. *)
Fixpoint evict (b : MemoryBudget) (est : list ConversationItem -> nat)
    (l : list ConversationItem) : list ConversationItem :=
  match l with
  | [] => []
  | _ :: rest => if over_budget b est l then evict b est rest else l
  end.

(** Modelled from the spec: [add(role, content)] appends an item, then
    evicts. *)
Definition add (m : ShortTermMemory) (r : Role) (c : string) (now : nat)
  : ShortTermMemory :=
  mk_memory (session_id m) (budget m) (estimated_token_count m)
    (evict (budget m) (estimated_token_count m)
       (items m ++ [mk_item r c now])).

(** Modelled from the spec: [history()] is the ordered sequence, oldest
    first. *)
Definition history (m : ShortTermMemory) : list ConversationItem := items m.

(** [ShortTermMemory(max_items=.., max_tokens=..)] *)
Definition new (sid : string) (mi mt : nat) : ShortTermMemory :=
  mk_memory sid (mk_budget mi mt) length_over_four [].


End Memory.

(** ** Weather tool (app/tools/weather.py) *)
Module Weather.

(** First entry of the geocoding response's "results". *)
Record geo_result : Type :=
  mk_geo {
    latitude : option Q;
    longitude : option Q;
    name : option string;
    country : option string
  }.

(** The "daily" block of the forecast response; an absent key reads as the
    empty list, as [daily.get(key, [])] does. *)
Record daily_block : Type :=
  mk_daily {
    temperature_2m_max : list Q;
    temperature_2m_min : list Q;
    weathercode : list Z
  }.

(** The two HTTP endpoints: [requests.get], [raise_for_status] and
    [.json()] together either produce the decoded body or raise. *)
Record Provider : Type :=
  mk_provider {
    geocoding_search : string -> result (list geo_result);
    forecast : Q -> Q -> result daily_block
  }.

(** The dictionary handed to [json.dumps]. *)
Inductive report : Type :=
| Forecast (city country : string)
    (temperature_c temperature_max_c temperature_min_c : Q)
    (conditions recommendation : string) (forecast_days : nat)
| Degraded (error : string) (conditions recommendation : string).

Definition interpret_code (code : Z) : string :=
  if code <=? 1 then "sunny"
  else if code <=? 3 then "cloudy"
  else if code >? 50 then "rainy"
  else "mixed".

(** [condition_counts[c] = condition_counts.get(c, 0) + 1] *)
Definition count_condition (counts : dict nat) (c : string) : dict nat :=
  dict_set counts c (match dict_get counts c with Some n => n | None => O end + 1)%nat.

Definition condition_counts (conditions_list : list string) : dict nat :=
  fold_left count_condition conditions_list [].

(** [condition_counts.get], the key function handed to [max]. *)
Definition counts_get (counts : dict nat) (c : string) : nat :=
  match dict_get counts c with Some n => n | None => O end.

Definition dominant_condition (weather_codes : list Z) : result string :=
  let conditions_list := map interpret_code weather_codes in
  let counts := condition_counts conditions_list in
  max_by (counts_get counts) (dict_keys counts).

Definition base_recommendation (dominant : string) : string :=
  if String.eqb dominant "sunny" then
    "Great weather! Pack sunscreen and light clothing."
  else if String.eqb dominant "cloudy" then
    "Expect overcast skies. Bring layers for varying temperatures."
  else if String.eqb dominant "rainy" then
    "Rain expected. Pack an umbrella and waterproof jacket."
  else "Mixed conditions expected. Pack for various weather types.".

Definition cold_advice : string := " Cold temperatures - bring warm clothing.".
Definition hot_advice : string := " Hot weather - stay hydrated and seek shade.".

Definition recommend (dominant : string) (avg_temp : Q) : string :=
  let recommendation := base_recommendation dominant in
  if Qlt_le_dec avg_temp 10 then recommendation ++ cold_advice
  else if Qlt_le_dec 30 avg_temp then recommendation ++ hot_advice
  else recommendation.

Definition len_Q {A : Type} (l : list A) : Q := inject_Z (Z.of_nat (List.length l)).

(** The body of the [try] block. *)
Definition get_weather_body (api : Provider) (city : string) : result report :=
  results <- geocoding_search api city ;;
  match results with
  | [] =>
      Return (Degraded ("City '" ++ city ++ "' not found") "unknown"
                "Unable to get weather data")
  | first :: _ =>
      lat <- match latitude first with
             | Some v => Return v
             | None => Raise (mk_exn KeyError "'latitude'")
             end ;;
      lon <- match longitude first with
             | Some v => Return v
             | None => Raise (mk_exn KeyError "'longitude'")
             end ;;
      let city_name := match name first with Some n => n | None => city end in
      let country_name := match country first with Some c => c | None => "" end in
      daily <- forecast api lat lon ;;
      let temps_max := temperature_2m_max daily in
      let temps_min := temperature_2m_min daily in
      let weather_codes := weathercode daily in
      match temps_max, temps_min with
      | [], _ | _, [] =>
          Return (Degraded "No temperature data available" "unknown"
                    "Unable to get weather data")
      | _, _ =>
          avg_max <- truediv (sum temps_max) (len_Q temps_max) ;;
          avg_min <- truediv (sum temps_min) (len_Q temps_min) ;;
          avg_temp <- truediv (avg_max + avg_min)%Q 2 ;;
          dominant <- dominant_condition weather_codes ;;
          Return (Forecast city_name country_name
                    (round avg_temp 1) (round avg_max 1) (round avg_min 1)
                    dominant (recommend dominant avg_temp)
                    (List.length temps_max))
      end
  end.

Definition get_weather (api : Provider) (city : string) : result report :=
  try_except (get_weather_body api city)
    [ (is_RequestException,
       fun e => Return (Degraded ("Weather API request failed: " ++ str e)
                          "unknown" "Unable to fetch weather data"));
      (is_Exception,
       fun e => Return (Degraded ("Weather tool error: " ++ str e)
                          "unknown" "An error occurred")) ].

End Weather.

(** ** Currency tool (app/tools/fx.py) *)
Module Fx.

(** The decoded body of the Frankfurter response: ["rates"] (absent reads
    as the empty dict) and ["date"]. *)
Record fx_data : Type :=
  mk_fx_data { rates : dict Q; date : option string }.

(** [requests.get(url, params)], [raise_for_status] and [.json()], as a
    function of the request parameters amount, from and to. *)
Definition Frankfurter : Type := Q -> string -> string -> result fx_data.

(** The dictionary handed to [json.dumps]. *)
Inductive report : Type :=
| Converted (base target : string) (amount converted_amount rate : Q)
    (date : string)
| Degraded (error : string) (base target : string) (amount : Q).

(** [converted_amount / amount if amount > 0 else 0] *)
Definition exchange_rate (converted_amount amount : Q) : result Q :=
  if Qlt_le_dec 0 amount then truediv converted_amount amount else Return 0%Q.

(** The body of the [try] block, after the two codes are normalised. *)
Definition convert_fx_body (api : Frankfurter) (amount : Q)
    (base target : string) : result report :=
  data <- api amount base target ;;
  match dict_get (rates data) target with
  | None =>
      Return (Degraded ("Currency '" ++ target ++ "' not supported")
                base target amount)
  | Some converted_amount =>
      rate <- exchange_rate converted_amount amount ;;
      Return (Converted base target amount
                (round converted_amount 2) (round rate 6)
                (match date data with Some d => d | None => "unknown" end))
  end.

Definition convert_fx (api : Frankfurter) (amount : Q)
    (base target : string) : result report :=
  let base := strip (upper base) in
  let target := strip (upper target) in
  try_except (convert_fx_body api amount base target)
    [ (is_RequestException,
       fun e => Return (Degraded ("Currency conversion failed: " ++ str e)
                          base target amount));
      (is_Exception,
       fun e => Return (Degraded ("FX tool error: " ++ str e)
                          base target amount)) ].

End Fx.

(** ** Retrieval engine (app/rag/retriever.py) *)
Module Retriever.

(** The Python values an embedding vector can turn out to be. *)
#[warnings="-register-all"]
Inductive pyvalue : Type :=
| PyFloat (x : Q)
| PyNone
| PyList (elements : list pyvalue).

(** Truth value of an object, as [not v] tests it. *)
Definition truthy (v : pyvalue) : bool :=
  match v with
  | PyFloat x => negb (Qeq_bool x 0)
  | PyNone => false
  | PyList l => match l with [] => false | _ => true end
  end.

(** [isinstance(v, list)] *)
Definition is_list (v : pyvalue) : bool :=
  match v with PyList _ => true | _ => false end.

(** [float(x)] *)
Definition float (v : pyvalue) : result Q :=
  match v with
  | PyFloat x => Return x
  | _ => Raise (mk_exn TypeError "float() argument must be a string or a real number")
  end.

(** [[float(x) for x in xs]] *)
Fixpoint floats (xs : list pyvalue) : result (list Q) :=
  match xs with
  | [] => Return []
  | x :: rest => q <- float x ;; qs <- floats rest ;; Return (q :: qs)
  end.

(** What the embedding service hands back for one text: an array with a
    [tolist] method, some other iterable, or something [list()] rejects. *)
Inductive service_vector : Type :=
| NdArray (tolist : pyvalue)
| Iterable (elements : list pyvalue)
| Opaque.

(** A stored item; [embedding] is [None] when the field is undefined or
    not an array. *)
Record document : Type :=
  mk_document {
    id : string;
    text : string;
    pk : string;
    embedding : option (list Q)
  }.

(** A row of the query's SELECT list. *)
Record row : Type :=
  mk_row { row_id : string; row_text : string; row_pk : string; distance : Q }.

(** The Cosmos container: its items, the store's VectorDistance function,
    and whether the service currently fails. *)
Record Container : Type :=
  mk_container {
    documents : list document;
    VectorDistance : list Q -> list Q -> Q;
    outage : option exn
  }.

Record Environment : Type :=
  mk_environment {
    (** [get_cosmos_client()]: [(None, None)] when the connection failed. *)
    cosmos : option Container;
    (** [create_embedding_kernel()] returned a kernel rather than [None]. *)
    embedding_kernel : bool;
    (** [embedding_service.generate_embeddings] *)
    generate_embeddings : list string -> result (list service_vector)
  }.

(** [embedding_vector.tolist()] when the method exists, else
    [list(embedding_vector)]. *)
Definition to_list (v : service_vector) : result pyvalue :=
  match v with
  | NdArray t => Return t
  | Iterable l => Return (PyList l)
  | Opaque => Raise (mk_exn TypeError "object is not iterable")
  end.

(** The [for text in texts] loop of [embed_texts]. *)
Fixpoint embed_each (env : Environment) (texts : list string)
  : result (list pyvalue) :=
  match texts with
  | [] => Return []
  | t :: rest =>
      vectors <- generate_embeddings env [t] ;;
      v <- match vectors with
           | [] => Raise (mk_exn IndexError "list index out of range")
           | first :: _ => Return first
           end ;;
      e <- to_list v ;;
      es <- embed_each env rest ;;
      Return (e :: es)
  end.

Definition embed_texts (env : Environment) (texts : list string)
  : result (list pyvalue) :=
  try_except
    (if embedding_kernel env then embed_each env texts
     else Raise (mk_exn Exception "Failed to create embedding kernel"))
    [ (is_Exception,
       fun e => Raise (mk_exn Exception ("Failed to generate embeddings: " ++ str e))) ].

(** WHERE IS_DEFINED(c.embedding) AND IS_ARRAY(c.embedding) [AND c.pk = @pk] *)
Definition selected (partition : option string) (d : document) : bool :=
  match embedding d with
  | None => false
  | Some _ =>
      match partition with
      | None => true
      | Some p => String.eqb (pk d) p
      end
  end.

(** SELECT c.id, c.text, c.pk, VectorDistance(c.embedding, @queryVector) *)
Definition project (c : Container) (query_vector : list Q) (d : document) : row :=
  mk_row (id d) (text d) (pk d)
    (VectorDistance c (match embedding d with Some v => v | None => [] end)
       query_vector).

(** ORDER BY VectorDistance(...), ascending as the query text leaves the
    direction at its default: a stable insertion sort. *)
Fixpoint insert_row (r : row) (sorted : list row) : list row :=
  match sorted with
  | [] => [r]
  | r' :: rest =>
      if Qle_bool (distance r) (distance r') then r :: sorted
      else r' :: insert_row r rest
  end.

Definition order_by_distance (rows : list row) : list row :=
  fold_right insert_row [] rows.

(** [list(container.query_items(query=sql, parameters=params, ...))]: the
    store evaluates SELECT TOP @k ... WHERE ... ORDER BY ... as written,
    and rejects a negative count. *)
Definition query_items (c : Container) (partition : option string) (k : Z)
    (query_vector : list Q) : result (list row) :=
  match outage c with
  | Some e => Raise e
  | None =>
      if k <? 0 then Raise (mk_exn ServiceError "TOP expects a non-negative count")
      else
        Return (firstn (Z.to_nat k)
                  (order_by_distance
                     (map (project c query_vector)
                        (filter (selected partition) (documents c)))))
  end.

(** [if partition_key:] — [None] and the empty string select no partition. *)
Definition partition_filter (partition_key : option string) : option string :=
  match partition_key with
  | Some p => if String.eqb p "" then None else Some p
  | None => None
  end.

(** The body of the [try] block of [retrieve]. *)
Definition retrieve_body (env : Environment) (query : string) (k : Z)
    (partition_key : option string) : result (list row) :=
  container <- match cosmos env with
               | Some c => Return c
               | None => Raise (mk_exn Exception "Cosmos DB not available")
               end ;;
  query_embedding <- embed_texts env [query] ;;
  let query_vector :=
    match query_embedding with [] => PyList [] | first :: _ => first end in
  if negb (truthy query_vector) || negb (is_list query_vector) then
    Raise (mk_exn ValueError "Invalid embedding format")
  else
    match query_vector with
    | PyList [] => Raise (mk_exn ValueError "Empty embedding vector")
    | PyList xs =>
        query_vector <- floats xs ;;
        query_items container (partition_filter partition_key) k query_vector
    | _ => Raise (mk_exn TypeError "object has no len()")
    end.

Definition retrieve (env : Environment) (query : string) (k : Z)
    (partition_key : option string) : result (list row) :=
  try_except (retrieve_body env query k partition_key)
    [ (is_Exception, fun _ => Return []) ].

End Retriever.

(** ** Orchestrator and response pipeline (app/main.py) *)
Module Main.

(** A decoded JSON document, as [json.loads] returns it. *)
#[warnings="-register-all"]
Inductive json : Type :=
| JNull
| JBool (b : bool)
| JNumber (x : Q)
| JString (s : string)
| JArray (elements : list json)
| JObject (members : list (string * json)).

(** Modelled from the spec: app/models.py is imported by main.py but is not
    among the sources.  One entry of the plan's result list; every field is
    nullable. *)
Record SearchResult : Type :=
  mk_result {
    title : option string;
    snippet : option string;
    url : option string;
    price_range : option string;
    rating : option Q;
    category : option string
  }.

(** Modelled from the spec: the structured output contract.  The optional
    blocks are kept as decoded JSON. *)
Record TripPlan : Type :=
  mk_plan {
    destination : string;
    travel_dates : string;
    weather : option json;
    results : option (list SearchResult);
    card_recommendation : option json;
    currency_info : option json;
    citations : option (list string);
    next_steps : option (list string)
  }.

Record LongTermRecord : Type :=
  mk_record {
    record_session_id : string;
    record_content : string;
    memory_type : string;
    importance_score : Q;
    tags : list string
  }.

(** [long_term_memory.add_memory] *)
Definition LongTermMemory : Type := LongTermRecord -> result unit.

Record service_config : Type :=
  mk_service {
    service_id : string;
    deployment_name : string;
    endpoint : string;
    api_key : string;
    api_version : string
  }.

Record Kernel : Type :=
  mk_kernel { services : list service_config; plugins : list string }.

Inductive chat_message : Type :=
| system_message (content : string)
| user_message (content : string)
| assistant_message (content : string).

(** Everything [run_request] reaches outside its own code. *)
Record World : Type :=
  mk_world {
    (** [os.environ] *)
    environ : string -> option string;
    (** [validate_all_config()] *)
    validate_all_config : result unit;
    (** the constructors [AzureChatCompletion(...)], [AzureTextEmbedding(...)] *)
    connect : service_config -> result unit;
    (** the identifier a fresh [AgentState()] generates *)
    new_session_id : string;
    (** the identifier a fresh [ShortTermMemory(...)] generates *)
    new_memory_id : string;
    (** the clock read by [add_conversation] *)
    now : nat;
    (** the literal of main.py lines 125-212 *)
    system_prompt : string;
    (** [chat_service.get_chat_message_contents]: the content of each
        returned message *)
    get_chat_message_contents :
      service_config -> list chat_message -> result (list string);
    (** [json.loads] *)
    json_loads : string -> result json;
    (** the constructor of [TripPlan], applied to the unpacked members *)
    TripPlan_init : list (string * json) -> result TripPlan
  }.

Record metadata : Type :=
  mk_metadata {
    session_id : string;
    tools_called : list string;
    data_quality : string;
    memory_items : option nat;
    parse_error : option string;
    validation_error : option string
  }.

(** The dictionary handed to [json.dumps]. *)
Inductive envelope : Type :=
| Plan (trip_plan : TripPlan) (meta : metadata)
| Raw (raw_response : string) (meta : metadata)
| Failure (error : string) (status : string).

(** [os.environ[key]] *)
Definition environ_item (w : World) (key : string) : result string :=
  match environ w key with
  | Some v => Return v
  | None => Raise (mk_exn KeyError key)
  end.

(** [os.environ.get(key, default)] *)
Definition environ_get (w : World) (key default : string) : string :=
  match environ w key with Some v => v | None => default end.

Definition add_service (w : World) (deployment : string) : result service_config :=
  endpoint <- environ_item w "AZURE_OPENAI_ENDPOINT" ;;
  api_key <- environ_item w "AZURE_OPENAI_KEY" ;;
  let service :=
    mk_service deployment deployment endpoint api_key
      (environ_get w "AZURE_OPENAI_API_VERSION" "2024-02-15-preview") in
  connect w service ;;;
  Return service.

Definition create_kernel (w : World) : result Kernel :=
  chat <- add_service w
            (environ_get w "AZURE_OPENAI_CHAT_DEPLOYMENT" "gpt-4o-mini") ;;
  embed <- add_service w
             (environ_get w "AZURE_OPENAI_EMBED_DEPLOYMENT" "text-embedding-3-small") ;;
  Return (mk_kernel [chat; embed]
            ["weather"; "fx"; "search"; "card"; "knowledge"]).

(** [kernel.get_service(type=ChatCompletionClientBase)]: the chat service
    is the one registered first. *)
Definition get_service (kernel : Kernel) : result service_config :=
  match services kernel with
  | chat :: _ => Return chat
  | [] => Raise (mk_exn ServiceError "no chat completion service registered")
  end.

(** The best-effort mirror into the long-term store. *)
Definition mirror (long_term_memory : option LongTermMemory)
    (r : LongTermRecord) : result unit :=
  match long_term_memory with
  | Some add_memory => swallow (add_memory r)
  | None => Return tt
  end.

Definition replay (item : Memory.ConversationItem) : chat_message :=
  match Memory.role item with
  | Memory.user => user_message (Memory.content item)
  | Memory.assistant => assistant_message (Memory.content item)
  end.

(** Lines 87-263: everything up to and including the storage of the
    assistant's reply.  Yields the state machine, the memory and the
    reply. *)
Definition obtain_response (w : World) (user_input : string)
    (memory : option Memory.ShortTermMemory)
    (long_term_memory : option LongTermMemory)
  : result (State.AgentState * Memory.ShortTermMemory * string) :=
  validate_all_config w ;;;
  kernel <- create_kernel w ;;
  let state := State.new (new_session_id w) in
  let memory :=
    match memory with
    | None => Memory.new (new_memory_id w) 10 4000
    | Some m => m
    end in
  let memory := Memory.add memory Memory.user user_input (now w) in
  mirror long_term_memory
    (mk_record (Memory.session_id memory) user_input "conversation" (1 # 2)
       ["user_input"]) ;;;
  state <- State.advance state ;;
  chat_service <- get_service kernel ;;
  let chat_history :=
    system_message (system_prompt w)
      :: map replay (Memory.history memory) ++ [user_message user_input] in
  state <- State.advance state ;;
  response <- get_chat_message_contents w chat_service chat_history ;;
  state <- State.advance state ;;
  agent_response <- match response with
                    | first :: _ => Return first
                    | [] => Raise (mk_exn IndexError "list index out of range")
                    end ;;
  let memory :=
    Memory.add memory Memory.assistant (slice agent_response 0 500) (now w) in
  mirror long_term_memory
    (mk_record (Memory.session_id memory) (slice agent_response 0 500)
       "conversation" (6 # 10) ["assistant_response"]) ;;;
  Return (state, memory, agent_response).

(** Lines 268-274: the substring from the first opening brace to the last
    closing brace. *)
Definition extract_json (agent_response : string) : result string :=
  let json_start := find "{" agent_response in
  let json_end := rfind "}" agent_response + 1 in
  if (json_start =? -1) || (json_end =? 0) then
    Raise (mk_exn ValueError "No JSON found in response")
  else Return (slice agent_response json_start json_end).

(** The call of the [TripPlan] constructor on the unpacked
    [response_data]: unpacking needs a mapping. *)
Definition validate (w : World) (response_data : json) : result TripPlan :=
  match response_data with
  | JObject members => TripPlan_init w members
  | _ => Raise (mk_exn TypeError "argument after ** must be a mapping")
  end.

(** [[r.url for r in results if r.url]] *)
Fixpoint urls_of (rs : list SearchResult) : list string :=
  match rs with
  | [] => []
  | r :: rest =>
      match url r with
      | Some u => if String.eqb u "" then urls_of rest else u :: urls_of rest
      | None => urls_of rest
      end
  end.

(** Lines 284-286. *)
Definition populate_citations (trip_plan : TripPlan) : TripPlan :=
  let no_citations :=
    match citations trip_plan with None | Some [] => true | Some _ => false end in
  match results trip_plan with
  | Some (r :: rs) =>
      if no_citations then
        mk_plan (destination trip_plan) (travel_dates trip_plan)
          (weather trip_plan) (results trip_plan)
          (card_recommendation trip_plan) (currency_info trip_plan)
          (Some (urls_of (r :: rs))) (next_steps trip_plan)
      else trip_plan
  | _ => trip_plan
  end.

(** Lines 266-336: the inner [try] with its two handlers. *)
Definition process_response (w : World) (state : State.AgentState)
    (memory : Memory.ShortTermMemory) (agent_response : string)
  : result envelope :=
  try_except
    (json_str <- extract_json agent_response ;;
     response_data <- json_loads w json_str ;;
     trip_plan <- validate w response_data ;;
     let trip_plan := populate_citations trip_plan in
     state <- State.advance state ;;
     Return (Plan trip_plan
               (mk_metadata (State.session_id state) ["automatic_via_llm"]
                  "validated_with_pydantic"
                  (Some (List.length (Memory.history memory))) None None)))
    [ (fun e => is_JSONDecodeError e || is_ValueError e,
       fun e =>
         Return (Raw agent_response
                   (mk_metadata (State.session_id state) ["automatic_via_llm"]
                      "unvalidated" None (Some (str e)) None)));
      (is_Exception,
       fun e =>
         Return (Raw agent_response
                   (mk_metadata (State.session_id state) ["automatic_via_llm"]
                      "validation_failed" None None (Some (str e))))) ].

Definition run_request (w : World) (user_input : string)
    (memory : option Memory.ShortTermMemory)
    (long_term_memory : option LongTermMemory) : result envelope :=
  try_except
    (r <- obtain_response w user_input memory long_term_memory ;;
     let '(state, memory, agent_response) := r in
     process_response w state memory agent_response)
    [ (is_Exception, fun e => Return (Failure (str e) "failed")) ].

End Main.


(** ** Sample collaborators for the orchestrator

    Stand-ins for the completion service, [json.loads] and the [TripPlan]
    constructor, used to run the pipeline on concrete replies. *)
Module Sample.

Import Main.

Definition dquote : string := String (ascii_of_nat 34) EmptyString.

(** A JSON string literal. *)
Definition quoted (s : string) : string := dquote ++ s ++ dquote.

Definition entry_text (title url : string) : string :=
  "{" ++ quoted "title" ++ ": " ++ quoted title ++ ", "
      ++ quoted "url" ++ ": " ++ quoted url ++ "}".

(** A plan with three results, one of them without a link, and no
    citations. *)
Definition paris_text : string :=
  "{" ++ quoted "destination" ++ ": " ++ quoted "Paris, France" ++ ", "
      ++ quoted "travel_dates" ++ ": " ++ quoted "N/A" ++ ", "
      ++ quoted "results" ++ ": ["
      ++ entry_text "Le Bistro" "https://bistro.example" ++ ", "
      ++ entry_text "Street market" "" ++ ", "
      ++ entry_text "Louvre" "https://louvre.example" ++ "], "
      ++ quoted "citations" ++ ": [], "
      ++ quoted "next_steps" ++ ": []}".

Definition entry_json (title url : string) : json :=
  JObject [("title", JString title); ("url", JString url)].

(** What [json.loads] makes of [paris_text]. *)
Definition paris_json : json :=
  JObject
    [ ("destination", JString "Paris, France");
      ("travel_dates", JString "N/A");
      ("results",
       JArray [ entry_json "Le Bistro" "https://bistro.example";
                entry_json "Street market" "";
                entry_json "Louvre" "https://louvre.example" ]);
      ("citations", JArray []);
      ("next_steps", JArray []) ].

(** [json.loads] on the documents the samples use; any other text is
    rejected. *)
Definition loads (s : string) : result json :=
  if String.eqb s paris_text then Return paris_json
  else if String.eqb s "{}" then Return (JObject [])
  else Raise (mk_exn JSONDecodeError "Expecting value: line 1 column 1 (char 0)").

Definition string_field (members : list (string * json)) (key : string)
  : option string :=
  match dict_get members key with
  | Some (JString s) => Some s
  | _ => None
  end.

Definition strings_of (j : json) : list string :=
  match j with
  | JArray elements =>
      flat_map (fun e => match e with JString s => [s] | _ => [] end) elements
  | _ => []
  end.

Definition entry_of (j : json) : list SearchResult :=
  match j with
  | JObject members =>
      [ mk_result (string_field members "title") (string_field members "snippet")
          (string_field members "url") (string_field members "price_range")
          None (string_field members "category") ]
  | _ => []
  end.

(** A constructor that insists on the two required strings and raises
    pydantic's ValidationError without them. *)
Definition init (members : list (string * json)) : result TripPlan :=
  match string_field members "destination", string_field members "travel_dates" with
  | Some d, Some t =>
      Return (mk_plan d t
                (dict_get members "weather")
                (match dict_get members "results" with
                 | Some (JArray elements) => Some (flat_map entry_of elements)
                 | _ => None
                 end)
                (dict_get members "card_recommendation")
                (dict_get members "currency_info")
                (option_map strings_of (dict_get members "citations"))
                (option_map strings_of (dict_get members "next_steps")))
  | _, _ => Raise (mk_exn ValidationError "2 validation errors for TripPlan")
  end.

Definition environment (key : string) : option string :=
  if String.eqb key "AZURE_OPENAI_ENDPOINT" then Some "https://agent.example"
  else if String.eqb key "AZURE_OPENAI_KEY" then Some "secret"
  else None.

(** A configured deployment whose model answers [reply]. *)
Definition world (reply : string) : World :=
  mk_world environment (Return tt) (fun _ => Return tt)
    "session-1" "memory-1" 0%nat "You are a professional AI travel concierge agent"
    (fun _ _ => Return [reply]) loads init.

(** A deployment whose configuration check fails. *)
Definition misconfigured : World :=
  mk_world (fun _ => None)
    (Raise (mk_exn Exception "Missing required configuration"))
    (fun _ => Return tt)
    "session-1" "memory-1" 0%nat "You are a professional AI travel concierge agent"
    (fun _ _ => Return []) loads init.

(** A provider answering for Oslo with a cold, mostly cloudy week. *)
Definition oslo : Weather.geo_result :=
  Weather.mk_geo (Some (5991 # 100)) (Some (1075 # 100)) (Some "Oslo")
    (Some "Norway").

Definition oslo_week : Weather.daily_block :=
  Weather.mk_daily [4; 5; 3; 6; 5; 4; 2]%Q [-2; -1; -3; 0; -1; -2; -4]%Q
    [0; 0; 2; 2; 2; 60; 60].

Definition oslo_provider : Weather.Provider :=
  Weather.mk_provider (fun _ => Return [oslo]) (fun _ _ => Return oslo_week).

(** A provider quoting 0.92 euro per dollar. *)
Definition quote_092 : Fx.Frankfurter :=
  fun amount _ _ =>
    Return (Fx.mk_fx_data [("EUR", (amount * (92 # 100))%Q)] (Some "2024-05-17")).

(** An environment whose store cannot be reached. *)
Definition unreachable_store : Retriever.Environment :=
  Retriever.mk_environment None true
    (fun _ => Return [Retriever.Iterable [Retriever.PyFloat 1]]).

(** Distance used by the sample store: the sum of squared differences. *)
Definition squared_gap (u v : list Q) : Q :=
  fold_right Qplus 0%Q
    (map (fun p => ((fst p - snd p) * (fst p - snd p))%Q) (combine u v)).

(** A store of eight card snippets, one of them without an embedding. *)
Definition card_store : Retriever.Container :=
  Retriever.mk_container
    [ Retriever.mk_document "bankgold-1" "4x points on dining" "cards" (Some [9 # 1]);
      Retriever.mk_document "lounge-1" "Lounge access in CDG" "cards" (Some [2 # 1]);
      Retriever.mk_document "bankgold-2" "Priority boarding" "cards" (Some [5 # 1]);
      Retriever.mk_document "dining-1" "Dining worldwide" "cards" (Some [3 # 1]);
      Retriever.mk_document "draft-1" "Not embedded yet" "cards" None;
      Retriever.mk_document "fees-1" "No FX fees" "cards" (Some [7 # 1]);
      Retriever.mk_document "travel-1" "Travel insurance" "cards" (Some [1 # 1]);
      Retriever.mk_document "hotel-1" "Hotel upgrades" "cards" (Some [4 # 1]) ]
    squared_gap None.

Definition card_environment : Retriever.Environment :=
  Retriever.mk_environment (Some card_store) true
    (fun _ => Return [Retriever.Iterable [Retriever.PyFloat (3 # 1)]]).

End Sample.

(** ** Vocabulary of the properties *)


(** Position at which a condition is first seen (the length of the list
    when it never is). *)
Fixpoint first_seen (c : string) (l : list string) : nat :=
  match l with
  | [] => O
  | x :: rest => if String.eqb x c then O else S (first_seen c rest)
  end.

(** Number of days on which a condition occurs. *)
Definition days_with (c : string) (l : list string) : nat :=
  count_occ string_dec l c.


(** The metadata block of an envelope, when it has one. *)
Definition metadata_of (env : Main.envelope) : option Main.metadata :=
  match env with
  | Main.Plan _ meta | Main.Raw _ meta => Some meta
  | Main.Failure _ _ => None
  end.

Definition data_quality_of (env : Main.envelope) : option string :=
  option_map Main.data_quality (metadata_of env).

(** The specification's wording of the repaired citations: each result's
    URL field, empty ones skipped, in the results' order. *)
Definition non_empty_urls (rs : list Main.SearchResult) : list string :=
  filter (fun u => negb (String.eqb u ""))
    (flat_map (fun r => match Main.url r with Some u => [u] | None => [] end) rs).

(** A reply that contains the given character. *)
Definition contains (c : ascii) (s : string) : Prop :=
  In c (list_ascii_of_string s).

(** ** Further vocabulary *)

(** The four categories a daily code can fall into. *)
Definition categories : list string := ["sunny"; "cloudy"; "rainy"; "mixed"].

(** Sum of the tallies of a counting dictionary. *)
Definition tally_total (counts : dict nat) : nat :=
  fold_right (fun kv acc => (snd kv + acc)%nat) O counts.

(** The three fields every currency report echoes. *)
Definition echoed (r : Fx.report) : string * string * Q :=
  match r with
  | Fx.Converted b t a _ _ _ => (b, t, a)
  | Fx.Degraded _ b t a => (b, t, a)
  end.

(** A currency code as [convert_fx] normalises it. *)
Definition normalised (code : string) : string := strip (upper code).

(** A string that does not start with white space. *)
Definition starts_clean (s : string) : Prop :=
  match s with
  | EmptyString => True
  | String a _ => is_space a = false
  end.




(** ** Lazy Cosmos connection (app/rag/retriever.py, [get_cosmos_client]) *)
Module Cosmos.

Record Client : Type := mk_client { endpoint : string; key : string }.

Record ContainerClient : Type :=
  mk_container_client { client : Client; database : string; container : string }.

(** What the function reaches outside itself: the process environment and
    the two SDK calls, each of which may raise. *)
Record Sdk : Type :=
  mk_sdk {
    environ : string -> option string;
    CosmosClient : string -> string -> result Client;
    get_container_client : Client -> string -> string -> result ContainerClient
  }.

(** The module-level variables [_client] and [_container]. *)
Record globals : Type :=
  mk_globals { _client : option Client; _container : option ContainerClient }.

(** The state at import time. *)
Definition initial : globals := mk_globals None None.

(** [os.environ[key]] *)
Definition environ_item (sdk : Sdk) (key : string) : result string :=
  match environ sdk key with
  | Some v => Return v
  | None => Raise (mk_exn KeyError ("'" ++ key ++ "'"))
  end.

(** The body of the [try]: the first assignment may already have happened
    when the second one raises. *)
Definition try_connect (sdk : Sdk) (g : globals) : globals * result unit :=
  match (endpoint <- environ_item sdk "COSMOS_ENDPOINT" ;;
         key <- environ_item sdk "COSMOS_KEY" ;;
         CosmosClient sdk endpoint key) with
  | Raise e => (g, Raise e)
  | Return c =>
      let g := mk_globals (Some c) (_container g) in
      match (database <- environ_item sdk "COSMOS_DB" ;;
             name <- environ_item sdk "COSMOS_CONTAINER" ;;
             get_container_client sdk c database name) with
      | Raise e => (g, Raise e)
      | Return h => (mk_globals (_client g) (Some h), Return tt)
      end
  end.

(** [get_cosmos_client()]: the new globals and the returned pair. *)
Definition get_cosmos_client (sdk : Sdk) (g : globals)
  : globals * (option Client * option ContainerClient) :=
  let g :=
    match _client g with
    | None =>
        match try_connect sdk g with
        | (g', Return _) => g'
        | (_, Raise _) => mk_globals None None
        end
    | Some _ => g
    end in
  (g, (_client g, _container g)).

(** Successive calls, each in the environment of its moment. *)
Definition after_calls (sdks : list Sdk) (g : globals) : globals :=
  fold_left (fun g sdk => fst (get_cosmos_client sdk g)) sdks g.

End Cosmos.

(** Client and container are set together or not at all. *)
Definition both_or_neither (g : Cosmos.globals) : Prop :=
  (Cosmos._client g = None /\ Cosmos._container g = None)
  \/ (exists c h, Cosmos._client g = Some c /\ Cosmos._container g = Some h).

(** The citations of a plan, none when the field is absent. *)
Definition cited (plan : Main.TripPlan) : list string :=
  match Main.citations plan with Some l => l | None => [] end.

(** The metadata of the two fallback envelopes for an exception [e]: the
    first handler takes ValueErrors, the second everything else. *)
Definition fallback_metadata (session_id : string) (e : exn) : Main.metadata :=
  if is_ValueError e then
    Main.mk_metadata session_id ["automatic_via_llm"] "unvalidated" None
      (Some (str e)) None
  else
    Main.mk_metadata session_id ["automatic_via_llm"] "validation_failed" None
      None (Some (str e)).

(** ** More of Python's [str] and [list] *)
Module PyStr.

(** [s.lower()], on the ASCII letters. *)
Definition lower_char (a : ascii) : ascii :=
  let n := nat_of_ascii a in
  if ((65 <=? n) && (n <=? 90))%nat then ascii_of_nat (n + 32) else a.

Fixpoint lower (s : string) : string :=
  match s with
  | EmptyString => EmptyString
  | String a s' => String (lower_char a) (lower s')
  end.

(** [s.startswith(p)] *)
Definition startswith (s p : string) : bool := String.prefix p s.

(** [needle in hay] *)
Fixpoint contains_sub (needle hay : string) : bool :=
  if String.prefix needle hay then true
  else match hay with
       | EmptyString => false
       | String _ hay' => contains_sub needle hay'
       end.

(** [s.split(sep)] for a one-character separator: never the empty list. *)
Fixpoint split (sep : ascii) (s : string) : list string :=
  match s with
  | EmptyString => [EmptyString]
  | String a s' =>
      if Ascii.eqb a sep then EmptyString :: split sep s'
      else match split sep s' with
           | [] => [String a EmptyString]
           | first :: rest => String a first :: rest
           end
  end.

(** [sep.join(parts)] *)
Fixpoint join (sep : string) (parts : list string) : string :=
  match parts with
  | [] => EmptyString
  | [p] => p
  | p :: rest => p ++ sep ++ join sep rest
  end.

(** [l[:n]] *)
Definition take {A : Type} (l : list A) (n : Z) : list A :=
  firstn (Z.to_nat (clamp_index (Z.of_nat (List.length l)) n)) l.

(** The line feed. *)
Definition newline : ascii := ascii_of_nat 10.

End PyStr.

(** ** Ingestion (app/rag/ingest.py) *)
Module Ingest.

(** The first vector the embedding service returns for a text: something
    [list()] can walk, or not. *)
Inductive service_vector : Type :=
| Iterable (elements : list Q)
| Opaque.

Record Environment : Type :=
  mk_environment {
    (** [create_embedding_kernel()]: the constructor of the embedding
        service reads four environment variables and may raise *)
    create_embedding_kernel : result unit;
    (** [embed_service.generate_embeddings] *)
    generate_embeddings : list string -> result (list service_vector);
    (** [container.upsert_item(body=document)] *)
    upsert_item : Retriever.document -> result unit
  }.

(** [list(result[0])] *)
Definition first_as_list (vectors : list service_vector) : result (list Q) :=
  match vectors with
  | [] => Raise (mk_exn IndexError "list index out of range")
  | Iterable elements :: _ => Return elements
  | Opaque :: _ => Raise (mk_exn TypeError "object is not iterable")
  end.

(** The loop of [_generate_embeddings]. *)
Fixpoint embed_each (env : Environment) (texts : list string)
  : result (list (list Q)) :=
  match texts with
  | [] => Return []
  | t :: rest =>
      vectors <- generate_embeddings env [t] ;;
      embedding_vector <- first_as_list vectors ;;
      embeddings <- embed_each env rest ;;
      Return (embedding_vector :: embeddings)
  end.

(** [embed_texts(texts)]: no handler, whatever is raised leaves it. *)
Definition embed_texts (env : Environment) (texts : list string)
  : result (list (list Q)) :=
  create_embedding_kernel env ;;;
  embed_each env texts.

(** [upsert_snippet(doc_id, text, pk)], on the sequence of documents the
    container has accepted so far. *)
Definition upsert_snippet (env : Environment) (doc_id text pk : string)
    (accepted : list Retriever.document) : result (list Retriever.document) :=
  try_except
    (embeddings <- embed_texts env [text] ;;
     let embedding_vector :=
       match embeddings with [] => [] | first :: _ => first end in
     let document :=
       Retriever.mk_document doc_id text pk (Some embedding_vector) in
     upsert_item env document ;;;
     Return (accepted ++ [document])%list)
    [ (is_Exception, fun _ => Return accepted) ].

End Ingest.

(** ** Web search tool (app/tools/search.py) *)
Module Search.

Import PyStr.

(** The three settings [__init__] reads with [os.getenv]. *)
Record SearchTools : Type :=
  mk_tools {
    project_endpoint : option string;
    agent_id : option string;
    connection_id : option string
  }.

(** Truth value of an [os.getenv] result. *)
Definition present (setting : option string) : bool :=
  match setting with
  | Some s => negb (String.eqb s "")
  | None => false
  end.

(** A content block of a message: its [type] attribute and the text its
    [text] attribute holds, each when the attribute exists. *)
Record block : Type :=
  mk_block { block_type : option string; block_text : option string }.

Record message : Type := mk_message { role : string; content : list block }.

(** The agent service: lines 39-77 (client, thread, prompt built from the
    query, run, listing of the messages), the deletion of the thread, and
    [json.loads]. *)
Record Agent : Type :=
  mk_agent {
    ask : string -> result (list message);
    delete_thread : result unit;
    json_loads : string -> result Main.json
  }.

(** One dictionary of the returned list. *)
Record entry : Type :=
  mk_entry { title : Main.json; url : Main.json; snippet : Main.json }.

Definition text_entry (t u s : string) : entry :=
  mk_entry (Main.JString t) (Main.JString u) (Main.JString s).

(** [assistant_msgs[-1].content if assistant_msgs else []] *)
Definition last_assistant_content (messages : list message) : list block :=
  match rev (filter (fun m => String.eqb (role m) "assistant") messages) with
  | [] => []
  | last :: _ => content last
  end.

(** Lines 81-89.  A block of type "text" without a [text] attribute makes
    the attribute access raise (an AttributeError, here a plain
    exception). *)
Definition raw_text (content_blocks : list block) : result (option string) :=
  match content_blocks with
  | [] => Return None
  | first_block :: _ =>
      match block_type first_block with
      | Some t =>
          if String.eqb t "text" then
            match block_text first_block with
            | Some v => Return (Some v)
            | None => Raise (mk_exn Exception "object has no attribute 'text'")
            end
          else Return (block_text first_block)
      | None => Return (block_text first_block)
      end
  end.

Definition fence : string := "```".

(** Lines 104-110: drop the fence lines around the reply. *)
Definition unfence (raw_json : string) : result string :=
  if startswith raw_json fence then
    let lines := split newline raw_json in
    lines <- match lines with
             | [] => Raise (mk_exn IndexError "list index out of range")
             | first :: rest =>
                 if startswith (strip first) fence then Return rest
                 else Return lines
             end ;;
    let lines :=
      match rev lines with
      | [] => lines
      | last :: _ =>
          if String.eqb (strip last) fence then removelast lines else lines
      end in
    Return (strip (join (String newline EmptyString) lines))
  else Return raw_json.

(** Lines 112-118: the text from the first opening to the last closing
    square bracket. *)
Definition extract_array (raw_json : string) : result string :=
  if startswith raw_json "[" then Return raw_json
  else
    let start_idx := find "[" raw_json in
    let end_idx := rfind "]" raw_json in
    if negb (start_idx =? -1) && negb (end_idx =? -1) then
      Return (slice raw_json start_idx (end_idx + 1))
    else
      Raise (mk_exn ValueError
               ("No JSON array found in response. Got: " ++ slice raw_json 0 200)).

(** [for r in results]: what iterating the decoded value yields. *)
Definition iterate (results : Main.json) : result (list Main.json) :=
  match results with
  | Main.JArray elements => Return elements
  | Main.JObject members => Return (map (fun kv => Main.JString (fst kv)) members)
  | Main.JString s =>
      Return (map (fun a => Main.JString (String a EmptyString))
                (list_ascii_of_string s))
  | _ => Raise (mk_exn TypeError "object is not iterable")
  end.

(** [r.get(key, default)], which only a dictionary has. *)
Definition get (r : Main.json) (key default : string) : result Main.json :=
  match r with
  | Main.JObject members =>
      Return (match dict_get members key with
              | Some v => v
              | None => Main.JString default
              end)
  | _ => Raise (mk_exn Exception "object has no attribute 'get'")
  end.

(** Lines 124-128. *)
Fixpoint normalize (results : list Main.json) : result (list entry) :=
  match results with
  | [] => Return []
  | r :: rest =>
      t <- get r "title" "Unknown" ;;
      u <- get r "url" "" ;;
      s <- get r "snippet" "" ;;
      others <- normalize rest ;;
      Return (mk_entry t u s :: others)
  end.

(** [(r["title"] + r["snippet"]).lower()]: defined on two strings. *)
Definition haystack (r : entry) : result string :=
  match title r, snippet r with
  | Main.JString t, Main.JString s => Return (lower (t ++ s))
  | _, _ => Raise (mk_exn TypeError "unsupported operand type(s) for +")
  end.

(** [any(kw.lower() in haystack for kw in filter_keywords)] *)
Fixpoint any_keyword (filter_keywords : list string) (r : entry) : result bool :=
  match filter_keywords with
  | [] => Return false
  | kw :: rest =>
      text <- haystack r ;;
      if contains_sub (lower kw) text then Return true
      else any_keyword rest r
  end.

(** Lines 132-135. *)
Fixpoint keep_matching (filter_keywords : list string) (normalized : list entry)
  : result (list entry) :=
  match normalized with
  | [] => Return []
  | r :: rest =>
      hit <- any_keyword filter_keywords r ;;
      others <- keep_matching filter_keywords rest ;;
      Return (if hit then r :: others else others)
  end.

(** The body of the [try] block. *)
Definition web_search_body (agent : Agent) (query : string) (max_results : Z)
    (filter_keywords : option (list string)) : result (list entry) :=
  messages <- ask agent query ;;
  raw_json <- raw_text (last_assistant_content messages) ;;
  delete_thread agent ;;;
  match raw_json with
  | None =>
      Return [text_entry "No results" "" "No JSON returned by Bing grounding"]
  | Some raw_json =>
      if String.eqb raw_json "" then
        Return [text_entry "No results" "" "No JSON returned by Bing grounding"]
      else
        raw_json <- unfence (strip raw_json) ;;
        raw_json <- extract_array raw_json ;;
        results <- json_loads agent raw_json ;;
        elements <- iterate results ;;
        normalized <- normalize elements ;;
        match filter_keywords with
        | Some (kw :: kws) =>
            filtered <- keep_matching (kw :: kws) normalized ;;
            match take filtered max_results with
            | [] => Return (take normalized max_results)
            | kept => Return kept
            end
        | _ => Return (take normalized max_results)
        end
  end.

Definition web_search (tools : SearchTools) (agent : Agent) (query : string)
    (max_results : Z) (filter_keywords : option (list string))
  : result (list entry) :=
  if negb (present (project_endpoint tools) && present (agent_id tools)
           && present (connection_id tools)) then
    Return [text_entry "Missing configuration" "https://bing.com"
              "Missing PROJECT_ENDPOINT, AGENT_ID, or BING_CONNECTION_ID"]
  else
    try_except (web_search_body agent query max_results filter_keywords)
      [ (is_Exception,
         fun e =>
           Return [text_entry "Search error" ""
                     ("Failed to retrieve search results: " ++ str e)]) ].

End Search.

(** ** Command line (app/main.py, [main]) *)
Module Cli.

Import PyStr.

(** What [input()] does next: hand over a line, or raise
    KeyboardInterrupt. *)
Inductive keyboard : Type :=
| Line (text : string)
| Interrupt.

(** What [main] writes. *)
Inductive shown : Type :=
| Banner
| Printed (env : Main.envelope)
| PrettyPrinted (env : Main.envelope).

(** How [main] ends: normally, or with an exception nobody caught. *)
Inductive ending : Type :=
| Finished
| Uncaught (error : string).

(** The keys of the dictionary [json.loads(result)] gives back. *)
Definition top_level_keys (env : Main.envelope) : list string :=
  match env with
  | Main.Plan _ _ => ["trip_plan"; "metadata"]
  | Main.Raw _ _ => ["raw_response"; "metadata"]
  | Main.Failure _ _ => ["error"; "status"]
  end.

(** Lines 364-372: the plan printer is used when the key "plan" exists. *)
Definition display (env : Main.envelope) : shown :=
  if existsb (String.eqb "plan") (top_level_keys env) then PrettyPrinted env
  else Printed env.

Definition quits (user_input : string) : bool :=
  existsb (String.eqb (lower user_input)) ["quit"; "exit"; "q"].

(** The [while True] loop on what the keyboard still holds; at the end of
    the input [input()] raises EOFError, which the loop does not catch. *)
Fixpoint loop (w : Main.World) (keys : list keyboard) : list shown * ending :=
  match keys with
  | [] => ([], Uncaught "EOFError")
  | Interrupt :: _ => ([], Finished)
  | Line text :: rest =>
      let user_input := strip text in
      if quits user_input then ([], Finished)
      else
        match Main.run_request w user_input None None with
        | Raise e => ([], Uncaught (str e))
        | Return env =>
            let (out, how) := loop w rest in (display env :: out, how)
        end
  end.

(** [main()], given [--input] when present. *)
Definition main (w : Main.World) (input : option string)
    (keys : list keyboard) : list shown * ending :=
  match input with
  | Some text =>
      if String.eqb text "" then
        let (out, how) := loop w keys in (Banner :: out, how)
      else
        match Main.run_request w text None None with
        | Raise e => ([], Uncaught (str e))
        | Return env => ([Printed env], Finished)
        end
  | None => let (out, how) := loop w keys in (Banner :: out, how)
  end.

End Cli.

(** ** Vocabulary of the search and command-line properties *)

(** All three settings of the search tool are present. *)
Definition configured (tools : Search.SearchTools) : bool :=
  Search.present (Search.project_endpoint tools)
  && Search.present (Search.agent_id tools)
  && Search.present (Search.connection_id tools).


Definition no_results : list Search.entry :=
  [Search.text_entry "No results" "" "No JSON returned by Bing grounding"].

(** Output that did not go through the plan printer. *)
Definition plainly_shown (s : Cli.shown) : Prop :=
  match s with
  | Cli.PrettyPrinted _ => False
  | _ => True
  end.

(** The envelope printed for a typed line. *)
Definition answer_to (w : Main.World) (text : string) (s : Cli.shown) : Prop :=
  exists env,
    Main.run_request w (strip text) None None = Return env
    /\ s = Cli.Printed env.

(** The line feed as a string. *)
Definition line_feed : string := String PyStr.newline EmptyString.

(** ** Sample agent for the search tool *)
Module SampleSearch.

Definition hit_text (title snippet : string) : string :=
  "{" ++ Sample.quoted "title" ++ ": " ++ Sample.quoted title ++ ", "
      ++ Sample.quoted "snippet" ++ ": " ++ Sample.quoted snippet ++ "}".

(** The array the agent answers with: two hits, without URLs. *)
Definition lisbon_text : string :=
  "[" ++ hit_text "Hotel Lisboa" "Rooms near the river" ++ ", "
      ++ hit_text "Pastelaria" "Custard tarts since 1837" ++ "]".

Definition hit_json (title snippet : string) : Main.json :=
  Main.JObject [("title", Main.JString title); ("snippet", Main.JString snippet)].

(** What [json.loads] makes of [lisbon_text]. *)
Definition lisbon_json : Main.json :=
  Main.JArray [ hit_json "Hotel Lisboa" "Rooms near the river";
                hit_json "Pastelaria" "Custard tarts since 1837" ].

Definition loads (s : string) : result Main.json :=
  if String.eqb s lisbon_text then Return lisbon_json
  else Raise (mk_exn JSONDecodeError "Expecting value: line 1 column 1 (char 0)").

(** An agent whose assistant message is the array inside a code fence. *)
Definition agent : Search.Agent :=
  Search.mk_agent
    (fun _ =>
       Return [ Search.mk_message "user" [Search.mk_block (Some "text") (Some "query")];
                Search.mk_message "assistant"
                  [Search.mk_block (Some "text")
                     (Some (Search.fence ++ "json" ++ line_feed ++ lisbon_text
                            ++ line_feed ++ Search.fence))] ])
    (Return tt) loads.

Definition hotel : Search.entry :=
  Search.text_entry "Hotel Lisboa" "" "Rooms near the river".

Definition bakery : Search.entry :=
  Search.text_entry "Pastelaria" "" "Custard tarts since 1837".

End SampleSearch.
(* ===================================================================== *)
(** * Part II. Properties                                                  *)
(* ===================================================================== *)

Open Scope list_scope.

(** ** Control-flow lemmas shared by several components *)

Lemma bind_Return_inv {A B : Type} (c : result A) (k : A -> result B) (b : B) :
  bind c k = Return b -> exists a, c = Return a /\ k a = Return b.
Proof.
  destruct c as [a | e]; simpl; intros H.
  - exists a. split; [reflexivity | exact H].
  - discriminate H.
Qed.

(** ** Session state machine *)

Lemma advance_keeps_session (st st' : State.AgentState) :
  State.advance st = Return st' -> State.session_id st' = State.session_id st.
Proof.
  unfold State.advance.
  destruct (State.phase st); intros H; inversion H; reflexivity.
Qed.




(** ** Short-term memory *)



Lemma evict_unchanged b est l :
  Memory.over_budget b est l = false -> Memory.evict b est l = l.
Proof.
  destruct l as [| x rest]; simpl; intros H.
  - reflexivity.
  - rewrite H. reflexivity.
Qed.






(** ** Insertion-ordered dictionaries and [max] *)

Lemma dict_get_set_same {V : Type} (d : dict V) k v :
  dict_get (dict_set d k v) k = Some v.
Proof.
  induction d as [| [k' v'] rest IH]; simpl.
  - rewrite String.eqb_refl. reflexivity.
  - destruct (String.eqb k' k) eqn:E; simpl; rewrite E; [reflexivity | exact IH].
Qed.

Lemma dict_get_set_other {V : Type} (d : dict V) k k' v :
  k <> k' -> dict_get (dict_set d k v) k' = dict_get d k'.
Proof.
  intros Hne. induction d as [| [k0 v0] rest IH]; simpl.
  - destruct (String.eqb_spec k k'); [contradiction | reflexivity].
  - destruct (String.eqb_spec k0 k) as [-> | Hk]; simpl.
    + destruct (String.eqb_spec k k'); [contradiction | reflexivity].
    + destruct (String.eqb_spec k0 k'); [reflexivity | exact IH].
Qed.

Lemma dict_get_None_iff {V : Type} (d : dict V) k :
  dict_get d k = None <-> ~ In k (dict_keys d).
Proof.
  induction d as [| [k0 v0] rest IH]; simpl.
  - tauto.
  - destruct (String.eqb_spec k0 k) as [-> | Hk].
    + split; [discriminate | intros H; exfalso; apply H; left; reflexivity].
    + rewrite IH. tauto.
Qed.

Lemma dict_keys_set {V : Type} (d : dict V) k v :
  dict_keys (dict_set d k v)
  = match dict_get d k with
    | Some _ => dict_keys d
    | None => dict_keys d ++ [k]
    end.
Proof.
  induction d as [| [k0 v0] rest IH]; simpl.
  - reflexivity.
  - destruct (String.eqb_spec k0 k) as [-> | Hk]; simpl.
    + reflexivity.
    + rewrite IH. destruct (dict_get rest k); reflexivity.
Qed.

Lemma max_scan_split {A : Type} (f : A -> nat) (rest : list A) :
  forall best,
  exists pre post,
    best :: rest = pre ++ max_scan f best rest :: post
    /\ (forall x, In x pre -> (f x < f (max_scan f best rest))%nat)
    /\ (forall x, In x post -> (f x <= f (max_scan f best rest))%nat).
Proof.
  induction rest as [| x rest IH]; intros best; simpl.
  - exists [], []. repeat split; simpl; tauto.
  - destruct (Nat.ltb_spec (f best) (f x)) as [Hlt | Hge].
    + destruct (IH x) as [pre [post [Hsplit [Hpre Hpost]]]].
      exists (best :: pre), post. split; [simpl; f_equal; exact Hsplit |].
      split; [| exact Hpost].
      intros y [<- | Hy]; [| apply Hpre; exact Hy].
      destruct pre as [| p pre'].
      * simpl in Hsplit. injection Hsplit as Hx Hr.
        rewrite <- Hx. exact Hlt.
      * simpl in Hsplit. injection Hsplit as Hx Hr.
        specialize (Hpre p (or_introl eq_refl)). subst p. lia.
    + destruct (IH best) as [pre [post [Hsplit [Hpre Hpost]]]].
      destruct pre as [| p pre'].
      * simpl in Hsplit. injection Hsplit as Hx Hr.
        exists [], (x :: post). split; [simpl; rewrite <- Hx; do 2 f_equal; exact Hr |].
        split; [intros y [] |].
        intros y [<- | Hy]; [rewrite <- Hx; exact Hge | apply Hpost; exact Hy].
      * simpl in Hsplit. injection Hsplit as Hx Hr. subst p.
        exists (best :: x :: pre'), post.
        split; [simpl; do 2 f_equal; exact Hr |]. split; [| exact Hpost].
        intros y [<- | [<- | Hy]].
        -- apply Hpre. left. reflexivity.
        -- specialize (Hpre best (or_introl eq_refl)). lia.
        -- apply Hpre. right. exact Hy.
Qed.

(** ** Weather tool *)

Lemma first_seen_app_in c p q :
  In c p -> first_seen c (p ++ q) = first_seen c p.
Proof.
  induction p as [| x p IH]; simpl; intros H.
  - contradiction.
  - destruct (String.eqb_spec x c) as [_ | Hne]; [reflexivity |].
    destruct H as [H | H]; [contradiction |]. rewrite IH by exact H. reflexivity.
Qed.

Lemma first_seen_lt_length c p : In c p -> (first_seen c p < List.length p)%nat.
Proof.
  induction p as [| x p IH]; simpl; intros H.
  - contradiction.
  - destruct (String.eqb_spec x c) as [_ | Hne]; [lia |].
    destruct H as [H | H]; [contradiction |]. specialize (IH H). lia.
Qed.

Lemma first_seen_app_new c p :
  ~ In c p -> first_seen c (p ++ [c]) = List.length p.
Proof.
  induction p as [| x p IH]; simpl; intros H.
  - rewrite String.eqb_refl. reflexivity.
  - destruct (String.eqb_spec x c) as [He | Hne].
    + exfalso. apply H. left. exact He.
    + rewrite IH; [reflexivity |]. intros Hin. apply H. right. exact Hin.
Qed.

Lemma StronglySorted_snoc {A : Type} (R : A -> A -> Prop) l x :
  StronglySorted R l -> Forall (fun a => R a x) l -> StronglySorted R (l ++ [x]).
Proof.
  induction 1 as [| a l Hs IH Hf]; intros Hall; simpl.
  - constructor; constructor.
  - inversion Hall as [| ? ? Hax Hl]; subst.
    constructor; [apply IH; exact Hl |].
    apply Forall_app. split; [exact Hf | constructor; [exact Hax | constructor]].
Qed.

Lemma StronglySorted_weaken {A : Type} (R R' : A -> A -> Prop) l :
  (forall a b, In a l -> In b l -> R a b -> R' a b) ->
  StronglySorted R l -> StronglySorted R' l.
Proof.
  intros Himp Hs. induction Hs as [| a l Hs IH Hf].
  - constructor.
  - constructor.
    + apply IH. intros x y Hx Hy. apply Himp; right; assumption.
    + rewrite Forall_forall in *. intros y Hy.
      apply Himp; [left; reflexivity | right; exact Hy | apply Hf; exact Hy].
Qed.

Lemma StronglySorted_after {A : Type} (R : A -> A -> Prop) pre m post :
  StronglySorted R (pre ++ m :: post) -> Forall (R m) post.
Proof.
  induction pre as [| p pre IH]; simpl; intros H.
  - apply StronglySorted_inv in H. apply H.
  - apply StronglySorted_inv in H. apply IH. apply H.
Qed.

Lemma condition_counts_snoc p x :
  Weather.condition_counts (p ++ [x])
  = Weather.count_condition (Weather.condition_counts p) x.
Proof.
  unfold Weather.condition_counts. rewrite fold_left_app. reflexivity.
Qed.

(** What the counting loop has built after the conditions [p]: every
    condition's tally, exactly the conditions seen as keys, and the keys in
    the order in which they were first seen. *)
Lemma condition_counts_invariant (p : list string) :
  let counts := Weather.condition_counts p in
  (forall c, Weather.counts_get counts c = days_with c p)
  /\ (forall c, In c (dict_keys counts) <-> In c p)
  /\ StronglySorted (fun a b => (first_seen a p < first_seen b p)%nat)
       (dict_keys counts).
Proof.
  induction p as [| x p IH] using rev_ind.
  - simpl. repeat split; try tauto. constructor.
  - rewrite condition_counts_snoc. cbv zeta in IH.
    set (counts := Weather.condition_counts p) in *.
    destruct IH as [Hget [Hkeys Hsorted]].
    unfold Weather.count_condition.
    split; [| split].
    + intros c. unfold Weather.counts_get, days_with.
      rewrite count_occ_app. simpl.
      destruct (string_dec x c) as [-> | Hne].
      * rewrite dict_get_set_same.
        specialize (Hget c). unfold Weather.counts_get, days_with in Hget.
        rewrite <- Hget. reflexivity.
      * rewrite dict_get_set_other by exact Hne.
        specialize (Hget c). unfold Weather.counts_get, days_with in Hget.
        rewrite Hget. lia.
    + intros c. rewrite dict_keys_set, in_app_iff. simpl.
      destruct (dict_get counts x) eqn:E.
      * rewrite Hkeys. split; [tauto |].
        intros [H | [<- | []]]; [exact H |].
        apply Hkeys.
        destruct (in_dec string_dec x (dict_keys counts)) as [Hin | Hout];
          [exact Hin |].
        apply dict_get_None_iff in Hout. rewrite Hout in E. discriminate E.
      * rewrite in_app_iff, Hkeys. simpl. tauto.
    + rewrite dict_keys_set.
      destruct (dict_get counts x) eqn:E.
      * apply StronglySorted_weaken with (2 := Hsorted).
        intros a b Ha Hb Hab.
        rewrite !first_seen_app_in by (apply Hkeys; assumption). exact Hab.
      * apply dict_get_None_iff in E.
        assert (Hx : ~ In x p) by (intros H; apply E, Hkeys, H).
        apply StronglySorted_snoc.
        -- apply StronglySorted_weaken with (2 := Hsorted).
           intros a b Ha Hb Hab.
           rewrite !first_seen_app_in by (apply Hkeys; assumption). exact Hab.
        -- apply Forall_forall. intros a Ha.
           rewrite first_seen_app_in by (apply Hkeys; exact Ha).
           rewrite first_seen_app_new by exact Hx.
           apply first_seen_lt_length, Hkeys, Ha.
Qed.

Lemma len_Q_nonzero {A : Type} (l : list A) :
  l <> [] -> Qeq_bool (Weather.len_Q l) 0 = false.
Proof.
  intros Hne. destruct l as [| x l]; [contradiction |].
  destruct (Qeq_bool (Weather.len_Q (x :: l)) 0) eqn:E; [| reflexivity].
  apply Qeq_bool_eq in E. unfold Weather.len_Q, Qeq in E. simpl in E. lia.
Qed.

Lemma truediv_nonzero (x y : Q) :
  Qeq_bool y 0 = false -> truediv x y = Return (x / y)%Q.
Proof.
  intros H. unfold truediv. rewrite H. reflexivity.
Qed.


(** The dominant condition of a non-empty window: a condition that
    occurs, that no condition outnumbers, and that was seen first among
    those occurring equally often.  On an empty window [max] raises. *)
Lemma dominant_condition_most_frequent (weather_codes : list Z) :
  let conditions_list := map Weather.interpret_code weather_codes in
  match weather_codes with
  | [] =>
      exists e, Weather.dominant_condition weather_codes = Raise e
                /\ exn_cls e = ValueError
  | _ :: _ =>
      exists d,
        Weather.dominant_condition weather_codes = Return d
        /\ In d conditions_list
        /\ forall c,
             (days_with c conditions_list <= days_with d conditions_list)%nat
             /\ (In c conditions_list ->
                 days_with c conditions_list = days_with d conditions_list ->
                 (first_seen d conditions_list <= first_seen c conditions_list)%nat)
  end.
Proof.
  intros conditions_list.
  destruct (condition_counts_invariant conditions_list) as [Hget [Hkeys Hsorted]].
  unfold Weather.dominant_condition. fold conditions_list.
  set (counts := Weather.condition_counts conditions_list) in *.
  destruct weather_codes as [| code codes].
  - eexists. split; reflexivity.
  - destruct (dict_keys counts) as [| k ks] eqn:Ek.
    + exfalso. apply (Hkeys (Weather.interpret_code code)). left. reflexivity.
    + simpl max_by.
      destruct (max_scan_split (Weather.counts_get counts) ks k)
        as [pre [post [Hsplit [Hpre Hpost]]]].
      set (d := max_scan (Weather.counts_get counts) k ks) in *.
      assert (Hd : In d (k :: ks)).
      { rewrite Hsplit. apply in_elt. }
      exists d. split; [reflexivity |]. split; [apply Hkeys; exact Hd |].
      intros c.
      destruct (in_dec string_dec c conditions_list) as [Hc | Hc].
      * assert (Hck : In c (pre ++ d :: post)).
        { rewrite <- Hsplit. apply Hkeys. exact Hc. }
        rewrite <- !Hget.
        apply in_app_or in Hck. destruct Hck as [Hin | [Heq | Hin]].
        -- specialize (Hpre c Hin). split; [lia |]. intros _ Htie. lia.
        -- subst c. split; [lia |]. intros _ _. lia.
        -- specialize (Hpost c Hin). split; [exact Hpost |].
           intros _ _. rewrite Hsplit in Hsorted.
           apply StronglySorted_after in Hsorted.
           rewrite Forall_forall in Hsorted. specialize (Hsorted c Hin). lia.
      * split; [| contradiction].
        unfold days_with at 1.
        rewrite (proj1 (count_occ_not_In string_dec conditions_list c) Hc). lia.
Qed.





Example oslo_report :
  Weather.get_weather Sample.oslo_provider "oslo"
  = Return (Weather.Forecast "Oslo" "Norway" (11 # 10) (41 # 10) (-19 # 10)
              "cloudy"
              ("Expect overcast skies. Bring layers for varying temperatures."
               ++ " Cold temperatures - bring warm clothing.")%string
              7%nat).
Proof. vm_compute. reflexivity. Qed.

(** ** Rounding *)

Lemma round_half_even_close (y : Q) :
  (y - (1 # 2) <= inject_Z (round_half_even y) <= y + (1 # 2))%Q.
Proof.
  unfold round_half_even.
  pose proof (Qfloor_le y) as Hlo.
  pose proof (Qlt_floor y) as Hhi.
  rewrite inject_Z_plus in Hhi.
  change (inject_Z 1) with 1%Q in Hhi.
  destruct (Qcompare_spec (y - inject_Z (Qfloor y)) (1 # 2)) as [He | Hl | Hg].
  - destruct (Z.even (Qfloor y)).
    + split; lra.
    + rewrite inject_Z_plus. change (inject_Z 1) with 1%Q. split; lra.
  - split; lra.
  - rewrite inject_Z_plus. change (inject_Z 1) with 1%Q. split; lra.
Qed.

Lemma scale_positive (ndigits : nat) :
  (0 < inject_Z (10 ^ Z.of_nat ndigits))%Q.
Proof.
  change 0%Q with (inject_Z 0). rewrite <- Zlt_Qlt.
  apply Z.pow_pos_nonneg; lia.
Qed.

(** [round x ndigits] is a whole number of units 10^-ndigits and lies
    within half a unit of [x]. *)
Lemma round_to_digits (x : Q) (ndigits : nat) :
  let unit := (1 / inject_Z (10 ^ Z.of_nat ndigits))%Q in
  (exists n : Z, round x ndigits == inject_Z n * unit)%Q
  /\ (x - (1 # 2) * unit <= round x ndigits <= x + (1 # 2) * unit)%Q.
Proof.
  intros unit. unfold round. subst unit.
  pose proof (scale_positive ndigits) as Hs.
  set (s := inject_Z (10 ^ Z.of_nat ndigits)) in *.
  assert (Hnz : ~ (s == 0)%Q) by lra.
  pose proof (round_half_even_close (x * s)) as [Hlo Hhi].
  set (r := inject_Z (round_half_even (x * s))) in *.
  split.
  - exists (round_half_even (x * s)). fold r. field. exact Hnz.
  - split.
    + apply Qle_shift_div_l; [exact Hs |].
      assert (E : ((x - (1 # 2) * (1 / s)) * s == x * s - (1 # 2))%Q)
        by (field; exact Hnz).
      rewrite E. exact Hlo.
    + apply Qle_shift_div_r; [exact Hs |].
      assert (E : ((x + (1 # 2) * (1 / s)) * s == x * s + (1 # 2))%Q)
        by (field; exact Hnz).
      rewrite E. exact Hhi.
Qed.

(** ** Currency tool *)

Lemma exchange_rate_guarded (converted_amount amount : Q) :
  ((0 < amount)%Q ->
   Fx.exchange_rate converted_amount amount
   = Return (converted_amount / amount)%Q)
  /\ ((amount <= 0)%Q ->
      Fx.exchange_rate converted_amount amount = Return 0%Q).
Proof.
  unfold Fx.exchange_rate.
  destruct (Qlt_le_dec 0 amount) as [Hpos | Hle]; split; intros H.
  - apply truediv_nonzero.
    destruct (Qeq_bool amount 0) eqn:E; [| reflexivity].
    apply Qeq_bool_eq in E. lra.
  - lra.
  - lra.
  - reflexivity.
Qed.

Lemma exchange_rate_returns (converted_amount amount : Q) :
  exists rate, Fx.exchange_rate converted_amount amount = Return rate.
Proof.
  destruct (exchange_rate_guarded converted_amount amount) as [Hpos Hle].
  destruct (Qlt_le_dec 0 amount) as [H | H].
  - eexists. apply Hpos. exact H.
  - eexists. apply Hle. exact H.
Qed.

(** An exception leaving the body of [convert_fx] is the provider's. *)
Lemma convert_fx_body_raises (api : Fx.Frankfurter) (amount : Q)
    (base target : string) (e : exn) :
  Fx.convert_fx_body api amount base target = Raise e ->
  api amount base target = Raise e.
Proof.
  unfold Fx.convert_fx_body.
  destruct (api amount base target) as [data | e0]; simpl.
  - destruct (dict_get (Fx.rates data) target) as [c |]; [| discriminate].
    destruct (exchange_rate_returns c amount) as [rate Hr]. rewrite Hr.
    simpl. discriminate.
  - intros H. injection H as ->. reflexivity.
Qed.

Lemma convert_fx_returns (api : Fx.Frankfurter) (amount : Q)
    (base target : string) :
  exists r, Fx.convert_fx api amount base target = Return r.
Proof.
  unfold Fx.convert_fx.
  destruct (Fx.convert_fx_body api amount (strip (upper base))
              (strip (upper target))) as [r | e]; simpl.
  - exists r. reflexivity.
  - destruct (is_RequestException e); eexists; reflexivity.
Qed.

Lemma convert_fx_success (api : Fx.Frankfurter) (amount : Q)
    (base target : string) (data : Fx.fx_data) (converted_amount : Q) :
  let base' := strip (upper base) in
  let target' := strip (upper target) in
  api amount base' target' = Return data ->
  dict_get (Fx.rates data) target' = Some converted_amount ->
  exists rate,
    Fx.exchange_rate converted_amount amount = Return rate
    /\ Fx.convert_fx api amount base target
       = Return (Fx.Converted base' target' amount
                   (round converted_amount 2) (round rate 6)
                   (match Fx.date data with Some d => d | None => "unknown" end))
    /\ ((amount <= 0)%Q -> (round rate 6 == 0)%Q).
Proof.
  intros base' target' Hapi Hget.
  destruct (exchange_rate_returns converted_amount amount) as [rate Hr].
  exists rate. split; [exact Hr |]. split.
  - unfold Fx.convert_fx, Fx.convert_fx_body. fold base' target'.
    rewrite Hapi. cbn [bind]. rewrite Hget, Hr. reflexivity.
  - intros Hle.
    rewrite (proj2 (exchange_rate_guarded converted_amount amount) Hle) in Hr.
    injection Hr as <-. reflexivity.
Qed.

(** C10: the exchange rate is the quotient converted_amount / amount only
    when amount is positive and is 0 for every amount at or below zero (and
    the reported rate is then 0), so the division never raises: the only exception that can leave the body
    of [convert_fx] is the provider's, and [convert_fx] itself always
    returns a report.  On success the report carries the converted amount
    rounded to 2 decimal places and the rate rounded to 6, where rounding
    to n places yields a whole number of units 10^-n within half a unit of
    its argument. *)
Theorem convert_fx_rate_is_guarded :
  (forall converted_amount amount : Q,
      ((0 < amount)%Q ->
       Fx.exchange_rate converted_amount amount
       = Return (converted_amount / amount)%Q)
      /\ ((amount <= 0)%Q ->
          Fx.exchange_rate converted_amount amount = Return 0%Q))
  /\ (forall api amount base target,
         (forall e,
             Fx.convert_fx_body api amount base target = Raise e ->
             api amount base target = Raise e)
         /\ exists r, Fx.convert_fx api amount base target = Return r)
  /\ (forall api amount base target data converted_amount,
         let base' := strip (upper base) in
         let target' := strip (upper target) in
         api amount base' target' = Return data ->
         dict_get (Fx.rates data) target' = Some converted_amount ->
         exists rate,
           Fx.exchange_rate converted_amount amount = Return rate
           /\ Fx.convert_fx api amount base target
              = Return (Fx.Converted base' target' amount
                          (round converted_amount 2) (round rate 6)
                          (match Fx.date data with
                           | Some d => d
                           | None => "unknown"
                           end))
           /\ ((amount <= 0)%Q -> (round rate 6 == 0)%Q))
  /\ (forall (x : Q) (ndigits : nat),
         let unit := (1 / inject_Z (10 ^ Z.of_nat ndigits))%Q in
         (exists n : Z, round x ndigits == inject_Z n * unit)%Q
         /\ (x - (1 # 2) * unit <= round x ndigits <= x + (1 # 2) * unit)%Q).
Proof.
  split; [exact exchange_rate_guarded |].
  split.
  { intros api amount base target. split.
    - intros e. apply convert_fx_body_raises.
    - apply convert_fx_returns. }
  split; [exact convert_fx_success |].
  exact round_to_digits.
Qed.

Lemma convert_fx_rate_is_guarded_witness :
  (Fx.exchange_rate 92 100 = Return (92 / 100)%Q)
  /\ (Fx.exchange_rate 92 0 = Return 0%Q)
  /\ exists rate,
       Fx.exchange_rate (100 * (92 # 100)) 100 = Return rate
       /\ Fx.convert_fx Sample.quote_092 100 "usd" " eur "
          = Return (Fx.Converted "USD" "EUR" 100
                      (round (100 * (92 # 100)) 2) (round rate 6) "2024-05-17")
       /\ ((100 <= 0)%Q -> (round rate 6 == 0)%Q).
Proof.
  destruct convert_fx_rate_is_guarded as [Hrate [_ [Hok _]]].
  split; [apply (proj1 (Hrate 92 100)%Q); reflexivity |].
  split; [apply (proj2 (Hrate 92 0)%Q); discriminate |].
  apply (Hok Sample.quote_092 100%Q "usd" " eur "
           (Fx.mk_fx_data [("EUR", (100 * (92 # 100))%Q)] (Some "2024-05-17"))
           (100 * (92 # 100))%Q); reflexivity.
Defined.

Example convert_100_usd :
  exists converted rate,
    Fx.convert_fx Sample.quote_092 100 "usd" " eur "
    = Return (Fx.Converted "USD" "EUR" 100 converted rate "2024-05-17")
    /\ (converted == 92)%Q /\ (rate == 92 # 100)%Q.
Proof. do 2 eexists. split; [vm_compute; reflexivity |]. split; reflexivity. Qed.

(** ** Retrieval engine *)

(** Exceptions never leave a [try] whose only handler catches [Exception]
    and returns. *)
Lemma try_except_absorbs {A : Type} (body : result A) (fallback : exn -> A) :
  exists a,
    try_except body [(is_Exception, fun e => Return (fallback e))] = Return a.
Proof.
  destruct body as [a | e]; simpl; eexists; reflexivity.
Qed.

Lemma retrieve_failure env query k partition_key e :
  Retriever.retrieve_body env query k partition_key = Raise e ->
  Retriever.retrieve env query k partition_key = Return [].
Proof.
  unfold Retriever.retrieve. intros H. rewrite H. reflexivity.
Qed.

Lemma embed_texts_failure env query :
  (Retriever.embedding_kernel env = false
   \/ (exists e, Retriever.generate_embeddings env [query] = Raise e)
   \/ Retriever.generate_embeddings env [query] = Return []
   \/ (exists rest, Retriever.generate_embeddings env [query]
                    = Return (Retriever.Opaque :: rest))) ->
  exists e, Retriever.embed_texts env [query] = Raise e.
Proof.
  unfold Retriever.embed_texts.
  intros [Hk | [[e He] | [He | [rest He]]]].
  - rewrite Hk. simpl. eexists. reflexivity.
  - destruct (Retriever.embedding_kernel env); simpl;
      [rewrite He; simpl |]; eexists; reflexivity.
  - destruct (Retriever.embedding_kernel env); simpl;
      [rewrite He; simpl |]; eexists; reflexivity.
  - destruct (Retriever.embedding_kernel env); simpl;
      [rewrite He; simpl |]; eexists; reflexivity.
Qed.


Lemma retrieve_body_rows env query k partition_key rows :
  Retriever.retrieve_body env query k partition_key = Return rows ->
  exists c query_vector,
    Retriever.cosmos env = Some c
    /\ Retriever.query_items c (Retriever.partition_filter partition_key) k
         query_vector = Return rows.
Proof.
  unfold Retriever.retrieve_body. intros Hb.
  destruct (Retriever.cosmos env) as [c |]; [| discriminate Hb].
  cbn [bind] in Hb.
  destruct (Retriever.embed_texts env [query]) as [qe | e1];
    [| discriminate Hb].
  cbn [bind] in Hb.
  destruct (negb (Retriever.truthy match qe with
                                   | [] => Retriever.PyList []
                                   | first :: _ => first
                                   end)
            || negb (Retriever.is_list match qe with
                                       | [] => Retriever.PyList []
                                       | first :: _ => first
                                       end)); [discriminate Hb |].
  destruct (match qe with [] => Retriever.PyList [] | first :: _ => first end)
    as [x | | xs]; try discriminate Hb.
  destruct xs as [| x xs']; [discriminate Hb |].
  destruct (Retriever.floats (x :: xs')) as [qv | e2]; [| discriminate Hb].
  cbn [bind] in Hb. exists c, qv. split; [reflexivity | exact Hb].
Qed.

(** C5: [retrieve] always returns a sequence, whatever the query, [k] and
    partition, and never raises; and it returns the empty sequence when the
    vector store is unavailable, when the embedding step fails (no kernel,
    the service raises, or its answer cannot be turned into a list), when
    the embedding is missing, empty or not a list, when an element of it is
    not a number, and when the store's query raises. *)
Theorem retrieve_returns_empty_on_failure (env : Retriever.Environment)
    (query : string) (k : Z) (partition_key : option string) :
  (exists rows,
      Retriever.retrieve env query k partition_key = Return rows)
  /\ (Retriever.cosmos env = None ->
      Retriever.retrieve env query k partition_key = Return [])
  /\ ((Retriever.embedding_kernel env = false
       \/ (exists e, Retriever.generate_embeddings env [query] = Raise e)
       \/ Retriever.generate_embeddings env [query] = Return []
       \/ (exists rest, Retriever.generate_embeddings env [query]
                        = Return (Retriever.Opaque :: rest))) ->
      Retriever.retrieve env query k partition_key = Return [])
  /\ (forall e,
         Retriever.embed_texts env [query] = Raise e ->
         Retriever.retrieve env query k partition_key = Return [])
  /\ (forall query_embedding,
         Retriever.embed_texts env [query] = Return query_embedding ->
         match query_embedding with
         | [] => True
         | v :: _ => Retriever.truthy v = false \/ Retriever.is_list v = false
         end ->
         Retriever.retrieve env query k partition_key = Return [])
  /\ (forall xs rest e,
         Retriever.embed_texts env [query]
         = Return (Retriever.PyList xs :: rest) ->
         Retriever.floats xs = Raise e ->
         Retriever.retrieve env query k partition_key = Return [])
  /\ (forall c e,
         Retriever.cosmos env = Some c ->
         Retriever.outage c = Some e ->
         Retriever.retrieve env query k partition_key = Return []).
Proof.
  assert (Hembed : forall e,
             Retriever.embed_texts env [query] = Raise e ->
             Retriever.retrieve env query k partition_key = Return []).
  { intros e He. unfold Retriever.retrieve, Retriever.retrieve_body.
    destruct (Retriever.cosmos env); simpl; [rewrite He |]; reflexivity. }
  split; [apply (try_except_absorbs _ (fun _ => [])) |].
  split.
  { intros Hc. unfold Retriever.retrieve, Retriever.retrieve_body.
    rewrite Hc. reflexivity. }
  split.
  { intros H. destruct (embed_texts_failure env query H) as [e He].
    apply (Hembed e He). }
  split; [exact Hembed |].
  split.
  { intros qe Hqe Hbad. unfold Retriever.retrieve, Retriever.retrieve_body.
    destruct (Retriever.cosmos env); simpl; [| reflexivity].
    rewrite Hqe. cbn [bind].
    destruct qe as [| v rest]; [reflexivity |].
    destruct Hbad as [Hb | Hb]; rewrite Hb; simpl;
      [| rewrite orb_true_r]; reflexivity. }
  split.
  { intros xs rest e Hqe Hfl. unfold Retriever.retrieve, Retriever.retrieve_body.
    destruct (Retriever.cosmos env); simpl; [| reflexivity].
    rewrite Hqe. cbn [bind].
    destruct xs as [| x xs']; [reflexivity |].
    cbn [Retriever.truthy Retriever.is_list negb orb].
    rewrite Hfl. reflexivity. }
  intros c e Hc Ho.
  destruct (Retriever.retrieve_body env query k partition_key) as [rows | e0] eqn:Hb;
    [| apply (retrieve_failure _ _ _ _ _ Hb)].
  exfalso.
  destruct (retrieve_body_rows _ _ _ _ _ Hb) as [c' [qv [Hc' Hq]]].
  rewrite Hc in Hc'. injection Hc' as <-.
  unfold Retriever.query_items in Hq. rewrite Ho in Hq. discriminate Hq.
Qed.

Lemma retrieve_returns_empty_on_failure_witness :
  Retriever.retrieve Sample.unreachable_store "lounge access" 5 (Some "cards")
  = Return [].
Proof.
  apply (proj1 (proj2 (retrieve_returns_empty_on_failure Sample.unreachable_store
                         "lounge access" 5 (Some "cards")))).
  reflexivity.
Defined.










Example retrieve_five_nearest :
  option_map (map Retriever.row_id)
    (match Retriever.retrieve Sample.card_environment "lounge" 5 (Some "cards") with
     | Return rows => Some rows
     | Raise _ => None
     end)
  = Some ["dining-1"; "lounge-1"; "hotel-1"; "bankgold-2"; "travel-1"].
Proof. vm_compute. reflexivity. Qed.

(** ** Orchestrator and response pipeline *)

Lemma find_lower_bound c s : -1 <= find c s.
Proof.
  induction s as [| a s IH]; simpl; [lia |].
  destruct (Ascii.eqb a c); [lia |].
  destruct (Z.eqb_spec (find c s) (-1)); lia.
Qed.

Lemma rfind_lower_bound c s : -1 <= rfind c s.
Proof.
  induction s as [| a s IH]; simpl; [lia |].
  destruct (Z.eqb_spec (rfind c s) (-1)); [| lia].
  destruct (Ascii.eqb a c); lia.
Qed.

Lemma find_absent c s :
  find c s = -1 <-> ~ In c (list_ascii_of_string s).
Proof.
  induction s as [| a s IH]; simpl; [tauto |].
  destruct (Ascii.eqb_spec a c) as [-> | Hne].
  - split; [discriminate | intros H; exfalso; apply H; left; reflexivity].
  - pose proof (find_lower_bound c s) as Hlb.
    destruct (Z.eqb_spec (find c s) (-1)) as [He | Hn].
    + split; [| reflexivity]. intros _ [H | H]; [contradiction |].
      apply IH in He. contradiction.
    + split; [lia |]. intros H. exfalso. apply Hn, IH.
      intros Hin. apply H. right. exact Hin.
Qed.

Lemma rfind_absent c s :
  rfind c s = -1 <-> ~ In c (list_ascii_of_string s).
Proof.
  induction s as [| a s IH]; simpl; [tauto |].
  pose proof (rfind_lower_bound c s) as Hlb.
  destruct (Z.eqb_spec (rfind c s) (-1)) as [He | Hn].
  - destruct (Ascii.eqb_spec a c) as [-> | Hne].
    + split; [discriminate | intros H; exfalso; apply H; left; reflexivity].
    + split; [| reflexivity]. intros _ [H | H]; [contradiction |].
      apply IH in He. contradiction.
  - split; [lia |]. intros H. exfalso. apply Hn, IH.
    intros Hin. apply H. right. exact Hin.
Qed.

(** A reply without an opening or without a closing brace has no JSON to
    extract. *)
Lemma extract_json_without_braces (agent_response : string) :
  ~ In "{"%char (list_ascii_of_string agent_response)
  \/ ~ In "}"%char (list_ascii_of_string agent_response) ->
  Main.extract_json agent_response
  = Raise (mk_exn ValueError "No JSON found in response").
Proof.
  intros H. unfold Main.extract_json.
  destruct H as [H | H].
  - apply find_absent in H. rewrite H. reflexivity.
  - apply rfind_absent in H. rewrite H. simpl. rewrite orb_true_r. reflexivity.
Qed.

Lemma mirror_returns long_term_memory r : Main.mirror long_term_memory r = Return tt.
Proof.
  unfold Main.mirror, swallow.
  destruct long_term_memory as [add_memory |]; [| reflexivity].
  destruct (add_memory r) as [[] | e]; reflexivity.
Qed.

(** When the reply is obtained the machine has advanced three times, from
    Init to Completed, and carries the session's identifier. *)
Lemma obtain_response_state w user_input memory long_term_memory st m reply :
  Main.obtain_response w user_input memory long_term_memory
  = Return (st, m, reply) ->
  st = State.mk_state (Main.new_session_id w) State.Completed.
Proof.
  unfold Main.obtain_response. intros H.
  destruct (Main.validate_all_config w) as [[] | e]; [| discriminate H].
  cbn [bind] in H.
  destruct (Main.create_kernel w) as [kernel | e]; [| discriminate H].
  cbn [bind] in H. rewrite mirror_returns in H. cbn in H.
  destruct (Main.get_service kernel) as [svc | e]; [| discriminate H].
  cbn [bind] in H.
  match type of H with
  | context [Main.get_chat_message_contents w svc ?h] =>
      destruct (Main.get_chat_message_contents w svc h) as [response | e];
        [| discriminate H]
  end.
  cbn [bind] in H.
  destruct response as [| first rest]; [discriminate H |].
  cbn [bind] in H. rewrite mirror_returns in H. cbn [bind] in H.
  injection H as <- _ _. reflexivity.
Qed.

Lemma process_response_returns w st m reply :
  exists env, Main.process_response w st m reply = Return env.
Proof.
  unfold Main.process_response.
  match goal with
  | |- context [try_except ?body _] => destruct body as [env | e]
  end; simpl.
  - exists env. reflexivity.
  - destruct (is_JSONDecodeError e || is_ValueError e); eexists; reflexivity.
Qed.

Lemma run_request_processes w user_input memory long_term_memory st m reply :
  Main.obtain_response w user_input memory long_term_memory
  = Return (st, m, reply) ->
  Main.run_request w user_input memory long_term_memory
  = Main.process_response w st m reply.
Proof.
  intros H. unfold Main.run_request. rewrite H. cbn [bind].
  destruct (process_response_returns w st m reply) as [env Henv].
  rewrite Henv. reflexivity.
Qed.

Lemma run_request_failure w user_input memory long_term_memory e :
  Main.obtain_response w user_input memory long_term_memory = Raise e ->
  Main.run_request w user_input memory long_term_memory
  = Return (Main.Failure (str e) "failed").
Proof.
  intros H. unfold Main.run_request. rewrite H. reflexivity.
Qed.

(** The validated branch, once extraction, parsing and validation have
    succeeded on a machine in phase Completed. *)
Lemma process_response_validated w sid m reply json_str members plan :
  Main.extract_json reply = Return json_str ->
  Main.json_loads w json_str = Return (Main.JObject members) ->
  Main.TripPlan_init w members = Return plan ->
  Main.process_response w (State.mk_state sid State.Completed) m reply
  = Return (Main.Plan (Main.populate_citations plan)
              (Main.mk_metadata sid ["automatic_via_llm"]
                 "validated_with_pydantic"
                 (Some (List.length (Memory.history m))) None None)).
Proof.
  intros He Hl Hv. unfold Main.process_response.
  rewrite He. cbn [bind]. rewrite Hl. cbn [bind Main.validate].
  rewrite Hv. reflexivity.
Qed.

(** The parse fallback: extraction or [json.loads] raised a ValueError. *)
Lemma process_response_unvalidated w st m reply e :
  (Main.extract_json reply = Raise e
   \/ exists json_str,
        Main.extract_json reply = Return json_str
        /\ Main.json_loads w json_str = Raise e) ->
  is_ValueError e = true ->
  Main.process_response w st m reply
  = Return (Main.Raw reply
              (Main.mk_metadata (State.session_id st) ["automatic_via_llm"]
                 "unvalidated" None (Some (str e)) None)).
Proof.
  intros H Hc. unfold Main.process_response.
  destruct H as [He | [json_str [He Hl]]]; rewrite He; cbn [bind];
    [| rewrite Hl]; simpl; rewrite Hc, orb_true_r; reflexivity.
Qed.

Lemma extract_json_raises reply e :
  Main.extract_json reply = Raise e ->
  e = mk_exn ValueError "No JSON found in response".
Proof.
  unfold Main.extract_json.
  destruct ((find "{" reply =? -1) || (rfind "}" reply + 1 =? 0));
    intros H; [injection H as <-; reflexivity | discriminate H].
Qed.

(** Every envelope of the response pipeline is tagged with one of the three
    quality values. *)
Lemma process_response_quality w st m reply :
  exists env q,
    Main.process_response w st m reply = Return env
    /\ data_quality_of env = Some q
    /\ (q = "validated_with_pydantic" \/ q = "unvalidated"
        \/ q = "validation_failed").
Proof.
  unfold Main.process_response.
  match goal with
  | |- context [try_except ?body _] => destruct body as [env | e] eqn:Hb
  end.
  - apply bind_Return_inv in Hb. destruct Hb as [json_str [_ Hb]].
    apply bind_Return_inv in Hb. destruct Hb as [data [_ Hb]].
    apply bind_Return_inv in Hb. destruct Hb as [plan [_ Hb]].
    apply bind_Return_inv in Hb. destruct Hb as [st' [_ Hb]].
    injection Hb as <-.
    eexists. eexists. split; [reflexivity |]. split; [reflexivity |].
    left. reflexivity.
  - simpl. destruct (is_JSONDecodeError e || is_ValueError e);
      eexists; eexists; (split; [reflexivity |]); (split; [reflexivity |]);
      [right; left | right; right]; reflexivity.
Qed.

Lemma urls_of_non_empty_urls rs : Main.urls_of rs = non_empty_urls rs.
Proof.
  unfold non_empty_urls. induction rs as [| r rs IH]; simpl.
  - reflexivity.
  - destruct (Main.url r) as [u |]; simpl; [| exact IH].
    destruct (String.eqb u ""); simpl; rewrite IH; reflexivity.
Qed.

(** C1, as the claim words it, does not hold: a reply whose JSON parses
    and validates is tagged [validated_with_pydantic], which is none of the
    three values the claim allows. *)
Lemma validated_reply_is_tagged_with_pydantic :
  exists env q,
    Main.run_request (Sample.world ("Here is your plan: " ++ Sample.paris_text)%string)
      "A weekend in Paris" None None = Return env
    /\ data_quality_of env = Some q
    /\ q <> "validated_with_schema"
    /\ q <> "unvalidated"
    /\ q <> "validation_failed".
Proof.
  eexists. eexists. split; [vm_compute; reflexivity |].
  split; [reflexivity |]. repeat split; discriminate.
Qed.

(** C1 (amended): for every reply the pipeline gets to process, the
    envelope's [data_quality] is one of [validated_with_pydantic],
    [unvalidated], [validation_failed]; it is [validated_with_pydantic]
    exactly when the extracted JSON parses to an object that the
    [TripPlan] constructor accepts, and [unvalidated] when extraction fails
    or [json.loads] raises its decode error. *)
Theorem data_quality_of_processed_reply (w : Main.World) (user_input : string)
    (memory : option Memory.ShortTermMemory)
    (long_term_memory : option Main.LongTermMemory)
    (st : State.AgentState) (m : Memory.ShortTermMemory) (reply : string) :
  Main.obtain_response w user_input memory long_term_memory
  = Return (st, m, reply) ->
  exists env q,
    Main.run_request w user_input memory long_term_memory = Return env
    /\ data_quality_of env = Some q
    /\ (q = "validated_with_pydantic" \/ q = "unvalidated"
        \/ q = "validation_failed")
    /\ (q = "validated_with_pydantic" <->
        exists json_str members plan,
          Main.extract_json reply = Return json_str
          /\ Main.json_loads w json_str = Return (Main.JObject members)
          /\ Main.TripPlan_init w members = Return plan)
    /\ ((exists e, Main.extract_json reply = Raise e) -> q = "unvalidated")
    /\ (forall json_str e,
           Main.extract_json reply = Return json_str ->
           Main.json_loads w json_str = Raise e ->
           is_JSONDecodeError e = true ->
           q = "unvalidated").
Proof.
  intros Hobtain.
  rewrite (run_request_processes _ _ _ _ _ _ _ Hobtain).
  rewrite (obtain_response_state _ _ _ _ _ _ _ Hobtain).
  pose (st0 := State.mk_state (Main.new_session_id w) State.Completed).
  fold st0.
  destruct (Main.extract_json reply) as [json_str | e] eqn:He.
  - destruct (Main.json_loads w json_str) as [data | e] eqn:Hl.
    + destruct (Main.validate w data) as [plan | e] eqn:Hv.
      * assert (Hm : exists members,
                   data = Main.JObject members
                   /\ Main.TripPlan_init w members = Return plan).
        { destruct data; simpl in Hv; try discriminate Hv.
          eexists. split; [reflexivity | exact Hv]. }
        destruct Hm as [members [-> Hinit]].
        unfold st0.
        rewrite (process_response_validated w _ m reply json_str members plan
                   He Hl Hinit).
        eexists. eexists. split; [reflexivity |]. split; [reflexivity |].
        split; [left; reflexivity |]. split.
        { split; [| reflexivity]. intros _.
          exists json_str, members, plan. repeat split; assumption. }
        split; [intros [e Hx]; discriminate Hx |].
        intros js e Hx Hy _. injection Hx as <-. rewrite Hl in Hy.
        discriminate Hy.
      * destruct (process_response_quality w st0 m reply)
          as [env [q [Hp [Hq Hthree]]]].
        exists env, q. split; [exact Hp |]. split; [exact Hq |].
        split; [exact Hthree |]. split.
        { split.
          - intros ->. exfalso.
            unfold Main.process_response in Hp. rewrite He in Hp.
            cbn [bind] in Hp. rewrite Hl in Hp. cbn [bind] in Hp.
            rewrite Hv in Hp. simpl in Hp.
            destruct (is_JSONDecodeError e || is_ValueError e);
              injection Hp as <-; discriminate Hq.
          - intros [js [members [plan [Hx [Hy Hz]]]]]. exfalso.
            injection Hx as <-. rewrite Hl in Hy. injection Hy as ->.
            simpl in Hv. rewrite Hz in Hv. discriminate Hv. }
        split; [intros [e' Hx]; discriminate Hx |].
        intros js e' Hx Hy _. injection Hx as <-. rewrite Hl in Hy.
        discriminate Hy.
    + assert (Hp := fun Hc => process_response_unvalidated w st0 m reply e
                      (or_intror (ex_intro _ json_str (conj He Hl))) Hc).
      destruct (process_response_quality w st0 m reply)
        as [env [q [Hq [Hdq Hthree]]]].
      exists env, q. split; [exact Hq |]. split; [exact Hdq |].
      split; [exact Hthree |]. split.
      { split.
        - intros ->. exfalso.
          unfold Main.process_response in Hq. rewrite He in Hq.
          cbn [bind] in Hq. rewrite Hl in Hq. simpl in Hq.
          destruct (is_JSONDecodeError e || is_ValueError e);
            injection Hq as <-; discriminate Hdq.
        - intros [js [members [plan [Hx [Hy _]]]]]. exfalso.
          injection Hx as <-. rewrite Hl in Hy. discriminate Hy. }
      split; [intros [e' Hx]; discriminate Hx |].
      intros js e' Hx Hy Hc. injection Hx as <-. rewrite Hl in Hy.
      injection Hy as <-.
      assert (Hv : is_ValueError e = true).
      { unfold is_JSONDecodeError in Hc. unfold is_ValueError.
        destruct (exn_cls e); try discriminate Hc; reflexivity. }
      rewrite (Hp Hv) in Hq. injection Hq as <-.
      simpl in Hdq. injection Hdq as <-. reflexivity.
  - pose proof (extract_json_raises reply e He) as ->.
    rewrite (process_response_unvalidated w st0 m reply _ (or_introl He) eq_refl).
    eexists. eexists. split; [reflexivity |]. split; [reflexivity |].
    split; [right; left; reflexivity |]. split.
    { split; [discriminate |].
      intros [js [members [plan [Hx _]]]]. discriminate Hx. }
    split; [reflexivity |].
    intros js e' Hx. discriminate Hx.
Qed.

Lemma data_quality_of_processed_reply_witness :
  exists env q,
    Main.run_request (Sample.world "Sorry, I have no plan for you.")
      "A weekend in Paris" None None = Return env
    /\ data_quality_of env = Some q
    /\ q = "unvalidated".
Proof.
  destruct (data_quality_of_processed_reply
              (Sample.world "Sorry, I have no plan for you.")
              "A weekend in Paris" None None
              (State.mk_state "session-1" State.Completed)
              (Memory.add
                 (Memory.add (Memory.new "memory-1" 10 4000) Memory.user
                    "A weekend in Paris" 0)
                 Memory.assistant "Sorry, I have no plan for you." 0)
              "Sorry, I have no plan for you." eq_refl)
    as [env [q [Hrun [Hq [_ [_ [Hfail _]]]]]]].
  exists env, q. split; [exact Hrun |]. split; [exact Hq |].
  apply Hfail. eexists. reflexivity.
Defined.

(** The slip behind the third case of C1: the constructor's
    ValidationError is a ValueError, so the first handler takes it and the
    envelope is tagged [unvalidated], with the error under [parse_error]. *)
Lemma validation_error_takes_parse_fallback w st m reply json_str members e :
  Main.extract_json reply = Return json_str ->
  Main.json_loads w json_str = Return (Main.JObject members) ->
  Main.TripPlan_init w members = Raise e ->
  exn_cls e = ValidationError ->
  Main.process_response w st m reply
  = Return (Main.Raw reply
              (Main.mk_metadata (State.session_id st) ["automatic_via_llm"]
                 "unvalidated" None (Some (str e)) None)).
Proof.
  intros He Hl Hv Hc. unfold Main.process_response.
  rewrite He. cbn [bind]. rewrite Hl. cbn [bind Main.validate]. rewrite Hv.
  simpl. unfold is_JSONDecodeError, is_ValueError. rewrite Hc. reflexivity.
Qed.

Example empty_object_is_unvalidated :
  option_map data_quality_of
    (match Main.run_request (Sample.world "{}") "hello" None None with
     | Return env => Some env
     | Raise _ => None
     end)
  = Some (Some "unvalidated").
Proof. vm_compute. reflexivity. Qed.

Lemma populate_citations_repairs plan r rs :
  Main.citations plan = None \/ Main.citations plan = Some [] ->
  Main.results plan = Some (r :: rs) ->
  Main.populate_citations plan
  = Main.mk_plan (Main.destination plan) (Main.travel_dates plan)
      (Main.weather plan) (Main.results plan)
      (Main.card_recommendation plan) (Main.currency_info plan)
      (Some (Main.urls_of (r :: rs))) (Main.next_steps plan).
Proof.
  intros Hc Hr. unfold Main.populate_citations. rewrite Hr.
  destruct Hc as [Hc | Hc]; rewrite Hc; reflexivity.
Qed.

(** C3: when the reply's JSON parses and validates as a plan whose
    citations are absent or empty and whose results are not empty, the
    envelope is the validated one and carries the plan with its citations
    replaced by the results' URL fields, empty or missing ones skipped, in
    the results' order; nothing else in the plan changes. *)
Theorem citations_populated_from_results (w : Main.World) (user_input : string)
    (memory : option Memory.ShortTermMemory)
    (long_term_memory : option Main.LongTermMemory)
    (st : State.AgentState) (m : Memory.ShortTermMemory) (reply : string)
    (json_str : string) (members : list (string * Main.json))
    (plan : Main.TripPlan) (r : Main.SearchResult) (rs : list Main.SearchResult) :
  Main.obtain_response w user_input memory long_term_memory
  = Return (st, m, reply) ->
  Main.extract_json reply = Return json_str ->
  Main.json_loads w json_str = Return (Main.JObject members) ->
  Main.TripPlan_init w members = Return plan ->
  Main.citations plan = None \/ Main.citations plan = Some [] ->
  Main.results plan = Some (r :: rs) ->
  exists meta,
    Main.run_request w user_input memory long_term_memory
    = Return (Main.Plan
                (Main.mk_plan (Main.destination plan) (Main.travel_dates plan)
                   (Main.weather plan) (Main.results plan)
                   (Main.card_recommendation plan) (Main.currency_info plan)
                   (Some (non_empty_urls (r :: rs))) (Main.next_steps plan))
                meta)
    /\ Main.data_quality meta = "validated_with_pydantic".
Proof.
  intros Hobtain He Hl Hv Hc Hr.
  rewrite (run_request_processes _ _ _ _ _ _ _ Hobtain).
  rewrite (obtain_response_state _ _ _ _ _ _ _ Hobtain).
  rewrite (process_response_validated w _ m reply json_str members plan He Hl Hv).
  rewrite (populate_citations_repairs plan r rs Hc Hr).
  rewrite urls_of_non_empty_urls.
  eexists. split; reflexivity.
Qed.

Lemma citations_populated_from_results_witness :
  exists meta,
    Main.run_request
      (Sample.world ("Here is your plan: " ++ Sample.paris_text)%string)
      "A weekend in Paris" None None
    = Return (Main.Plan
                (Main.mk_plan "Paris, France" "N/A" None
                   (Some [ Main.mk_result (Some "Le Bistro") None
                             (Some "https://bistro.example") None None None;
                           Main.mk_result (Some "Street market") None
                             (Some "") None None None;
                           Main.mk_result (Some "Louvre") None
                             (Some "https://louvre.example") None None None ])
                   None None
                   (Some ["https://bistro.example"; "https://louvre.example"])
                   (Some []))
                meta)
    /\ Main.data_quality meta = "validated_with_pydantic".
Proof.
  apply (citations_populated_from_results
           (Sample.world ("Here is your plan: " ++ Sample.paris_text)%string)
           "A weekend in Paris" None None
           (State.mk_state "session-1" State.Completed)
           (Memory.add
              (Memory.add (Memory.new "memory-1" 10 4000) Memory.user
                 "A weekend in Paris" 0)
              Memory.assistant
              (slice ("Here is your plan: " ++ Sample.paris_text)%string 0 500) 0)
           ("Here is your plan: " ++ Sample.paris_text)%string
           Sample.paris_text
           [ ("destination", Main.JString "Paris, France");
             ("travel_dates", Main.JString "N/A");
             ("results",
              Main.JArray [ Sample.entry_json "Le Bistro" "https://bistro.example";
                            Sample.entry_json "Street market" "";
                            Sample.entry_json "Louvre" "https://louvre.example" ]);
             ("citations", Main.JArray []);
             ("next_steps", Main.JArray []) ]
           (Main.mk_plan "Paris, France" "N/A" None
              (Some [ Main.mk_result (Some "Le Bistro") None
                        (Some "https://bistro.example") None None None;
                      Main.mk_result (Some "Street market") None
                        (Some "") None None None;
                      Main.mk_result (Some "Louvre") None
                        (Some "https://louvre.example") None None None ])
              None None (Some []) (Some []))
           (Main.mk_result (Some "Le Bistro") None
              (Some "https://bistro.example") None None None)
           [ Main.mk_result (Some "Street market") None (Some "") None None None;
             Main.mk_result (Some "Louvre") None
               (Some "https://louvre.example") None None None ]);
    solve [vm_compute; reflexivity | right; reflexivity].
Defined.

(** C4: when the reply has no opening brace or no closing brace, the
    envelope is the raw one: it carries the reply itself, unchanged, the
    tag [unvalidated] and the parse error; and the same envelope shape,
    with the decoder's message, results when the located substring is
    rejected by [json.loads]. *)
Theorem parse_fallback_returns_raw_reply (w : Main.World) (user_input : string)
    (memory : option Memory.ShortTermMemory)
    (long_term_memory : option Main.LongTermMemory)
    (st : State.AgentState) (m : Memory.ShortTermMemory) (reply : string) :
  Main.obtain_response w user_input memory long_term_memory
  = Return (st, m, reply) ->
  (~ contains "{" reply \/ ~ contains "}" reply ->
   Main.run_request w user_input memory long_term_memory
   = Return (Main.Raw reply
               (Main.mk_metadata (Main.new_session_id w) ["automatic_via_llm"]
                  "unvalidated" None (Some "No JSON found in response") None)))
  /\ (forall json_str e,
         Main.extract_json reply = Return json_str ->
         Main.json_loads w json_str = Raise e ->
         is_JSONDecodeError e = true ->
         Main.run_request w user_input memory long_term_memory
         = Return (Main.Raw reply
                     (Main.mk_metadata (Main.new_session_id w)
                        ["automatic_via_llm"] "unvalidated" None
                        (Some (str e)) None))).
Proof.
  intros Hobtain.
  rewrite (run_request_processes _ _ _ _ _ _ _ Hobtain).
  rewrite (obtain_response_state _ _ _ _ _ _ _ Hobtain).
  split.
  - intros Hno.
    rewrite (process_response_unvalidated w _ m reply _
               (or_introl (extract_json_without_braces reply Hno)) eq_refl).
    reflexivity.
  - intros json_str e He Hl Hc.
    assert (Hv : is_ValueError e = true).
    { unfold is_JSONDecodeError in Hc. unfold is_ValueError.
      destruct (exn_cls e); try discriminate Hc; reflexivity. }
    rewrite (process_response_unvalidated w _ m reply e
               (or_intror (ex_intro _ json_str (conj He Hl))) Hv).
    reflexivity.
Qed.

Lemma parse_fallback_returns_raw_reply_witness :
  Main.run_request (Sample.world "Sorry, I have no plan for you.")
    "A weekend in Paris" None None
  = Return (Main.Raw "Sorry, I have no plan for you."
              (Main.mk_metadata "session-1" ["automatic_via_llm"]
                 "unvalidated" None (Some "No JSON found in response") None)).
Proof.
  apply (proj1 (parse_fallback_returns_raw_reply
                  (Sample.world "Sorry, I have no plan for you.")
                  "A weekend in Paris" None None
                  (State.mk_state "session-1" State.Completed)
                  (Memory.add
                     (Memory.add (Memory.new "memory-1" 10 4000) Memory.user
                        "A weekend in Paris" 0)
                     Memory.assistant "Sorry, I have no plan for you." 0)
                  "Sorry, I have no plan for you." eq_refl)).
  left. unfold contains. simpl. intros H.
  repeat (destruct H as [H | H]; [discriminate H |]). exact H.
Defined.

Example unbalanced_reply_is_unvalidated :
  option_map data_quality_of
    (match Main.run_request (Sample.world "} nothing here {") "hello" None None with
     | Return env => Some env
     | Raise _ => None
     end)
  = Some (Some "unvalidated").
Proof. vm_compute. reflexivity. Qed.

(** C9: [run_request] always returns an envelope and never raises; any
    exception of the steps before the response pipeline (configuration
    check, kernel creation, service lookup, completion call, reading the
    first message) yields the envelope with the exception's text under
    [error] and the status [failed], and exceptions inside the response
    pipeline are absorbed by its own fallbacks. *)
Theorem run_request_always_returns_envelope (w : Main.World)
    (user_input : string) (memory : option Memory.ShortTermMemory)
    (long_term_memory : option Main.LongTermMemory) :
  (exists env,
      Main.run_request w user_input memory long_term_memory = Return env)
  /\ (forall e,
         Main.obtain_response w user_input memory long_term_memory = Raise e ->
         Main.run_request w user_input memory long_term_memory
         = Return (Main.Failure (str e) "failed"))
  /\ (forall e,
         Main.validate_all_config w = Raise e ->
         Main.run_request w user_input memory long_term_memory
         = Return (Main.Failure (str e) "failed"))
  /\ (forall e,
         Main.validate_all_config w = Return tt ->
         Main.create_kernel w = Raise e ->
         Main.run_request w user_input memory long_term_memory
         = Return (Main.Failure (str e) "failed"))
  /\ (forall kernel chat_service e,
         Main.validate_all_config w = Return tt ->
         Main.create_kernel w = Return kernel ->
         Main.get_service kernel = Return chat_service ->
         (forall chat_history,
             Main.get_chat_message_contents w chat_service chat_history
             = Raise e) ->
         Main.run_request w user_input memory long_term_memory
         = Return (Main.Failure (str e) "failed"))
  /\ (forall st m reply,
         Main.obtain_response w user_input memory long_term_memory
         = Return (st, m, reply) ->
         exists env,
           Main.process_response w st m reply = Return env
           /\ Main.run_request w user_input memory long_term_memory
              = Return env).
Proof.
  split.
  { unfold Main.run_request.
    apply (try_except_absorbs _ (fun e => Main.Failure (str e) "failed")). }
  split; [intros e; apply run_request_failure |].
  split.
  { intros e Hv. apply run_request_failure.
    unfold Main.obtain_response. rewrite Hv. reflexivity. }
  split.
  { intros e Hv Hk. apply run_request_failure.
    unfold Main.obtain_response. rewrite Hv. cbn [bind]. rewrite Hk.
    reflexivity. }
  split.
  { intros kernel svc e Hv Hk Hs Hc. apply run_request_failure.
    unfold Main.obtain_response. rewrite Hv. cbn [bind]. rewrite Hk.
    cbn [bind]. rewrite mirror_returns. cbn. rewrite Hs. cbn [bind].
    rewrite Hc. reflexivity. }
  intros st m reply Hobtain.
  destruct (process_response_returns w st m reply) as [env Henv].
  exists env. split; [exact Henv |].
  rewrite (run_request_processes _ _ _ _ _ _ _ Hobtain). exact Henv.
Qed.

Lemma run_request_always_returns_envelope_witness :
  Main.run_request Sample.misconfigured "A weekend in Paris" None None
  = Return (Main.Failure "Missing required configuration" "failed").
Proof.
  apply (proj1 (proj2 (proj2 (run_request_always_returns_envelope
                                Sample.misconfigured "A weekend in Paris"
                                None None)))
           (mk_exn Exception "Missing required configuration")).
  reflexivity.
Defined.

(* ===================================================================== *)
(** * Part III. Further properties of the tools and the pipeline          *)
(* ===================================================================== *)

(** ** Weather tool: failure and edge behaviour *)

Lemma interpret_code_category (code : Z) :
  In (Weather.interpret_code code) categories.
Proof.
  unfold Weather.interpret_code, categories.
  destruct (code <=? 1); [simpl; tauto |].
  destruct (code <=? 3); [simpl; tauto |].
  destruct (code >? 50); simpl; tauto.
Qed.

(** A forecast can only leave the body of [get_weather] along the path on
    which both provider calls answered and both temperature lists are
    non-empty. *)
Lemma get_weather_body_forecast api city cn co t tmax tmin cond rec days :
  Weather.get_weather_body api city
  = Return (Weather.Forecast cn co t tmax tmin cond rec days) ->
  exists first rest lat lon daily avg_temp,
    Weather.geocoding_search api city = Return (first :: rest)
    /\ Weather.latitude first = Some lat
    /\ Weather.longitude first = Some lon
    /\ Weather.forecast api lat lon = Return daily
    /\ Weather.temperature_2m_max daily <> []
    /\ Weather.temperature_2m_min daily <> []
    /\ Weather.dominant_condition (Weather.weathercode daily) = Return cond
    /\ rec = Weather.recommend cond avg_temp
    /\ days = List.length (Weather.temperature_2m_max daily).
Proof.
  unfold Weather.get_weather_body. intros H.
  destruct (Weather.geocoding_search api city) as [results | e] eqn:Hg;
    [| discriminate H].
  cbn [bind] in H. destruct results as [| first rest]; [discriminate H |].
  destruct (Weather.latitude first) as [lat |] eqn:Hlat; [| discriminate H].
  destruct (Weather.longitude first) as [lon |] eqn:Hlon; [| discriminate H].
  cbn [bind] in H.
  destruct (Weather.forecast api lat lon) as [daily | e] eqn:Hf;
    [| discriminate H].
  cbn [bind] in H.
  destruct (Weather.temperature_2m_max daily) as [| t1 ts1] eqn:E1;
    [discriminate H |].
  destruct (Weather.temperature_2m_min daily) as [| t2 ts2] eqn:E2;
    [discriminate H |].
  apply bind_Return_inv in H. destruct H as [avg_max [_ H]].
  apply bind_Return_inv in H. destruct H as [avg_min [_ H]].
  apply bind_Return_inv in H. destruct H as [avg_temp [_ H]].
  apply bind_Return_inv in H. destruct H as [d [Hd H]].
  injection H as _ _ _ _ _ Hc Hr Hn. subst d.
  exists first, rest, lat, lon, daily, avg_temp.
  rewrite E1, E2. repeat split; try reflexivity; try discriminate; auto.
Qed.

Lemma dominant_condition_category weather_codes d :
  Weather.dominant_condition weather_codes = Return d -> In d categories.
Proof.
  intros H.
  pose proof (dominant_condition_most_frequent weather_codes) as Hm.
  destruct weather_codes as [| c cs].
  - destruct Hm as [e [He _]]. rewrite He in H. discriminate H.
  - destruct Hm as [d' [Hd' [Hin _]]]. rewrite Hd' in H. injection H as <-.
    apply in_map_iff in Hin. destruct Hin as [code [<- _]].
    apply interpret_code_category.
Qed.

(** X1: [get_weather] never raises.  When a provider call raises, the
    report is the degraded one: a [requests] exception gives the message
    "Weather API request failed: ..." with the recommendation "Unable to
    fetch weather data", any other exception gives "Weather tool error:
    ..." with "An error occurred"; the conditions are "unknown" in both. *)
Theorem get_weather_absorbs_provider_failures (api : Weather.Provider)
    (city : string) :
  (exists r, Weather.get_weather api city = Return r)
  /\ (forall e,
         (Weather.geocoding_search api city = Raise e
          \/ exists first rest lat lon,
               Weather.geocoding_search api city = Return (first :: rest)
               /\ Weather.latitude first = Some lat
               /\ Weather.longitude first = Some lon
               /\ Weather.forecast api lat lon = Raise e) ->
         (is_RequestException e = true ->
          Weather.get_weather api city
          = Return (Weather.Degraded
                      ("Weather API request failed: " ++ str e)%string
                      "unknown" "Unable to fetch weather data"))
         /\ (is_RequestException e = false ->
             Weather.get_weather api city
             = Return (Weather.Degraded
                         ("Weather tool error: " ++ str e)%string
                         "unknown" "An error occurred"))).
Proof.
  split.
  - unfold Weather.get_weather.
    destruct (Weather.get_weather_body api city) as [r | e]; simpl.
    + exists r. reflexivity.
    + destruct (is_RequestException e); eexists; reflexivity.
  - intros e H.
    assert (Hb : Weather.get_weather_body api city = Raise e).
    { unfold Weather.get_weather_body.
      destruct H as [Hg | [first [rest [lat [lon [Hg [Hlat [Hlon Hf]]]]]]]].
      - rewrite Hg. reflexivity.
      - rewrite Hg. cbn [bind]. rewrite Hlat, Hlon. cbn [bind]. rewrite Hf.
        reflexivity. }
    unfold Weather.get_weather. rewrite Hb. simpl.
    split; intros Hc; rewrite Hc; reflexivity.
Qed.

Lemma get_weather_absorbs_provider_failures_witness :
  Weather.get_weather
    (Weather.mk_provider
       (fun _ => Raise (mk_exn RequestException "connection timed out"))
       (fun _ _ => Return Sample.oslo_week))
    "Oslo"
  = Return (Weather.Degraded
              "Weather API request failed: connection timed out"
              "unknown" "Unable to fetch weather data").
Proof.
  apply (proj2 (get_weather_absorbs_provider_failures
                  (Weather.mk_provider
                     (fun _ => Raise (mk_exn RequestException "connection timed out"))
                     (fun _ _ => Return Sample.oslo_week))
                  "Oslo")
           (mk_exn RequestException "connection timed out")).
  - left. reflexivity.
  - reflexivity.
Defined.

(** X2: the two guarded early returns.  A city the geocoder does not know
    gives the report "City '<city>' not found" whatever the forecast
    endpoint would answer; a forecast without maximum or without minimum
    temperatures gives "No temperature data available" whatever the
    weather codes are. *)
Theorem get_weather_without_data (api : Weather.Provider) (city : string) :
  (Weather.geocoding_search api city = Return [] ->
   Weather.get_weather api city
   = Return (Weather.Degraded ("City '" ++ city ++ "' not found")%string
               "unknown" "Unable to get weather data"))
  /\ (forall first rest lat lon daily,
         Weather.geocoding_search api city = Return (first :: rest) ->
         Weather.latitude first = Some lat ->
         Weather.longitude first = Some lon ->
         Weather.forecast api lat lon = Return daily ->
         Weather.temperature_2m_max daily = []
         \/ Weather.temperature_2m_min daily = [] ->
         Weather.get_weather api city
         = Return (Weather.Degraded "No temperature data available"
                     "unknown" "Unable to get weather data")).
Proof.
  split.
  - intros Hg. unfold Weather.get_weather, Weather.get_weather_body.
    rewrite Hg. reflexivity.
  - intros first rest lat lon daily Hg Hlat Hlon Hf Hempty.
    unfold Weather.get_weather, Weather.get_weather_body.
    rewrite Hg. cbn [bind]. rewrite Hlat, Hlon. cbn [bind]. rewrite Hf.
    cbn [bind].
    destruct Hempty as [He | He]; rewrite He;
      [| destruct (Weather.temperature_2m_max daily)]; reflexivity.
Qed.

Lemma get_weather_without_data_witness :
  Weather.get_weather
    (Weather.mk_provider (fun _ => Return [])
       (fun _ _ => Return Sample.oslo_week))
    "Atlantis"
  = Return (Weather.Degraded "City 'Atlantis' not found" "unknown"
              "Unable to get weather data").
Proof.
  apply (proj1 (get_weather_without_data
                  (Weather.mk_provider (fun _ => Return [])
                     (fun _ _ => Return Sample.oslo_week))
                  "Atlantis")).
  reflexivity.
Defined.

(** X3: failures the code does not guard.  A geocoding entry without
    latitude or longitude, and a forecast that has temperatures but no
    weather codes, both end in the generic report "Weather tool error:
    ..." with the recommendation "An error occurred": the first through a
    KeyError, the second because [max] is applied to an empty dictionary. *)
Theorem get_weather_unguarded_failures (api : Weather.Provider)
    (city : string) (first : Weather.geo_result)
    (rest : list Weather.geo_result) :
  Weather.geocoding_search api city = Return (first :: rest) ->
  (Weather.latitude first = None \/ Weather.longitude first = None ->
   exists key,
     (key = "'latitude'" \/ key = "'longitude'")
     /\ Weather.get_weather api city
        = Return (Weather.Degraded ("Weather tool error: " ++ key)%string
                    "unknown" "An error occurred"))
  /\ (forall lat lon daily,
         Weather.latitude first = Some lat ->
         Weather.longitude first = Some lon ->
         Weather.forecast api lat lon = Return daily ->
         Weather.temperature_2m_max daily <> [] ->
         Weather.temperature_2m_min daily <> [] ->
         Weather.weathercode daily = [] ->
         exists message,
           Weather.get_weather api city
           = Return (Weather.Degraded
                       ("Weather tool error: " ++ message)%string
                       "unknown" "An error occurred")).
Proof.
  intros Hg. split.
  - intros Hmissing.
    unfold Weather.get_weather, Weather.get_weather_body.
    rewrite Hg. cbn [bind].
    destruct (Weather.latitude first) as [lat |] eqn:Hlat.
    + destruct Hmissing as [Hm | Hm]; [discriminate Hm |]. rewrite Hm.
      exists "'longitude'". split; [right; reflexivity | reflexivity].
    + exists "'latitude'". split; [left; reflexivity | reflexivity].
  - intros lat lon daily Hlat Hlon Hf Hmax Hmin Hcodes.
    unfold Weather.get_weather, Weather.get_weather_body.
    rewrite Hg. cbn [bind]. rewrite Hlat, Hlon. cbn [bind]. rewrite Hf.
    cbn [bind]. rewrite Hcodes.
    pose proof (len_Q_nonzero _ Hmax) as Lmax.
    pose proof (len_Q_nonzero _ Hmin) as Lmin.
    destruct (Weather.temperature_2m_max daily) as [| t1 ts1];
      [contradiction |].
    destruct (Weather.temperature_2m_min daily) as [| t2 ts2];
      [contradiction |].
    rewrite (truediv_nonzero _ _ Lmax). cbn [bind].
    rewrite (truediv_nonzero _ _ Lmin). cbn [bind].
    eexists. reflexivity.
Qed.

Lemma get_weather_unguarded_failures_witness :
  exists message,
    Weather.get_weather
      (Weather.mk_provider (fun _ => Return [Sample.oslo])
         (fun _ _ => Return (Weather.mk_daily [4; 5]%Q [-2; -1]%Q [])))
      "Oslo"
    = Return (Weather.Degraded ("Weather tool error: " ++ message)%string
                "unknown" "An error occurred").
Proof.
  apply (proj2 (get_weather_unguarded_failures
                  (Weather.mk_provider (fun _ => Return [Sample.oslo])
                     (fun _ _ => Return (Weather.mk_daily [4; 5]%Q [-2; -1]%Q [])))
                  "Oslo" Sample.oslo [] eq_refl)
           (5991 # 100)%Q (1075 # 100)%Q
           (Weather.mk_daily [4; 5]%Q [-2; -1]%Q []));
    solve [reflexivity | discriminate].
Defined.

(** X4: the shape of every report.  A forecast names one of the four
    categories as its conditions, covers at least one day, and its
    recommendation is the category's sentence, alone or followed by the
    cold or the hot advice; a degraded report always has the conditions
    "unknown". *)
Theorem get_weather_report_shape (api : Weather.Provider) (city : string)
    (r : Weather.report) :
  Weather.get_weather api city = Return r ->
  match r with
  | Weather.Forecast _ _ _ _ _ conditions recommendation forecast_days =>
      In conditions categories
      /\ (0 < forecast_days)%nat
      /\ (recommendation = Weather.base_recommendation conditions
          \/ recommendation
             = (Weather.base_recommendation conditions ++ Weather.cold_advice)%string
          \/ recommendation
             = (Weather.base_recommendation conditions ++ Weather.hot_advice)%string)
  | Weather.Degraded _ conditions _ => conditions = "unknown"
  end.
Proof.
  unfold Weather.get_weather.
  destruct (Weather.get_weather_body api city) as [r0 | e] eqn:Hb; simpl.
  - intros H. injection H as <-.
    destruct r0 as [cn co t tmax tmin cond rec days | err cond rec].
    + destruct (get_weather_body_forecast _ _ _ _ _ _ _ _ _ _ Hb)
        as [first [rest [lat [lon [daily [avg [_ [_ [_ [_ [Hmax [_ [Hd [Hr Hn]]]]]]]]]]]]]].
      split; [apply (dominant_condition_category _ _ Hd) |].
      split.
      * subst days. destruct (Weather.temperature_2m_max daily);
          [contradiction | simpl; lia].
      * subst rec. unfold Weather.recommend.
        destruct (Qlt_le_dec avg 10); [right; left; reflexivity |].
        destruct (Qlt_le_dec 30 avg); [right; right | left]; reflexivity.
    + unfold Weather.get_weather_body in Hb.
      destruct (Weather.geocoding_search api city) as [results | e];
        [| discriminate Hb].
      cbn [bind] in Hb. destruct results as [| first rest].
      { injection Hb as _ <- _. reflexivity. }
      destruct (Weather.latitude first); [| discriminate Hb].
      destruct (Weather.longitude first); [| discriminate Hb].
      cbn [bind] in Hb.
      destruct (Weather.forecast api q q0) as [daily | e]; [| discriminate Hb].
      cbn [bind] in Hb.
      destruct (Weather.temperature_2m_max daily) as [| t1 ts1].
      { injection Hb as _ <- _. reflexivity. }
      destruct (Weather.temperature_2m_min daily) as [| t2 ts2].
      { injection Hb as _ <- _. reflexivity. }
      apply bind_Return_inv in Hb. destruct Hb as [avg_max [_ Hb]].
      apply bind_Return_inv in Hb. destruct Hb as [avg_min [_ Hb]].
      apply bind_Return_inv in Hb. destruct Hb as [avg_temp [_ Hb]].
      apply bind_Return_inv in Hb. destruct Hb as [d [_ Hb]].
      discriminate Hb.
  - destruct (is_RequestException e); intros H; injection H as <-; reflexivity.
Qed.

Lemma get_weather_report_shape_witness :
  In "cloudy" categories
  /\ (0 < 7)%nat
  /\ ("Expect overcast skies. Bring layers for varying temperatures. Cold temperatures - bring warm clothing."
      = Weather.base_recommendation "cloudy"
      \/ "Expect overcast skies. Bring layers for varying temperatures. Cold temperatures - bring warm clothing."
         = (Weather.base_recommendation "cloudy" ++ Weather.cold_advice)%string
      \/ "Expect overcast skies. Bring layers for varying temperatures. Cold temperatures - bring warm clothing."
         = (Weather.base_recommendation "cloudy" ++ Weather.hot_advice)%string).
Proof.
  apply (get_weather_report_shape Sample.oslo_provider "oslo"
           (Weather.Forecast "Oslo" "Norway" (11 # 10) (41 # 10) (-19 # 10)
              "cloudy"
              "Expect overcast skies. Bring layers for varying temperatures. Cold temperatures - bring warm clothing."
              7%nat)).
  vm_compute. reflexivity.
Defined.

Lemma tally_total_set (counts : dict nat) (c : string) :
  tally_total (Weather.count_condition counts c) = S (tally_total counts).
Proof.
  unfold Weather.count_condition.
  induction counts as [| [k v] rest IH]; simpl.
  - reflexivity.
  - destruct (String.eqb k c); simpl.
    + lia.
    + rewrite IH. lia.
Qed.

Lemma days_with_map_filter {A : Type} (f : A -> string) (l : list A) (c : string) :
  days_with c (map f l)
  = List.length (filter (fun x => String.eqb (f x) c) l).
Proof.
  unfold days_with. induction l as [| x l IH]; simpl.
  - reflexivity.
  - destruct (string_dec (f x) c) as [-> | Hne].
    + rewrite String.eqb_refl. simpl. f_equal. exact IH.
    + destruct (String.eqb_spec (f x) c); [contradiction | exact IH].
Qed.

Lemma StronglySorted_strict_NoDup {A : Type} (f : A -> nat) (l : list A) :
  StronglySorted (fun a b => (f a < f b)%nat) l -> NoDup l.
Proof.
  induction 1 as [| a l Hs IH Hall].
  - constructor.
  - constructor; [| exact IH].
    intros Hin. rewrite Forall_forall in Hall. specialize (Hall a Hin). lia.
Qed.

(** X5: the counting loop accounts for every day exactly once: the tallies
    sum to the number of daily codes, each condition is a key once, and
    the keys are categories that occur in the window. *)
Theorem condition_counts_account_for_every_day (weather_codes : list Z) :
  let counts :=
    Weather.condition_counts (map Weather.interpret_code weather_codes) in
  tally_total counts = List.length weather_codes
  /\ NoDup (dict_keys counts)
  /\ (forall c,
         In c (dict_keys counts) ->
         In c categories
         /\ exists code, In code weather_codes /\ Weather.interpret_code code = c)
  /\ (forall c,
         Weather.counts_get counts c
         = List.length
             (filter (fun code => String.eqb (Weather.interpret_code code) c)
                weather_codes)).
Proof.
  intros counts. subst counts.
  destruct (condition_counts_invariant (map Weather.interpret_code weather_codes))
    as [Hget [Hkeys Hsorted]].
  split; [| split; [| split]].
  - rewrite <- (length_map Weather.interpret_code weather_codes).
    generalize (map Weather.interpret_code weather_codes) as l.
    induction l as [| x l IH] using rev_ind.
    + reflexivity.
    + rewrite condition_counts_snoc, tally_total_set, IH, length_app.
      simpl. lia.
  - apply (StronglySorted_strict_NoDup _ _ Hsorted).
  - intros c Hc. apply Hkeys in Hc. apply in_map_iff in Hc.
    destruct Hc as [code [<- Hin]].
    split; [apply interpret_code_category |].
    exists code. split; [exact Hin | reflexivity].
  - intros c. rewrite Hget. apply days_with_map_filter.
Qed.

Lemma condition_counts_account_for_every_day_witness :
  In "rainy" categories
  /\ exists code,
       In code [0; 0; 2; 2; 2; 60; 60] /\ Weather.interpret_code code = "rainy".
Proof.
  apply (proj1 (proj2 (proj2 (condition_counts_account_for_every_day
                                [0; 0; 2; 2; 2; 60; 60])))
           "rainy").
  simpl. right. right. left. reflexivity.
Defined.

(** ** Currency tool: normalisation of the codes and degraded reports *)

Lemma upper_char_idempotent a : upper_char (upper_char a) = upper_char a.
Proof. destruct a as [[] [] [] [] [] [] [] []]; reflexivity. Qed.

Lemma is_space_upper_char a : is_space (upper_char a) = is_space a.
Proof. destruct a as [[] [] [] [] [] [] [] []]; reflexivity. Qed.

Lemma upper_idempotent s : upper (upper s) = upper s.
Proof.
  induction s as [| a s IH]; simpl; [reflexivity |].
  rewrite upper_char_idempotent, IH. reflexivity.
Qed.

Lemma lstrip_upper s : lstrip (upper s) = upper (lstrip s).
Proof.
  induction s as [| a s IH]; simpl; [reflexivity |].
  rewrite is_space_upper_char. destruct (is_space a); [exact IH | reflexivity].
Qed.

Lemma rstrip_upper s : rstrip (upper s) = upper (rstrip s).
Proof.
  induction s as [| a s IH]; simpl; [reflexivity |].
  rewrite IH, is_space_upper_char.
  destruct (rstrip s) as [| b r]; simpl.
  - destruct (is_space a); reflexivity.
  - reflexivity.
Qed.

Lemma rstrip_idempotent s : rstrip (rstrip s) = rstrip s.
Proof.
  induction s as [| a s IH]; simpl; [reflexivity |].
  destruct (rstrip s) as [| b r] eqn:E.
  - destruct (is_space a) eqn:Ea; simpl; [reflexivity |].
    rewrite Ea. reflexivity.
  - change (rstrip (String a (String b r))) with
      (match rstrip (String b r) with
       | EmptyString => if is_space a then EmptyString else String a EmptyString
       | r' => String a r'
       end).
    rewrite IH. reflexivity.
Qed.

Lemma lstrip_starts_clean s : starts_clean (lstrip s).
Proof.
  induction s as [| a s IH]; simpl; [exact I |].
  destruct (is_space a) eqn:E; [exact IH | exact E].
Qed.

Lemma rstrip_starts_clean s : starts_clean s -> starts_clean (rstrip s).
Proof.
  destruct s as [| a s]; simpl; [trivial |].
  intros Ha. destruct (rstrip s); [rewrite Ha |]; exact Ha.
Qed.

Lemma lstrip_of_clean s : starts_clean s -> lstrip s = s.
Proof.
  destruct s as [| a s]; simpl; [reflexivity |].
  intros Ha. rewrite Ha. reflexivity.
Qed.

Lemma strip_idempotent s : strip (strip s) = strip s.
Proof.
  unfold strip.
  rewrite (lstrip_of_clean (rstrip (lstrip s))
             (rstrip_starts_clean _ (lstrip_starts_clean s))).
  apply rstrip_idempotent.
Qed.

Lemma normalised_idempotent code : normalised (normalised code) = normalised code.
Proof.
  unfold normalised, strip.
  rewrite <- rstrip_upper, <- lstrip_upper, upper_idempotent.
  apply (strip_idempotent (upper code)).
Qed.

Lemma convert_fx_echoes api amount base target r :
  Fx.convert_fx api amount base target = Return r ->
  echoed r = (normalised base, normalised target, amount).
Proof.
  unfold Fx.convert_fx, normalised.
  destruct (Fx.convert_fx_body api amount (strip (upper base))
              (strip (upper target))) as [r0 | e] eqn:Hb; simpl.
  - intros H. injection H as <-.
    unfold Fx.convert_fx_body in Hb.
    destruct (api amount (strip (upper base)) (strip (upper target)))
      as [data | e]; [| discriminate Hb].
    cbn [bind] in Hb.
    destruct (dict_get (Fx.rates data) (strip (upper target))) as [c |].
    + apply bind_Return_inv in Hb. destruct Hb as [rate [_ Hb]].
      injection Hb as <-. reflexivity.
    + injection Hb as <-. reflexivity.
  - destruct (is_RequestException e); intros H; injection H as <-; reflexivity.
Qed.

(** X6: [convert_fx] works on the normalised codes only (upper case,
    surrounding white space removed).  Normalising is idempotent, so
    handing in codes that are already normalised changes nothing, and
    every report, converted or degraded, echoes the normalised codes and
    the amount it was asked for. *)
Theorem convert_fx_normalises_codes (api : Fx.Frankfurter) (amount : Q)
    (base target : string) :
  normalised (normalised base) = normalised base
  /\ Fx.convert_fx api amount (normalised base) (normalised target)
     = Fx.convert_fx api amount base target
  /\ (forall base' target',
         normalised base' = normalised base ->
         normalised target' = normalised target ->
         Fx.convert_fx api amount base' target'
         = Fx.convert_fx api amount base target)
  /\ (forall r,
         Fx.convert_fx api amount base target = Return r ->
         echoed r = (normalised base, normalised target, amount)).
Proof.
  assert (Hsame : forall base' target',
             normalised base' = normalised base ->
             normalised target' = normalised target ->
             Fx.convert_fx api amount base' target'
             = Fx.convert_fx api amount base target).
  { intros base' target' Hb Ht. unfold Fx.convert_fx.
    fold (normalised base') (normalised target')
         (normalised base) (normalised target).
    rewrite Hb, Ht. reflexivity. }
  split; [apply normalised_idempotent |].
  split; [apply Hsame; apply normalised_idempotent |].
  split; [exact Hsame |].
  intros r. apply convert_fx_echoes.
Qed.

Lemma convert_fx_normalises_codes_witness :
  Fx.convert_fx Sample.quote_092 100 "  Usd" "eur  "
  = Fx.convert_fx Sample.quote_092 100 "usd" " EUR".
Proof.
  apply (proj1 (proj2 (proj2 (convert_fx_normalises_codes
                                Sample.quote_092 100 "usd" " EUR")))
           "  Usd" "eur  "); reflexivity.
Defined.

(** X7: the degraded reports of [convert_fx].  When the response has no
    rate for the normalised target, the report says "Currency '<target>'
    not supported" and carries no amount or rate; when the provider call
    raises, a [requests] exception gives "Currency conversion failed: ..."
    and any other exception "FX tool error: ...". *)
Theorem convert_fx_degraded_reports (api : Fx.Frankfurter) (amount : Q)
    (base target : string) :
  (forall data,
      api amount (normalised base) (normalised target) = Return data ->
      dict_get (Fx.rates data) (normalised target) = None ->
      Fx.convert_fx api amount base target
      = Return (Fx.Degraded
                  ("Currency '" ++ normalised target ++ "' not supported")%string
                  (normalised base) (normalised target) amount))
  /\ (forall e,
         api amount (normalised base) (normalised target) = Raise e ->
         Fx.convert_fx api amount base target
         = Return (Fx.Degraded
                     ((if is_RequestException e
                       then "Currency conversion failed: "
                       else "FX tool error: ") ++ str e)%string
                     (normalised base) (normalised target) amount))
  /\ (forall error b t a,
         Fx.convert_fx api amount base target = Return (Fx.Degraded error b t a) ->
         (exists e, api amount (normalised base) (normalised target) = Raise e)
         \/ exists data,
              api amount (normalised base) (normalised target) = Return data
              /\ dict_get (Fx.rates data) (normalised target) = None).
Proof.
  unfold normalised. split; [| split].
  - intros data Hapi Hget. unfold Fx.convert_fx, Fx.convert_fx_body.
    rewrite Hapi. cbn [bind]. rewrite Hget. reflexivity.
  - intros e Hapi. unfold Fx.convert_fx, Fx.convert_fx_body.
    rewrite Hapi. simpl. destruct (is_RequestException e); reflexivity.
  - intros error b t a. unfold Fx.convert_fx, Fx.convert_fx_body.
    destruct (api amount (strip (upper base)) (strip (upper target)))
      as [data | e] eqn:Hapi.
    + intros H. right. exists data. split; [reflexivity |].
      cbn [bind] in H.
      destruct (dict_get (Fx.rates data) (strip (upper target))) as [c |];
        [| reflexivity].
      exfalso.
      destruct (exchange_rate_returns c amount) as [rate Hr].
      rewrite Hr in H. simpl in H. discriminate H.
    + intros _. left. exists e. reflexivity.
Qed.

Lemma convert_fx_degraded_reports_witness :
  Fx.convert_fx Sample.quote_092 100 "usd" "gbp"
  = Return (Fx.Degraded "Currency 'GBP' not supported" "USD" "GBP" 100).
Proof.
  apply (proj1 (convert_fx_degraded_reports Sample.quote_092 100 "usd" "gbp")
           (Fx.mk_fx_data [("EUR", (100 * (92 # 100))%Q)] (Some "2024-05-17")));
    reflexivity.
Defined.

(** ** Retrieval engine: embeddings, provenance of the rows, nearest rows *)

Lemma embed_each_vectors env texts vs :
  Retriever.embed_each env texts = Return vs ->
  Forall2
    (fun t v =>
       exists first rest,
         Retriever.generate_embeddings env [t] = Return (first :: rest)
         /\ Retriever.to_list first = Return v)
    texts vs.
Proof.
  revert vs. induction texts as [| t texts IH]; simpl; intros vs H.
  - injection H as <-. constructor.
  - destruct (Retriever.generate_embeddings env [t]) as [vectors | e] eqn:Hg;
      [| discriminate H].
    cbn [bind] in H. destruct vectors as [| first rest]; [discriminate H |].
    cbn [bind] in H.
    destruct (Retriever.to_list first) as [v |] eqn:Hv; [| discriminate H].
    cbn [bind] in H.
    destruct (Retriever.embed_each env texts) as [vs' |]; [| discriminate H].
    injection H as <-. constructor; [| apply IH; reflexivity].
    exists first, rest. split; [exact Hg | exact Hv].
Qed.

(** X8: a successful [embed_texts] yields exactly one vector per text, in
    the order of the texts: the i-th vector is the first vector the
    service returned for the i-th text alone, turned into a list.  The
    empty list of texts yields the empty list. *)
Theorem embed_texts_one_vector_per_text (env : Retriever.Environment)
    (texts : list string) (vs : list Retriever.pyvalue) :
  Retriever.embed_texts env texts = Return vs ->
  Retriever.embedding_kernel env = true
  /\ List.length vs = List.length texts
  /\ Forall2
       (fun t v =>
          exists first rest,
            Retriever.generate_embeddings env [t] = Return (first :: rest)
            /\ Retriever.to_list first = Return v)
       texts vs.
Proof.
  unfold Retriever.embed_texts. intros H.
  destruct (Retriever.embedding_kernel env); [| discriminate H].
  destruct (Retriever.embed_each env texts) as [vs' | e] eqn:He;
    [| discriminate H].
  injection H as <-.
  pose proof (embed_each_vectors env texts vs' He) as HF.
  split; [reflexivity |]. split; [| exact HF].
  symmetry. apply (Forall2_length HF).
Qed.

Lemma embed_texts_one_vector_per_text_witness :
  List.length [Retriever.PyList [Retriever.PyFloat (3 # 1)];
               Retriever.PyList [Retriever.PyFloat (3 # 1)]]
  = List.length ["lounge"; "dining"].
Proof.
  apply (embed_texts_one_vector_per_text Sample.card_environment
           ["lounge"; "dining"]
           [Retriever.PyList [Retriever.PyFloat (3 # 1)];
            Retriever.PyList [Retriever.PyFloat (3 # 1)]]).
  reflexivity.
Defined.

(** X9: whatever goes wrong inside [embed_texts] (no kernel, the service
    raising, an empty answer, a vector that cannot be turned into a list),
    the exception that leaves it is a plain [Exception] whose message is
    "Failed to generate embeddings: " followed by the message of the
    cause; the class of the cause is lost. *)
Theorem embed_texts_wraps_failures (env : Retriever.Environment)
    (texts : list string) (e : exn) :
  Retriever.embed_texts env texts = Raise e ->
  exn_cls e = Exception
  /\ exists cause,
       str e = ("Failed to generate embeddings: " ++ str cause)%string
       /\ (Retriever.embedding_kernel env = false ->
           str cause = "Failed to create embedding kernel")
       /\ (Retriever.embedding_kernel env = true ->
           Retriever.embed_each env texts = Raise cause).
Proof.
  unfold Retriever.embed_texts. intros H.
  destruct (Retriever.embedding_kernel env).
  - destruct (Retriever.embed_each env texts) as [vs | cause];
      [discriminate H |].
    simpl in H. injection H as <-. split; [reflexivity |].
    exists cause. split; [reflexivity |]. split; [discriminate | reflexivity].
  - simpl in H. injection H as <-. split; [reflexivity |].
    exists (mk_exn Exception "Failed to create embedding kernel").
    split; [reflexivity |]. split; [reflexivity | discriminate].
Qed.

Lemma embed_texts_wraps_failures_witness :
  exn_cls (mk_exn Exception
             "Failed to generate embeddings: 429 too many requests")
  = Exception.
Proof.
  apply (embed_texts_wraps_failures
           (Retriever.mk_environment None true
              (fun _ => Raise (mk_exn ServiceError "429 too many requests")))
           ["lounge"]
           (mk_exn Exception
              "Failed to generate embeddings: 429 too many requests")).
  reflexivity.
Defined.








(** ** Lazy Cosmos connection *)

Lemma get_cosmos_client_keeps_pairing sdk g :
  both_or_neither g -> both_or_neither (fst (Cosmos.get_cosmos_client sdk g)).
Proof.
  intros Hg. unfold Cosmos.get_cosmos_client. cbn [fst].
  destruct (Cosmos._client g) as [c |] eqn:Hc; [exact Hg |].
  unfold Cosmos.try_connect.
  destruct (endpoint <- Cosmos.environ_item sdk "COSMOS_ENDPOINT" ;;
            key <- Cosmos.environ_item sdk "COSMOS_KEY" ;;
            Cosmos.CosmosClient sdk endpoint key) as [c |].
  - destruct (database <- Cosmos.environ_item sdk "COSMOS_DB" ;;
              name <- Cosmos.environ_item sdk "COSMOS_CONTAINER" ;;
              Cosmos.get_container_client sdk c database name) as [h |].
    + right. exists c, h. split; reflexivity.
    + left. split; reflexivity.
  - left. split; reflexivity.
Qed.

Lemma after_calls_snoc sdks sdk g :
  Cosmos.after_calls (sdks ++ [sdk]) g
  = fst (Cosmos.get_cosmos_client sdk (Cosmos.after_calls sdks g)).
Proof.
  unfold Cosmos.after_calls. rewrite fold_left_app. reflexivity.
Qed.

(** X12: from import time on, after any number of calls in any
    environments, the cached client and container are set together or not
    at all, and [get_cosmos_client] returns exactly the cached pair; so a
    caller that finds a client also finds a container.  A failed attempt,
    even one that had already created the client, leaves both unset. *)
Theorem get_cosmos_client_pairs_client_and_container (sdks : list Cosmos.Sdk)
    (sdk : Cosmos.Sdk) :
  let g := Cosmos.after_calls sdks Cosmos.initial in
  let g' := fst (Cosmos.get_cosmos_client sdk g) in
  both_or_neither g
  /\ both_or_neither g'
  /\ snd (Cosmos.get_cosmos_client sdk g) = (Cosmos._client g', Cosmos._container g')
  /\ (forall e,
         Cosmos._client g = None ->
         snd (Cosmos.try_connect sdk g) = Raise e ->
         g' = Cosmos.initial).
Proof.
  intros g g'.
  assert (Hg : both_or_neither g).
  { subst g. induction sdks as [| s sdks IH] using rev_ind.
    - left. split; reflexivity.
    - rewrite after_calls_snoc. apply get_cosmos_client_keeps_pairing, IH. }
  split; [exact Hg |].
  split; [apply get_cosmos_client_keeps_pairing, Hg |].
  split; [reflexivity |].
  intros e Hnone Hfail. subst g'. unfold Cosmos.get_cosmos_client.
  cbn [fst]. rewrite Hnone.
  destruct (Cosmos.try_connect sdk g) as [g1 [[] | e1]]; [discriminate Hfail |].
  reflexivity.
Qed.

(** An environment in which the account answers but the container name is
    not configured. *)
Lemma get_cosmos_client_pairs_client_and_container_witness :
  fst (Cosmos.get_cosmos_client
         (Cosmos.mk_sdk
            (fun k => if String.eqb k "COSMOS_CONTAINER" then None else Some k)
            (fun e k => Return (Cosmos.mk_client e k))
            (fun c d n => Return (Cosmos.mk_container_client c d n)))
         (Cosmos.after_calls [] Cosmos.initial))
  = Cosmos.initial.
Proof.
  apply (proj2 (proj2 (proj2 (get_cosmos_client_pairs_client_and_container []
                                (Cosmos.mk_sdk
                                   (fun k => if String.eqb k "COSMOS_CONTAINER"
                                             then None else Some k)
                                   (fun e k => Return (Cosmos.mk_client e k))
                                   (fun c d n =>
                                      Return (Cosmos.mk_container_client c d n))))))
           (mk_exn KeyError "'COSMOS_CONTAINER'")); reflexivity.
Defined.

Lemma get_cosmos_client_cached sdk g c :
  Cosmos._client g = Some c ->
  Cosmos.get_cosmos_client sdk g = (g, (Cosmos._client g, Cosmos._container g)).
Proof.
  intros Hc. unfold Cosmos.get_cosmos_client.
  destruct g as [cl co]. simpl in *. subst cl. reflexivity.
Qed.

Lemma after_calls_cached sdks g c :
  Cosmos._client g = Some c -> Cosmos.after_calls sdks g = g.
Proof.
  revert g. induction sdks as [| s sdks IH]; intros g Hc.
  - reflexivity.
  - unfold Cosmos.after_calls. cbn [fold_left].
    rewrite (get_cosmos_client_cached s g c Hc). cbn [fst]. apply IH, Hc.
Qed.

(** X13: the connection is made once and failures are not cached.  Once a
    call has returned a client, every later call returns the same client
    and container without consulting the environment again, whatever it
    has become; after a failed call the next call connects as soon as the
    environment and the SDK allow it. *)
Theorem get_cosmos_client_connects_once (sdk : Cosmos.Sdk) (g : Cosmos.globals)
    (c : Cosmos.Client) (h : option Cosmos.ContainerClient) :
  (snd (Cosmos.get_cosmos_client sdk g) = (Some c, h) ->
   forall later sdk',
     snd (Cosmos.get_cosmos_client sdk'
            (Cosmos.after_calls later (fst (Cosmos.get_cosmos_client sdk g))))
     = (Some c, h))
  /\ (snd (Cosmos.get_cosmos_client sdk g) = (None, None) ->
      forall sdk' c' h',
        (endpoint <- Cosmos.environ_item sdk' "COSMOS_ENDPOINT" ;;
         key <- Cosmos.environ_item sdk' "COSMOS_KEY" ;;
         Cosmos.CosmosClient sdk' endpoint key) = Return c' ->
        (database <- Cosmos.environ_item sdk' "COSMOS_DB" ;;
         name <- Cosmos.environ_item sdk' "COSMOS_CONTAINER" ;;
         Cosmos.get_container_client sdk' c' database name) = Return h' ->
        snd (Cosmos.get_cosmos_client sdk'
               (fst (Cosmos.get_cosmos_client sdk g)))
        = (Some c', Some h')).
Proof.
  split.
  - intros Hret later sdk'.
    set (g1 := fst (Cosmos.get_cosmos_client sdk g)).
    assert (H1 : Cosmos._client g1 = Some c /\ Cosmos._container g1 = h).
    { subst g1. unfold Cosmos.get_cosmos_client in *. cbn [fst snd] in *.
      injection Hret as H1 H2. split; assumption. }
    destruct H1 as [Hc Hh].
    rewrite (after_calls_cached later g1 c Hc).
    rewrite (get_cosmos_client_cached sdk' g1 c Hc). cbn [snd].
    rewrite Hc, Hh. reflexivity.
  - intros Hret sdk' c' h' Hclient Hcontainer.
    set (g1 := fst (Cosmos.get_cosmos_client sdk g)).
    assert (H1 : Cosmos._client g1 = None).
    { subst g1. unfold Cosmos.get_cosmos_client in *. cbn [fst snd] in *.
      injection Hret as H1 _. exact H1. }
    unfold Cosmos.get_cosmos_client. cbn [snd]. rewrite H1.
    unfold Cosmos.try_connect. rewrite Hclient. cbn iota beta zeta.
    rewrite Hcontainer. reflexivity.
Qed.

Lemma get_cosmos_client_connects_once_witness :
  snd (Cosmos.get_cosmos_client
         (Cosmos.mk_sdk (fun _ => None)
            (fun _ _ => Raise (mk_exn ServiceError "unreachable"))
            (fun _ _ _ => Raise (mk_exn ServiceError "unreachable")))
         (Cosmos.after_calls []
            (fst (Cosmos.get_cosmos_client
                    (Cosmos.mk_sdk (fun k => Some k)
                       (fun e k => Return (Cosmos.mk_client e k))
                       (fun c d n => Return (Cosmos.mk_container_client c d n)))
                    Cosmos.initial))))
  = (Some (Cosmos.mk_client "COSMOS_ENDPOINT" "COSMOS_KEY"),
     Some (Cosmos.mk_container_client
             (Cosmos.mk_client "COSMOS_ENDPOINT" "COSMOS_KEY")
             "COSMOS_DB" "COSMOS_CONTAINER")).
Proof.
  apply (proj1 (get_cosmos_client_connects_once
                  (Cosmos.mk_sdk (fun k => Some k)
                     (fun e k => Return (Cosmos.mk_client e k))
                     (fun c d n => Return (Cosmos.mk_container_client c d n)))
                  Cosmos.initial
                  (Cosmos.mk_client "COSMOS_ENDPOINT" "COSMOS_KEY")
                  (Some (Cosmos.mk_container_client
                           (Cosmos.mk_client "COSMOS_ENDPOINT" "COSMOS_KEY")
                           "COSMOS_DB" "COSMOS_CONTAINER")))
           eq_refl []).
Defined.

(** ** Orchestrator: what does and what does not influence the envelope *)

Lemma obtain_response_ignores_long_term_memory w user_input memory long_term_memory :
  Main.obtain_response w user_input memory long_term_memory
  = Main.obtain_response w user_input memory None.
Proof.
  unfold Main.obtain_response.
  destruct (Main.validate_all_config w) as [[] | e]; [| reflexivity].
  cbn [bind].
  destruct (Main.create_kernel w) as [kernel | e]; [| reflexivity].
  cbn [bind]. rewrite !mirror_returns. cbn.
  destruct (Main.get_service kernel) as [svc | e]; [| reflexivity].
  cbn [bind].
  match goal with
  | |- context [Main.get_chat_message_contents w svc ?h] =>
      destruct (Main.get_chat_message_contents w svc h) as [response | e];
        [| reflexivity]
  end.
  cbn [bind].
  destruct response as [| first rest]; [reflexivity |].
  cbn [bind]. rewrite !mirror_returns. reflexivity.
Qed.

(** X14: the long-term store never influences the response.  Whatever
    [add_memory] does, answer or raise, on either of its two calls,
    [run_request] returns the envelope it returns without a long-term
    store. *)
Theorem long_term_memory_never_changes_the_response (w : Main.World)
    (user_input : string) (memory : option Memory.ShortTermMemory)
    (long_term_memory : option Main.LongTermMemory) :
  Main.run_request w user_input memory long_term_memory
  = Main.run_request w user_input memory None.
Proof.
  unfold Main.run_request.
  rewrite (obtain_response_ignores_long_term_memory w user_input memory
             long_term_memory).
  reflexivity.
Qed.



(** ** Response pipeline: what [extract_json] hands to the decoder *)

Lemma string_length_append (a b : string) :
  String.length (a ++ b)%string = (String.length a + String.length b)%nat.
Proof. induction a as [| x a IH]; simpl; [reflexivity | rewrite IH; reflexivity]. Qed.

Lemma string_append_assoc (a b c : string) :
  ((a ++ b) ++ c = a ++ (b ++ c))%string.
Proof. induction a as [| x a IH]; simpl; [reflexivity | rewrite IH; reflexivity]. Qed.

Lemma substring_nothing n s : substring n 0 s = EmptyString.
Proof.
  revert n. induction s as [| x s IH]; intros [| n]; simpl; try reflexivity.
  apply IH.
Qed.

Lemma substring_skip (a b : string) n :
  substring (String.length a) n (a ++ b)%string = substring 0 n b.
Proof. induction a as [| x a IH]; simpl; [reflexivity | exact IH]. Qed.

Lemma substring_prefix (a b : string) :
  substring 0 (String.length a) (a ++ b)%string = a.
Proof.
  induction a as [| x a IH]; simpl.
  - apply substring_nothing.
  - rewrite IH. reflexivity.
Qed.

Lemma contains_append c (a b : string) :
  contains c (a ++ b)%string <-> contains c a \/ contains c b.
Proof.
  unfold contains. induction a as [| x a IH]; simpl.
  - tauto.
  - rewrite IH. tauto.
Qed.

Lemma find_first c s :
  0 <= find c s ->
  exists before after,
    s = (before ++ String c after)%string
    /\ Z.of_nat (String.length before) = find c s
    /\ ~ contains c before.
Proof.
  induction s as [| a s IH]; simpl; [lia |].
  destruct (Ascii.eqb_spec a c) as [-> | Hne].
  - intros _. exists EmptyString, s. repeat split. intros [].
  - pose proof (find_lower_bound c s) as Hlb.
    destruct (Z.eqb_spec (find c s) (-1)) as [He | Hn]; [lia |].
    intros _. destruct IH as [before [after [Hs [Hlen Hno]]]]; [lia |].
    exists (String a before), after. split; [simpl; f_equal; exact Hs |].
    split; [simpl String.length; lia |].
    unfold contains in *. simpl. intros [H | H]; [contradiction | exact (Hno H)].
Qed.

Lemma rfind_last c s :
  0 <= rfind c s ->
  exists before after,
    s = (before ++ String c after)%string
    /\ Z.of_nat (String.length before) = rfind c s
    /\ ~ contains c after.
Proof.
  induction s as [| a s IH]; simpl; [lia |].
  pose proof (rfind_lower_bound c s) as Hlb.
  destruct (Z.eqb_spec (rfind c s) (-1)) as [He | Hn].
  - destruct (Ascii.eqb_spec a c) as [-> | Hne]; [| lia].
    intros _. exists EmptyString, s. repeat split.
    apply rfind_absent. exact He.
  - intros _. destruct IH as [before [after [Hs [Hlen Hno]]]]; [lia |].
    exists (String a before), after. split; [simpl; f_equal; exact Hs |].
    split; [simpl String.length; lia | exact Hno].
Qed.

Lemma find_after_clean_prefix c (before after : string) :
  ~ contains c before ->
  find c (before ++ String c after)%string = Z.of_nat (String.length before).
Proof.
  unfold contains. induction before as [| a before IH]; simpl; intros Hno.
  - rewrite Ascii.eqb_refl. reflexivity.
  - destruct (Ascii.eqb_spec a c) as [-> | Hne];
      [exfalso; apply Hno; left; reflexivity |].
    rewrite IH by (intros H; apply Hno; right; exact H).
    destruct (Z.eqb_spec (Z.of_nat (String.length before)) (-1)); lia.
Qed.

Lemma rfind_before_clean_suffix c (before after : string) :
  ~ contains c after ->
  rfind c (before ++ String c after)%string = Z.of_nat (String.length before).
Proof.
  intros Hno. induction before as [| a before IH]; simpl.
  - rewrite (proj2 (rfind_absent c after) Hno). simpl.
    rewrite Ascii.eqb_refl. reflexivity.
  - rewrite IH.
    destruct (Z.eqb_spec (Z.of_nat (String.length before)) (-1)); lia.
Qed.

(** Two ways of cutting the same string: the shorter first part is a
    prefix of the longer one. *)
Lemma string_app_split (a b c d : string) :
  (a ++ b = c ++ d)%string ->
  (String.length a <= String.length c)%nat ->
  exists m, c = (a ++ m)%string /\ b = (m ++ d)%string.
Proof.
  revert c. induction a as [| x a IH]; simpl; intros c H Hlen.
  - exists c. split; [reflexivity | exact H].
  - destruct c as [| y c]; simpl in *; [lia |].
    injection H as -> H.
    destruct (IH c H) as [m [-> ->]]; [lia |].
    exists m. split; reflexivity.
Qed.

Lemma slice_inner (before body after : string) :
  slice (before ++ body ++ after)%string
    (Z.of_nat (String.length before))
    (Z.of_nat (String.length before) + Z.of_nat (String.length body))
  = body.
Proof.
  unfold slice, clamp_index.
  rewrite !string_length_append.
  destruct (Z.ltb_spec (Z.of_nat (String.length before)) 0) as [H | _]; [lia |].
  destruct (Z.ltb_spec (Z.of_nat (String.length before)
                        + Z.of_nat (String.length body)) 0) as [H | _]; [lia |].
  rewrite !Z.min_l by lia.
  rewrite Nat2Z.id.
  replace (Z.to_nat (Z.of_nat (String.length before)
                     + Z.of_nat (String.length body)
                     - Z.of_nat (String.length before)))
    with (String.length body) by lia.
  rewrite substring_skip. apply substring_prefix.
Qed.

(** X16: what [extract_json] returns.  On a reply of the form
    before ++ "{" ++ inside ++ "}" ++ after, with no opening brace in
    [before] and no closing brace in [after], it returns exactly
    "{" ++ inside ++ "}".  Conversely, whenever it returns, either the
    reply has that form and the result is that span, or the last closing
    brace stands before the first opening brace and the result is the
    empty string, which the decoder then rejects. *)
Theorem extract_json_spans_first_to_last_brace (reply : string) :
  (forall before inside after,
      reply = (before ++ "{" ++ inside ++ "}" ++ after)%string ->
      ~ contains "{" before ->
      ~ contains "}" after ->
      Main.extract_json reply = Return ("{" ++ inside ++ "}")%string)
  /\ (forall json_str,
         Main.extract_json reply = Return json_str ->
         (exists before inside after,
             reply = (before ++ "{" ++ inside ++ "}" ++ after)%string
             /\ ~ contains "{" before
             /\ ~ contains "}" after
             /\ json_str = ("{" ++ inside ++ "}")%string)
         \/ (json_str = EmptyString
             /\ 0 <= rfind "}" reply < find "{" reply)).
Proof.
  assert (Hform : forall before inside after,
             reply = (before ++ "{" ++ inside ++ "}" ++ after)%string ->
             ~ contains "{" before ->
             ~ contains "}" after ->
             Main.extract_json reply = Return ("{" ++ inside ++ "}")%string).
  { intros before inside after -> Hb Ha. unfold Main.extract_json.
    change (before ++ "{" ++ inside ++ "}" ++ after)%string
      with (before ++ String "{" (inside ++ String "}" after))%string.
    rewrite (find_after_clean_prefix "{" before _ Hb).
    replace (before ++ String "{" (inside ++ String "}" after))%string
      with ((before ++ String "{" inside) ++ String "}" after)%string
      by (rewrite string_append_assoc; reflexivity).
    rewrite (rfind_before_clean_suffix "}" _ after Ha).
    rewrite string_length_append. simpl String.length.
    destruct (Z.eqb_spec (Z.of_nat (String.length before)) (-1)); [lia |].
    destruct (Z.eqb_spec
                (Z.of_nat (String.length before + S (String.length inside)) + 1) 0);
      [lia |].
    simpl orb. cbv iota. f_equal.
    replace ((before ++ String "{" inside) ++ String "}" after)%string
      with (before ++ ("{" ++ inside ++ "}") ++ after)%string.
    2:{ rewrite !string_append_assoc. reflexivity. }
    replace (Z.of_nat (String.length before + S (String.length inside)) + 1)
      with (Z.of_nat (String.length before)
            + Z.of_nat (String.length ("{" ++ inside ++ "}")%string)).
    2:{ simpl String.length. rewrite string_length_append. simpl. lia. }
    apply slice_inner. }
  split; [exact Hform |].
  intros json_str H. pose proof H as H0. unfold Main.extract_json in H.
  pose proof (find_lower_bound "{" reply) as Hf.
  pose proof (rfind_lower_bound "}" reply) as Hr.
  destruct (Z.eqb_spec (find "{" reply) (-1)) as [E1 | N1];
    [discriminate H |].
  destruct (Z.eqb_spec (rfind "}" reply + 1) 0) as [E2 | N2];
    [discriminate H |].
  simpl in H. injection H as <-.
  destruct (find_first "{" reply) as [b1 [a1 [H1 [L1 C1]]]]; [lia |].
  destruct (rfind_last "}" reply) as [b2 [a2 [H2 [L2 C2]]]]; [lia |].
  destruct (Z_lt_le_dec (rfind "}" reply) (find "{" reply)) as [Hlt | Hle].
  - right. split; [| lia].
    unfold slice, clamp_index.
    destruct (Z.ltb_spec (find "{" reply) 0); [lia |].
    destruct (Z.ltb_spec (rfind "}" reply + 1) 0); [lia |].
    replace (Z.to_nat (Z.min (rfind "}" reply + 1)
                         (Z.of_nat (String.length reply))
                       - Z.min (find "{" reply)
                           (Z.of_nat (String.length reply))))
      with O by lia.
    apply substring_nothing.
  - left.
    assert (Hsplit : (b1 ++ String "{" a1 = b2 ++ String "}" a2)%string)
      by (rewrite <- H1; exact H2).
    destruct (string_app_split b1 _ b2 _ Hsplit) as [m [Hb2 Ha1]]; [lia |].
    destruct m as [| x m]; simpl in Ha1; [discriminate Ha1 |].
    injection Ha1 as <- Ha1.
    exists b1, m, a2. split.
    { rewrite H1, Ha1. reflexivity. }
    split; [exact C1 |]. split; [exact C2 |].
    assert (Hreply : reply = (b1 ++ "{" ++ m ++ "}" ++ a2)%string)
      by (rewrite H1, Ha1; reflexivity).
    rewrite (Hform b1 m a2 Hreply C1 C2) in H0.
    injection H0 as H0. symmetry. exact H0.
Qed.

Lemma extract_json_spans_first_to_last_brace_witness :
  Main.extract_json "Plan: {a{b}c} done"
  = Return ("{" ++ "a{b}c" ++ "}")%string.
Proof.
  apply (proj1 (extract_json_spans_first_to_last_brace "Plan: {a{b}c} done")
           "Plan: " "a{b}c" " done").
  - reflexivity.
  - unfold contains. simpl. intros H.
    repeat (destruct H as [H | H]; [discriminate H |]). exact H.
  - unfold contains. simpl. intros H.
    repeat (destruct H as [H | H]; [discriminate H |]). exact H.
Defined.

(** ** Response pipeline: fallbacks, envelopes and citations *)

Lemma first_handler_takes_ValueErrors e :
  is_JSONDecodeError e || is_ValueError e = is_ValueError e.
Proof.
  unfold is_JSONDecodeError, is_ValueError. destruct (exn_cls e); reflexivity.
Qed.

Lemma process_response_fallback w st m reply e :
  (Main.extract_json reply = Raise e
   \/ (exists json_str,
          Main.extract_json reply = Return json_str
          /\ Main.json_loads w json_str = Raise e)
   \/ (exists json_str response_data,
          Main.extract_json reply = Return json_str
          /\ Main.json_loads w json_str = Return response_data
          /\ Main.validate w response_data = Raise e)) ->
  Main.process_response w st m reply
  = Return (Main.Raw reply (fallback_metadata (State.session_id st) e)).
Proof.
  intros H. unfold Main.process_response, fallback_metadata.
  destruct H as [He | [[js [He Hl]] | [js [data [He [Hl Hv]]]]]];
    rewrite He; cbn [bind]; try rewrite Hl; cbn [bind]; try rewrite Hv;
    simpl; rewrite first_handler_takes_ValueErrors;
    destruct (is_ValueError e); reflexivity.
Qed.

(** X17: which fallback a failure takes depends only on the class of the
    exception.  Whether extraction, [json.loads] or the [TripPlan]
    constructor raises, a ValueError (so also the decoder's error and the
    constructor's ValidationError) gives the envelope tagged [unvalidated]
    with the message under [parse_error]; any other exception gives
    [validation_failed] with the message under [validation_error].  In
    particular decoded JSON that is not an object ends in
    [validation_failed].  Both envelopes carry the whole reply. *)
Theorem fallback_follows_the_exception_class (w : Main.World)
    (user_input : string) (memory : option Memory.ShortTermMemory)
    (long_term_memory : option Main.LongTermMemory)
    (st : State.AgentState) (m : Memory.ShortTermMemory) (reply : string) :
  Main.obtain_response w user_input memory long_term_memory
  = Return (st, m, reply) ->
  (forall e,
      (Main.extract_json reply = Raise e
       \/ (exists json_str,
              Main.extract_json reply = Return json_str
              /\ Main.json_loads w json_str = Raise e)
       \/ (exists json_str members,
              Main.extract_json reply = Return json_str
              /\ Main.json_loads w json_str = Return (Main.JObject members)
              /\ Main.TripPlan_init w members = Raise e)) ->
      Main.run_request w user_input memory long_term_memory
      = Return (Main.Raw reply (fallback_metadata (Main.new_session_id w) e)))
  /\ (forall json_str response_data,
         Main.extract_json reply = Return json_str ->
         Main.json_loads w json_str = Return response_data ->
         (forall members, response_data <> Main.JObject members) ->
         exists message,
           Main.run_request w user_input memory long_term_memory
           = Return (Main.Raw reply
                       (Main.mk_metadata (Main.new_session_id w)
                          ["automatic_via_llm"] "validation_failed" None None
                          (Some message)))).
Proof.
  intros Hobtain.
  rewrite (run_request_processes _ _ _ _ _ _ _ Hobtain).
  rewrite (obtain_response_state _ _ _ _ _ _ _ Hobtain).
  split.
  - intros e H.
    apply (process_response_fallback w
             (State.mk_state (Main.new_session_id w) State.Completed) m reply e).
    destruct H as [He | [Hl | [js [members [He [Hl Hv]]]]]];
      [left; exact He | right; left; exact Hl | right; right].
    exists js, (Main.JObject members). repeat split; assumption.
  - intros js data He Hl Hobj.
    assert (Hv : exists e, Main.validate w data = Raise e
                           /\ is_ValueError e = false).
    { destruct data; simpl; try (eexists; split; reflexivity).
      exfalso. apply (Hobj members). reflexivity. }
    destruct Hv as [e [Hv Hc]]. exists (str e).
    rewrite (process_response_fallback w _ m reply e
               (or_intror (or_intror (ex_intro _ js (ex_intro _ data
                                                       (conj He (conj Hl Hv))))))).
    unfold fallback_metadata. rewrite Hc. reflexivity.
Qed.

Lemma fallback_follows_the_exception_class_witness :
  Main.run_request (Sample.world "{}") "hello" None None
  = Return (Main.Raw "{}"
              (fallback_metadata "session-1"
                 (mk_exn ValidationError "2 validation errors for TripPlan"))).
Proof.
  apply (proj1 (fallback_follows_the_exception_class (Sample.world "{}")
                  "hello" None None
                  (State.mk_state "session-1" State.Completed)
                  (Memory.add
                     (Memory.add (Memory.new "memory-1" 10 4000) Memory.user
                        "hello" 0)
                     Memory.assistant "{}" 0)
                  "{}" eq_refl)
           (mk_exn ValidationError "2 validation errors for TripPlan")).
  right. right. exists "{}", []. repeat split; reflexivity.
Defined.

Lemma process_response_envelope w st m reply env :
  Main.process_response w st m reply = Return env ->
  exists meta,
    metadata_of env = Some meta
    /\ Main.session_id meta = State.session_id st
    /\ Main.tools_called meta = ["automatic_via_llm"]
    /\ (forall raw meta', env = Main.Raw raw meta' -> raw = reply).
Proof.
  unfold Main.process_response.
  match goal with
  | |- context [try_except ?body _] => destruct body as [env0 | e] eqn:Hb
  end; simpl.
  - intros H. injection H as <-.
    apply bind_Return_inv in Hb. destruct Hb as [json_str [_ Hb]].
    apply bind_Return_inv in Hb. destruct Hb as [data [_ Hb]].
    apply bind_Return_inv in Hb. destruct Hb as [plan [_ Hb]].
    apply bind_Return_inv in Hb. destruct Hb as [st' [Hadv Hb]].
    injection Hb as <-.
    eexists. split; [reflexivity |]. simpl.
    split; [apply (advance_keeps_session _ _ Hadv) |].
    split; [reflexivity |]. intros raw meta' Hx. discriminate Hx.
  - destruct (is_JSONDecodeError e || is_ValueError e);
      intros H; injection H as <-; eexists;
      (split; [reflexivity |]); simpl;
      (split; [reflexivity |]); (split; [reflexivity |]);
      intros raw meta' Hx; injection Hx as <- _; reflexivity.
Qed.

(** X18: the failed envelope comes only from the steps before the reply.
    An envelope returned by [run_request] is either the failed one, and
    then a step before the response pipeline raised and [error] is that
    exception's text, or it has a metadata block, and then the reply was
    obtained, the block names the state machine's session and the single
    tool marker, and a raw envelope carries the whole reply.  A completion
    service that returns no message at all gives the failed envelope. *)
Theorem failed_envelope_only_before_the_reply (w : Main.World)
    (user_input : string) (memory : option Memory.ShortTermMemory)
    (long_term_memory : option Main.LongTermMemory) (env : Main.envelope) :
  Main.run_request w user_input memory long_term_memory = Return env ->
  ((exists e,
       Main.obtain_response w user_input memory long_term_memory = Raise e
       /\ env = Main.Failure (str e) "failed")
   \/ (exists st m reply meta,
          Main.obtain_response w user_input memory long_term_memory
          = Return (st, m, reply)
          /\ metadata_of env = Some meta
          /\ Main.session_id meta = Main.new_session_id w
          /\ Main.tools_called meta = ["automatic_via_llm"]
          /\ (forall raw meta', env = Main.Raw raw meta' -> raw = reply)))
  /\ (forall kernel chat_service,
         Main.validate_all_config w = Return tt ->
         Main.create_kernel w = Return kernel ->
         Main.get_service kernel = Return chat_service ->
         (forall chat_history,
             Main.get_chat_message_contents w chat_service chat_history
             = Return []) ->
         exists message, env = Main.Failure message "failed").
Proof.
  intros Hrun. split.
  - destruct (Main.obtain_response w user_input memory long_term_memory)
      as [[[st m] reply] | e] eqn:Hobtain.
    + right.
      rewrite (run_request_processes _ _ _ _ _ _ _ Hobtain) in Hrun.
      destruct (process_response_envelope _ _ _ _ _ Hrun)
        as [meta [Hm [Hs [Ht Hraw]]]].
      exists st, m, reply, meta. split; [reflexivity |].
      split; [exact Hm |]. split; [| split; assumption].
      rewrite Hs, (obtain_response_state _ _ _ _ _ _ _ Hobtain). reflexivity.
    + left. exists e. split; [reflexivity |].
      rewrite (run_request_failure _ _ _ _ _ Hobtain) in Hrun.
      injection Hrun as <-. reflexivity.
  - intros kernel svc Hv Hk Hs Hc. eexists.
    assert (Hobtain : Main.obtain_response w user_input memory long_term_memory
                      = Raise (mk_exn IndexError "list index out of range")).
    { unfold Main.obtain_response. rewrite Hv. cbn [bind]. rewrite Hk.
      cbn [bind]. rewrite mirror_returns. cbn. rewrite Hs. cbn [bind].
      rewrite Hc. reflexivity. }
    rewrite (run_request_failure _ _ _ _ _ Hobtain) in Hrun.
    injection Hrun as <-. reflexivity.
Qed.

Lemma failed_envelope_only_before_the_reply_witness :
  exists e,
    Main.obtain_response Sample.misconfigured "A weekend in Paris" None None
    = Raise e
    /\ Main.Failure "Missing required configuration" "failed"
       = Main.Failure (str e) "failed".
Proof.
  destruct (proj1 (failed_envelope_only_before_the_reply Sample.misconfigured
                     "A weekend in Paris" None None
                     (Main.Failure "Missing required configuration" "failed")
                     eq_refl))
    as [H | [st [m [reply [meta [_ [Hm _]]]]]]].
  - exact H.
  - discriminate Hm.
Defined.

(** X19: the repair of the citations never invents or overwrites
    anything.  Only the [citations] field can change; a plan that already
    has a citation, or has no results, is returned unchanged; every
    citation of the repaired plan was already a citation or is the
    non-empty URL of one of the plan's results; and repairing twice is
    repairing once. *)
Theorem populate_citations_never_invents (plan : Main.TripPlan) :
  let plan' := Main.populate_citations plan in
  (Main.destination plan' = Main.destination plan
   /\ Main.travel_dates plan' = Main.travel_dates plan
   /\ Main.weather plan' = Main.weather plan
   /\ Main.results plan' = Main.results plan
   /\ Main.card_recommendation plan' = Main.card_recommendation plan
   /\ Main.currency_info plan' = Main.currency_info plan
   /\ Main.next_steps plan' = Main.next_steps plan)
  /\ (cited plan <> [] -> plan' = plan)
  /\ (Main.results plan = None \/ Main.results plan = Some [] -> plan' = plan)
  /\ (forall u,
         In u (cited plan') ->
         In u (cited plan)
         \/ (u <> ""
             /\ exists rs r,
                  Main.results plan = Some rs /\ In r rs /\ Main.url r = Some u))
  /\ Main.populate_citations plan' = plan'.
Proof.
  intros plan'. subst plan'.
  assert (Hurls : forall rs u,
             In u (Main.urls_of rs) ->
             u <> "" /\ exists r, In r rs /\ Main.url r = Some u).
  { induction rs as [| r rs IH]; simpl; intros u Hu; [contradiction |].
    destruct (Main.url r) as [v |] eqn:Hv.
    - destruct (String.eqb_spec v "") as [-> | Hne].
      + destruct (IH u Hu) as [H1 [r' [H2 H3]]].
        split; [exact H1 |]. exists r'. split; [right; exact H2 | exact H3].
      + destruct Hu as [<- | Hu].
        * split; [exact Hne |]. exists r. split; [left; reflexivity | exact Hv].
        * destruct (IH u Hu) as [H1 [r' [H2 H3]]].
          split; [exact H1 |]. exists r'. split; [right; exact H2 | exact H3].
    - destruct (IH u Hu) as [H1 [r' [H2 H3]]].
      split; [exact H1 |]. exists r'. split; [right; exact H2 | exact H3]. }
  unfold Main.populate_citations, cited.
  destruct plan as [d t wth res card cur cit nxt]; cbn -[Main.urls_of].
  assert (Hrepaired :
            forall r rs,
              res = Some (r :: rs) ->
              forall u,
                In u (Main.urls_of (r :: rs)) ->
                u <> ""
                /\ exists rs' r',
                     res = Some rs' /\ In r' rs' /\ Main.url r' = Some u).
  { intros r rs -> u Hu.
    destruct (Hurls (r :: rs) u Hu) as [H1 [r' [H2 H3]]].
    split; [exact H1 |]. exists (r :: rs), r'. repeat split; assumption. }
  destruct res as [[| r rs] |]; cbn -[Main.urls_of].
  - split; [repeat split; reflexivity |].
    split; [reflexivity |]. split; [reflexivity |].
    split; [intros u Hu; left; exact Hu | reflexivity].
  - destruct cit as [[| c cs] |]; cbn -[Main.urls_of].
    + split; [repeat split; reflexivity |].
      split; [intros H; exfalso; apply H; reflexivity |].
      split; [intros [H | H]; discriminate H |].
      split; [intros u Hu; right; apply (Hrepaired r rs eq_refl u Hu) |].
      destruct (Main.urls_of (r :: rs)); reflexivity.
    + split; [repeat split; reflexivity |].
      split; [reflexivity |]. split; [reflexivity |].
      split; [intros u Hu; left; exact Hu | reflexivity].
    + split; [repeat split; reflexivity |].
      split; [intros H; exfalso; apply H; reflexivity |].
      split; [intros [H | H]; discriminate H |].
      split; [intros u Hu; right; apply (Hrepaired r rs eq_refl u Hu) |].
      destruct (Main.urls_of (r :: rs)); reflexivity.
  - split; [repeat split; reflexivity |].
    split; [reflexivity |]. split; [reflexivity |].
    split; [intros u Hu; left; exact Hu | reflexivity].
Qed.

Lemma populate_citations_never_invents_witness :
  Main.populate_citations
    (Main.mk_plan "Paris" "N/A" None
       (Some [Main.mk_result None None (Some "https://a.example") None None None])
       None None (Some ["https://kept.example"]) None)
  = Main.mk_plan "Paris" "N/A" None
      (Some [Main.mk_result None None (Some "https://a.example") None None None])
      None None (Some ["https://kept.example"]) None.
Proof.
  apply (proj1 (proj2 (populate_citations_never_invents
                         (Main.mk_plan "Paris" "N/A" None
                            (Some [Main.mk_result None None
                                     (Some "https://a.example") None None None])
                            None None (Some ["https://kept.example"]) None)))).
  discriminate.
Defined.

(** ** Ingestion *)

Lemma ingest_embed_each_app env done rest :
  Ingest.embed_each env (done ++ rest)
  = (vs <- Ingest.embed_each env done ;;
     ws <- Ingest.embed_each env rest ;;
     Return (vs ++ ws)).
Proof.
  induction done as [| t done IH]; simpl.
  - destruct (Ingest.embed_each env rest); reflexivity.
  - destruct (Ingest.generate_embeddings env [t]) as [vectors |]; [| reflexivity].
    cbn [bind].
    destruct (Ingest.first_as_list vectors) as [v |]; [| reflexivity].
    cbn [bind]. rewrite IH.
    destruct (Ingest.embed_each env done) as [vs |]; [| reflexivity].
    cbn [bind].
    destruct (Ingest.embed_each env rest) as [ws |]; reflexivity.
Qed.

Lemma ingest_embed_each_vectors env texts vs :
  Ingest.embed_each env texts = Return vs ->
  Forall2
    (fun t v =>
       exists vectors,
         Ingest.generate_embeddings env [t] = Return vectors
         /\ Ingest.first_as_list vectors = Return v)
    texts vs.
Proof.
  revert vs. induction texts as [| t texts IH]; simpl; intros vs H.
  - injection H as <-. constructor.
  - destruct (Ingest.generate_embeddings env [t]) as [vectors |] eqn:Hg;
      [| discriminate H].
    cbn [bind] in H.
    destruct (Ingest.first_as_list vectors) as [v |] eqn:Hv; [| discriminate H].
    cbn [bind] in H.
    destruct (Ingest.embed_each env texts) as [vs' |]; [| discriminate H].
    injection H as <-. constructor; [| apply IH; reflexivity].
    exists vectors. split; [exact Hg | exact Hv].
Qed.

Lemma ingest_embed_texts_vectors env texts vs :
  Ingest.embed_texts env texts = Return vs ->
  List.length vs = List.length texts
  /\ Forall2
       (fun t v =>
          exists vectors,
            Ingest.generate_embeddings env [t] = Return vectors
            /\ Ingest.first_as_list vectors = Return v)
       texts vs.
Proof.
  intros H. unfold Ingest.embed_texts in H.
  destruct (Ingest.create_embedding_kernel env) as [[] |]; [| discriminate H].
  cbn [bind] in H.
  pose proof (ingest_embed_each_vectors env texts vs H) as HF.
  split; [symmetry; apply (Forall2_length HF) | exact HF].
Qed.

(** X20: the ingestion's [embed_texts] has no handler.  A failure to
    create the kernel, and the first failure of the service or of the
    conversion of its answer, leave the function unchanged, class and
    message, and no later text is embedded; a successful call yields one
    vector per text, in order, each the first vector the service returned
    for that text alone. *)
Theorem ingest_embed_texts_propagates_failures (env : Ingest.Environment)
    (texts : list string) :
  (forall e,
      Ingest.create_embedding_kernel env = Raise e ->
      Ingest.embed_texts env texts = Raise e)
  /\ (forall done t rest vs e,
         texts = done ++ t :: rest ->
         Ingest.create_embedding_kernel env = Return tt ->
         Ingest.embed_each env done = Return vs ->
         (Ingest.generate_embeddings env [t] = Raise e
          \/ exists vectors,
               Ingest.generate_embeddings env [t] = Return vectors
               /\ Ingest.first_as_list vectors = Raise e) ->
         Ingest.embed_texts env texts = Raise e)
  /\ (forall vs,
         Ingest.embed_texts env texts = Return vs ->
         List.length vs = List.length texts
         /\ Forall2
              (fun t v =>
                 exists vectors,
                   Ingest.generate_embeddings env [t] = Return vectors
                   /\ Ingest.first_as_list vectors = Return v)
              texts vs).
Proof.
  split; [| split].
  - intros e He. unfold Ingest.embed_texts. rewrite He. reflexivity.
  - intros done t rest vs e -> Hk Hdone Hfail.
    unfold Ingest.embed_texts. rewrite Hk. cbn [bind].
    rewrite ingest_embed_each_app, Hdone. cbn [bind]. simpl.
    destruct Hfail as [Hg | [vectors [Hg Hv]]]; rewrite Hg; cbn [bind];
      [| rewrite Hv]; reflexivity.
  - intros vs. apply ingest_embed_texts_vectors.
Qed.

Lemma ingest_embed_texts_propagates_failures_witness :
  Ingest.embed_texts
    (Ingest.mk_environment
       (Raise (mk_exn KeyError "'AZURE_OPENAI_EMBED_DEPLOYMENT'"))
       (fun _ => Return [Ingest.Iterable [1 # 2]])
       (fun _ => Return tt))
    ["BankGold: 4x points on dining worldwide; no FX fees."]
  = Raise (mk_exn KeyError "'AZURE_OPENAI_EMBED_DEPLOYMENT'").
Proof.
  apply (proj1 (ingest_embed_texts_propagates_failures
                  (Ingest.mk_environment
                     (Raise (mk_exn KeyError "'AZURE_OPENAI_EMBED_DEPLOYMENT'"))
                     (fun _ => Return [Ingest.Iterable [1 # 2]])
                     (fun _ => Return tt))
                  ["BankGold: 4x points on dining worldwide; no FX fees."])).
  reflexivity.
Defined.

(** X21: [upsert_snippet] never raises, and the container only ever
    accepts a document whose text was embedded: either nothing is added,
    or exactly one document is, with the given id, text and partition and
    the vector the service returned for the text.  When the embedding
    fails, or the container refuses the document, nothing is added. *)
Theorem upsert_snippet_adds_only_embedded_documents (env : Ingest.Environment)
    (doc_id text pk : string) (accepted : list Retriever.document) :
  exists accepted',
    Ingest.upsert_snippet env doc_id text pk accepted = Return accepted'
    /\ (accepted' = accepted
        \/ exists v,
             accepted'
             = accepted ++ [Retriever.mk_document doc_id text pk (Some v)]
             /\ Ingest.embed_texts env [text] = Return [v]
             /\ Ingest.upsert_item env
                  (Retriever.mk_document doc_id text pk (Some v))
                = Return tt)
    /\ ((exists e, Ingest.embed_texts env [text] = Raise e) ->
        accepted' = accepted)
    /\ (forall v e,
           Ingest.embed_texts env [text] = Return [v] ->
           Ingest.upsert_item env (Retriever.mk_document doc_id text pk (Some v))
           = Raise e ->
           accepted' = accepted)
    /\ (forall v,
           Ingest.embed_texts env [text] = Return [v] ->
           Ingest.upsert_item env (Retriever.mk_document doc_id text pk (Some v))
           = Return tt ->
           accepted'
           = accepted ++ [Retriever.mk_document doc_id text pk (Some v)]).
Proof.
  unfold Ingest.upsert_snippet.
  destruct (Ingest.embed_texts env [text]) as [embeddings | e] eqn:He.
  - assert (Hone : exists v, embeddings = [v]).
    { destruct (ingest_embed_texts_vectors env [text] embeddings He) as [Hlen _].
      destruct embeddings as [| v [| v' vs]]; simpl in Hlen; try discriminate Hlen.
      exists v. reflexivity. }
    destruct Hone as [v ->]. cbn [bind].
    destruct (Ingest.upsert_item env (Retriever.mk_document doc_id text pk (Some v)))
      as [[] | e] eqn:Hu; simpl.
    + eexists. split; [reflexivity |]. split.
      { right. exists v. split; [reflexivity |].
        split; [reflexivity | exact Hu]. }
      split; [intros [e Hx]; discriminate Hx |].
      split.
      * intros v' e Hv' Hx. injection Hv' as <-. rewrite Hu in Hx.
        discriminate Hx.
      * intros v' Hv' _. injection Hv' as <-. reflexivity.
    + eexists. split; [reflexivity |]. split; [left; reflexivity |].
      split; [reflexivity |]. split; [reflexivity |].
      intros v' Hv' Hx. injection Hv' as <-. rewrite Hu in Hx. discriminate Hx.
  - simpl. eexists. split; [reflexivity |]. split; [left; reflexivity |].
    split; [reflexivity |]. split; intros; discriminate.
Qed.

Lemma upsert_snippet_adds_only_embedded_documents_witness :
  exists accepted',
    Ingest.upsert_snippet
      (Ingest.mk_environment (Return tt)
         (fun _ => Raise (mk_exn ServiceError "quota exceeded"))
         (fun _ => Return tt))
      "lounge-1" "Lounge access in CDG Terminal 2 with BankGold Premium." "cards" []
    = Return accepted'
    /\ accepted' = [].
Proof.
  destruct (upsert_snippet_adds_only_embedded_documents
              (Ingest.mk_environment (Return tt)
                 (fun _ => Raise (mk_exn ServiceError "quota exceeded"))
                 (fun _ => Return tt))
              "lounge-1" "Lounge access in CDG Terminal 2 with BankGold Premium."
              "cards" [])
    as [accepted' [Hrun [_ [Hfail _]]]].
  exists accepted'. split; [exact Hrun |].
  apply Hfail. eexists. reflexivity.
Defined.

(** ** Web search tool *)





(** X22: [web_search] never raises and always says what went wrong.
    Without one of its three settings it returns the single entry
    "Missing configuration" and the agent is not asked; any exception in
    the body gives the single entry "Search error" with the exception's
    text; an agent reply without an assistant text block gives the single
    entry "No results". *)
Theorem web_search_reports_failures_as_entries (tools : Search.SearchTools)
    (agent : Search.Agent) (query : string) (max_results : Z)
    (filter_keywords : option (list string)) :
  (exists r,
      Search.web_search tools agent query max_results filter_keywords = Return r)
  /\ (configured tools = false ->
      Search.web_search tools agent query max_results filter_keywords
      = Return [Search.text_entry "Missing configuration" "https://bing.com"
                  "Missing PROJECT_ENDPOINT, AGENT_ID, or BING_CONNECTION_ID"])
  /\ (configured tools = true ->
      (forall e,
          Search.web_search_body agent query max_results filter_keywords
          = Raise e ->
          Search.web_search tools agent query max_results filter_keywords
          = Return [Search.text_entry "Search error" ""
                      ("Failed to retrieve search results: " ++ str e)%string])
      /\ (forall messages,
             Search.ask agent query = Return messages ->
             Search.last_assistant_content messages = [] ->
             Search.delete_thread agent = Return tt ->
             Search.web_search tools agent query max_results filter_keywords
             = Return no_results)).
Proof.
  unfold Search.web_search, configured.
  destruct (Search.present (Search.project_endpoint tools)
            && Search.present (Search.agent_id tools)
            && Search.present (Search.connection_id tools)); simpl.
  - split.
    { destruct (Search.web_search_body agent query max_results filter_keywords);
        simpl; eexists; reflexivity. }
    split; [discriminate |]. intros _. split.
    + intros e He. rewrite He. reflexivity.
    + intros messages Ha Hc Hd. unfold Search.web_search_body.
      rewrite Ha. cbn [bind]. rewrite Hc. cbn [bind Search.raw_text].
      rewrite Hd. reflexivity.
  - split; [eexists; reflexivity |]. split; [reflexivity | discriminate].
Qed.

Lemma web_search_reports_failures_as_entries_witness :
  Search.web_search (Search.mk_tools (Some "https://project.example") None
                       (Some "bing"))
    (Search.mk_agent (fun _ => Return []) (Return tt)
       (fun _ => Return (Main.JArray [])))
    "hotels in Lisbon" 5 None
  = Return [Search.text_entry "Missing configuration" "https://bing.com"
              "Missing PROJECT_ENDPOINT, AGENT_ID, or BING_CONNECTION_ID"].
Proof.
  apply (proj1 (proj2 (web_search_reports_failures_as_entries
                         (Search.mk_tools (Some "https://project.example") None
                            (Some "bing"))
                         (Search.mk_agent (fun _ => Return []) (Return tt)
                            (fun _ => Return (Main.JArray [])))
                         "hotels in Lisbon" 5 None))).
  reflexivity.
Defined.





Example search_without_match_returns_everything :
  Search.web_search_body SampleSearch.agent "lisbon" 5 (Some ["beach"])
  = Return [SampleSearch.hotel; SampleSearch.bakery].
Proof. vm_compute. reflexivity. Qed.

Lemma split_nonempty sep s : PyStr.split sep s <> [].
Proof.
  destruct s as [| a s]; simpl; [discriminate |].
  destruct (Ascii.eqb a sep); [discriminate |].
  destruct (PyStr.split sep s); discriminate.
Qed.

Lemma split_at_separator sep (a b : string) :
  PyStr.split sep (a ++ String sep b)%string
  = PyStr.split sep a ++ PyStr.split sep b.
Proof.
  induction a as [| x a IH]; simpl.
  - rewrite Ascii.eqb_refl. reflexivity.
  - destruct (Ascii.eqb x sep).
    + rewrite IH. reflexivity.
    + rewrite IH. pose proof (split_nonempty sep a) as Hne.
      destruct (PyStr.split sep a) as [| first rest]; [contradiction |].
      reflexivity.
Qed.

Lemma split_without_separator sep s :
  ~ contains sep s -> PyStr.split sep s = [s].
Proof.
  unfold contains. induction s as [| a s IH]; simpl; intros Hno.
  - reflexivity.
  - destruct (Ascii.eqb_spec a sep) as [-> | Hne];
      [exfalso; apply Hno; left; reflexivity |].
    rewrite IH by (intros H; apply Hno; right; exact H). reflexivity.
Qed.

(** Joining the pieces of a split with the separator gives the text
    back. *)
Lemma join_split sep s :
  PyStr.join (String sep EmptyString) (PyStr.split sep s) = s.
Proof.
  induction s as [| a s IH]; simpl.
  - reflexivity.
  - pose proof (split_nonempty sep s) as Hne.
    destruct (Ascii.eqb_spec a sep) as [-> | Hneq].
    + destruct (PyStr.split sep s) as [| first rest]; [contradiction |].
      cbn [PyStr.join]. cbn [PyStr.join] in IH. simpl. f_equal. exact IH.
    + destruct (PyStr.split sep s) as [| first rest]; [contradiction |].
      destruct rest as [| second rest].
      * simpl in *. f_equal. exact IH.
      * cbn [PyStr.join] in *. simpl. f_equal. exact IH.
Qed.

Lemma prefix_of_nothing s : String.prefix EmptyString s = true.
Proof. destruct s; reflexivity. Qed.

Lemma rstrip_clean_head a s :
  is_space a = false -> rstrip (String a s) = String a (rstrip s).
Proof.
  intros Ha. simpl. destruct (rstrip s); [rewrite Ha |]; reflexivity.
Qed.

(** X25: a reply wrapped in a Markdown code fence is read as its content.
    A text that does not start with the fence is left alone; a text made
    of an opening fence line (with any language tag), a body and a closing
    fence line is reduced to the body, stripped of surrounding white
    space, however many lines the body has. *)
Theorem unfence_returns_the_fenced_body :
  (forall raw_json,
      PyStr.startswith raw_json Search.fence = false ->
      Search.unfence raw_json = Return raw_json)
  /\ (forall tag body,
         ~ contains PyStr.newline tag ->
         Search.unfence
           (Search.fence ++ tag ++ line_feed ++ body ++ line_feed ++ Search.fence)%string
         = Return (strip body)).
Proof.
  split.
  - intros raw H. unfold Search.unfence. rewrite H. reflexivity.
  - intros tag body Htag. unfold Search.unfence.
    assert (Hstart : PyStr.startswith
                       (Search.fence ++ tag ++ line_feed ++ body ++ line_feed
                        ++ Search.fence)%string Search.fence = true)
      by (unfold PyStr.startswith, Search.fence; simpl; apply prefix_of_nothing).
    rewrite Hstart.
    assert (Hsplit : PyStr.split PyStr.newline
                       (Search.fence ++ tag ++ line_feed ++ body ++ line_feed
                        ++ Search.fence)%string
                     = (Search.fence ++ tag)%string
                         :: PyStr.split PyStr.newline body ++ [Search.fence]).
    { replace (Search.fence ++ tag ++ line_feed ++ body ++ line_feed
               ++ Search.fence)%string
        with ((Search.fence ++ tag)
              ++ String PyStr.newline (body ++ String PyStr.newline Search.fence))%string
        by (rewrite string_append_assoc; reflexivity).
      rewrite !split_at_separator.
      rewrite (split_without_separator PyStr.newline (Search.fence ++ tag)%string).
      - reflexivity.
      - intros H. apply contains_append in H. destruct H as [H | H];
          [| exact (Htag H)].
        unfold contains in H. simpl in H.
        repeat (destruct H as [H | H]; [discriminate H |]). exact H. }
    rewrite Hsplit.
    assert (Hfirst : PyStr.startswith (strip (Search.fence ++ tag)%string)
                       Search.fence = true).
    { unfold strip. change (lstrip (Search.fence ++ tag)%string)
        with (String "`" (String "`" (String "`" tag))).
      rewrite !rstrip_clean_head by reflexivity.
      unfold PyStr.startswith, Search.fence. simpl. apply prefix_of_nothing. }
    rewrite Hfirst. cbn [bind].
    rewrite rev_unit.
    change (String.eqb (strip Search.fence) Search.fence) with true.
    cbv iota. rewrite removelast_last.
    fold line_feed. unfold line_feed. rewrite join_split. reflexivity.
Qed.

Lemma unfence_returns_the_fenced_body_witness :
  Search.unfence
    (Search.fence ++ "json" ++ line_feed ++ SampleSearch.lisbon_text
     ++ line_feed ++ Search.fence)%string
  = Return (strip SampleSearch.lisbon_text).
Proof.
  apply (proj2 unfence_returns_the_fenced_body "json" SampleSearch.lisbon_text).
  unfold contains. simpl. intros H.
  repeat (destruct H as [H | H]; [discriminate H |]). exact H.
Defined.

Lemma startswith_other_char c x s :
  x <> c -> PyStr.startswith (String x s) (String c EmptyString) = false.
Proof.
  intros Hne. unfold PyStr.startswith. cbn -[ascii_dec].
  destruct (ascii_dec c x) as [He | _]; [| reflexivity].
  exfalso. apply Hne. symmetry. exact He.
Qed.

(** X28: what [web_search] hands to the decoder.  A reply that starts
    with an opening square bracket is handed over whole, whatever follows
    the array; any other reply is cut down to the text from its first
    opening to its last closing square bracket; and such a reply lacking
    one of the two brackets raises a ValueError, which the tool then
    reports as a "Search error" entry. *)
Theorem extract_array_spans_first_to_last_bracket (raw_json : string) :
  (PyStr.startswith raw_json "[" = true ->
   Search.extract_array raw_json = Return raw_json)
  /\ (forall before inside after,
         raw_json = (before ++ "[" ++ inside ++ "]" ++ after)%string ->
         before <> EmptyString ->
         ~ contains "[" before ->
         ~ contains "]" after ->
         Search.extract_array raw_json = Return ("[" ++ inside ++ "]")%string)
  /\ (PyStr.startswith raw_json "[" = false ->
      ~ contains "[" raw_json \/ ~ contains "]" raw_json ->
      exists e, Search.extract_array raw_json = Raise e /\ exn_cls e = ValueError).
Proof.
  split; [| split].
  - intros H. unfold Search.extract_array. rewrite H. reflexivity.
  - intros before inside after -> Hne Hb Ha. unfold Search.extract_array.
    assert (Hstart : PyStr.startswith
                       (before ++ "[" ++ inside ++ "]" ++ after)%string "[" = false).
    { destruct before as [| x before]; [contradiction |].
      apply (startswith_other_char "[" x).
      intros ->. apply Hb. left. reflexivity. }
    rewrite Hstart.
    change (before ++ "[" ++ inside ++ "]" ++ after)%string
      with (before ++ String "[" (inside ++ String "]" after))%string.
    rewrite (find_after_clean_prefix "[" before _ Hb).
    replace (before ++ String "[" (inside ++ String "]" after))%string
      with ((before ++ String "[" inside) ++ String "]" after)%string
      by (rewrite string_append_assoc; reflexivity).
    rewrite (rfind_before_clean_suffix "]" _ after Ha).
    rewrite string_length_append. simpl String.length.
    destruct (Z.eqb_spec (Z.of_nat (String.length before)) (-1)); [lia |].
    destruct (Z.eqb_spec
                (Z.of_nat (String.length before + S (String.length inside))) (-1));
      [lia |].
    simpl. f_equal.
    replace ((before ++ String "[" inside) ++ String "]" after)%string
      with (before ++ ("[" ++ inside ++ "]") ++ after)%string
      by (rewrite !string_append_assoc; reflexivity).
    replace (Z.of_nat (String.length before + S (String.length inside)) + 1)
      with (Z.of_nat (String.length before)
            + Z.of_nat (String.length ("[" ++ inside ++ "]")%string)).
    2:{ simpl String.length. rewrite string_length_append. simpl. lia. }
    apply slice_inner.
  - intros Hstart Hno. unfold Search.extract_array. rewrite Hstart.
    destruct Hno as [H | H].
    + apply find_absent in H. rewrite H. simpl. eexists. split; reflexivity.
    + apply rfind_absent in H. rewrite H. simpl. rewrite andb_false_r.
      eexists. split; reflexivity.
Qed.

Lemma extract_array_spans_first_to_last_bracket_witness :
  Search.extract_array "Here you go: [1, [2]] enjoy"
  = Return ("[" ++ "1, [2]" ++ "]")%string.
Proof.
  apply (proj1 (proj2 (extract_array_spans_first_to_last_bracket
                         "Here you go: [1, [2]] enjoy"))
           "Here you go: " "1, [2]" " enjoy").
  - reflexivity.
  - discriminate.
  - unfold contains. simpl. intros H.
    repeat (destruct H as [H | H]; [discriminate H |]). exact H.
  - unfold contains. simpl. intros H.
    repeat (destruct H as [H | H]; [discriminate H |]). exact H.
Defined.

(** ** Command line *)

Lemma display_prints env : Cli.display env = Cli.Printed env.
Proof. destruct env; reflexivity. Qed.

Lemma run_request_returns w user_input memory long_term_memory :
  exists env,
    Main.run_request w user_input memory long_term_memory = Return env.
Proof.
  unfold Main.run_request.
  apply (try_except_absorbs _ (fun e => Main.Failure (str e) "failed")).
Qed.

Lemma loop_shows_plainly w keys : Forall plainly_shown (fst (Cli.loop w keys)).
Proof.
  induction keys as [| k keys IH]; simpl.
  - constructor.
  - destruct k as [text |]; [| constructor].
    destruct (Cli.quits (strip text)); [constructor |].
    destruct (Main.run_request w (strip text) None None) as [env |];
      [| constructor].
    destruct (Cli.loop w keys) as [out how]. simpl in *.
    constructor; [rewrite display_prints; exact I | exact IH].
Qed.

(** X26: [main] never reaches the plan printer.  The envelopes of
    [run_request] have the top-level keys trip_plan, raw_response,
    metadata, error and status, never "plan", so in one-shot and in
    interactive mode alike every answer is printed as the raw envelope. *)
Theorem main_never_uses_the_plan_printer (w : Main.World)
    (input : option string) (keys : list Cli.keyboard) :
  (forall env, ~ In "plan" (Cli.top_level_keys env))
  /\ Forall plainly_shown (fst (Cli.main w input keys)).
Proof.
  split.
  - intros env H. destruct env; simpl in H;
      repeat (destruct H as [H | H]; [discriminate H |]); exact H.
  - pose proof (loop_shows_plainly w keys) as Hloop.
    unfold Cli.main.
    destruct input as [text |].
    + destruct (String.eqb text "").
      * destruct (Cli.loop w keys) as [out how]. simpl in *.
        constructor; [exact I | exact Hloop].
      * destruct (Main.run_request w text None None) as [env |]; simpl;
          repeat constructor.
    + destruct (Cli.loop w keys) as [out how]. simpl in *.
      constructor; [exact I | exact Hloop].
Qed.

(** X27: how the interactive loop ends.  As long as the typed lines are
    not quit words, each gets exactly one printed envelope, the answer of
    a fresh [run_request] to the stripped line.  The first line that is
    quit, exit or q (in any case, white space around it ignored) and a
    keyboard interrupt both end the loop normally, and nothing typed
    after them is read; running out of input ends it with an uncaught
    EOFError. *)
Theorem loop_ends_at_quit_or_interrupt (w : Main.World)
    (before : list string) (after : list Cli.keyboard) :
  Forall (fun text => Cli.quits (strip text) = false) before ->
  exists answers,
    Forall2 (answer_to w) before answers
    /\ (forall word,
           Cli.quits (strip word) = true ->
           Cli.loop w (map Cli.Line before ++ Cli.Line word :: after)
           = (answers, Cli.Finished))
    /\ Cli.loop w (map Cli.Line before ++ Cli.Interrupt :: after)
       = (answers, Cli.Finished)
    /\ Cli.loop w (map Cli.Line before) = (answers, Cli.Uncaught "EOFError").
Proof.
  intros Hbefore.
  induction Hbefore as [| text before Hq Hall IH].
  - exists []. split; [constructor |]. split; [| split; reflexivity].
    intros word Hword. simpl. rewrite Hword. reflexivity.
  - destruct IH as [answers [HF [Hquit [Hint Heof]]]].
    destruct (run_request_returns w (strip text) None None) as [env Henv].
    exists (Cli.Printed env :: answers). split.
    { constructor; [| exact HF]. exists env. split; [exact Henv | reflexivity]. }
    split; [| split].
    + intros word Hword. simpl. rewrite Hq, Henv, (Hquit word Hword).
      rewrite display_prints. reflexivity.
    + simpl. rewrite Hq, Henv, Hint, display_prints. reflexivity.
    + simpl. rewrite Hq, Henv, Heof, display_prints. reflexivity.
Qed.

Lemma loop_ends_at_quit_or_interrupt_witness :
  exists answers,
    Forall2 (answer_to (Sample.world "{}")) ["hello"] answers
    /\ Cli.loop (Sample.world "{}")
         (map Cli.Line ["hello"] ++ Cli.Line "  QUIT " :: [Cli.Line "ignored"])
       = (answers, Cli.Finished).
Proof.
  destruct (loop_ends_at_quit_or_interrupt (Sample.world "{}") ["hello"]
              [Cli.Line "ignored"])
    as [answers [HF [Hquit _]]].
  - constructor; [reflexivity | constructor].
  - exists answers. split; [exact HF |]. apply Hquit. reflexivity.
Defined.

Lemma main_never_uses_the_plan_printer_witness :
  Forall plainly_shown
    (fst (Cli.main (Sample.world "{}") None [Cli.Line "hello"; Cli.Line "q"])).
Proof.
  apply (proj2 (main_never_uses_the_plan_printer (Sample.world "{}") None
                  [Cli.Line "hello"; Cli.Line "q"])).
Defined.
